(** * STOBot news delivery engine

    A shallow embedding of the delivery core of sto_news_discord_bot
    (packages [types], [database], [news] and the embed helpers of
    [discord]) together with the properties of its specification.

    Conventions of the model.
    - Go strings are byte strings: [string] of the Standard Library, [len]
      counts bytes.  The functions of package strings that work on bytes
      (Contains, Split, Join, Repeat, HasPrefix, TrimPrefix) are written
      out; the ones that work on Unicode characters (ToLower, Fields,
      TrimSpace) are functions of the library record [Lib], so that what
      is proved holds for Go's.
    - Go [int] and [int64] values are [Z]; [time.Time] is a number of
      seconds on an arbitrary but fixed time line whose origin is the zero
      [time.Time].
    - The SQLite file is a record of tables.  Every call into the driver
      (Exec, Query, QueryRow, Begin, Commit) has an index; the environment
      field [db_fault] says which calls fail below SQL (busy, I/O).
    - The chat service and the upstream feed are oracles of the environment,
      indexed by the number of calls made so far, so that any schedule of
      answers and failures is an environment.
    - A function of the program is a function on worlds.  The go
      statements are in module [goroutines]: a goroutine is a sequence of
      actions, and a schedule says which goroutine takes the next one.
      [news.pollTick] and [run] are the schedule in which every goroutine
      that is started runs to its end before its starter goes on. *)

From Stdlib Require Import ZArith List String Ascii Bool Lia Arith.
From Stdlib Require Import DecimalString.
From Equations Require Import Equations.
Import ListNotations.

Set Implicit Arguments.
Set Warnings "-register-all".
Open Scope string_scope.

(** ** Go values: errors and results *)

Inductive error : Type :=
| ErrNoRows                     (* sql.ErrNoRows *)
| ErrDriver                     (* a failure below SQL: busy, I/O *)
| ErrSQL (msg : string)         (* the statement itself is rejected *)
| ErrHTTP                       (* client.Get failed *)
| ErrChat (msg : string)        (* the chat service refused the call *)
| ErrJSON (msg : string)        (* encoding/json refused the payload *)
| ErrPanic (msg : string)       (* a run-time panic, see below *)
| ErrNew (msg : string)         (* fmt.Errorf without a wrapped error *)
| Errorf (msg : string) (cause : error).   (* fmt.Errorf("...: %v", err) *)

(** A panic is not an error value of the program: the function that
    panics does not return, and nothing in the repository recovers, so the
    process ends.  In the model the panic is the result of the call and is
    handed up like an error; what the model does after it has no
    counterpart in the program. *)

Inductive result (A : Type) : Type :=
| Ok (a : A)
| Err (e : error).
Arguments Ok {A} a.
Arguments Err {A} e.

Definition is_ok {A} (r : result A) : bool :=
  match r with Ok _ => true | Err _ => false end.

Definition len (s : string) : Z := Z.of_nat (String.length s).

(** [s[:n]] for [0 <= n <= len s]. *)
Definition slice_to (s : string) (n : Z) : string := substring 0 (Z.to_nat n) s.

(** ** Package strings: the functions on bytes

    [ToLowerASCII], [FieldsASCII] and [TrimSpaceASCII] are what
    strings.ToLower, strings.Fields and strings.TrimSpace do on a text of
    ASCII bytes; they serve as the library of the examples. *)

Module strings.

Definition lower_byte (c : ascii) : ascii :=
  let n := nat_of_ascii c in
  if ((65 <=? n) && (n <=? 90))%nat then ascii_of_nat (n + 32) else c.

Fixpoint ToLowerASCII (s : string) : string :=
  match s with
  | EmptyString => EmptyString
  | String c r => String (lower_byte c) (ToLowerASCII r)
  end.

Definition isSpace (c : ascii) : bool :=
  let n := nat_of_ascii c in
  ((n =? 32) || ((9 <=? n) && (n <=? 13)))%nat.

Fixpoint fields_from (s word : string) : list string :=
  match s with
  | EmptyString => if String.eqb word "" then [] else [word]
  | String c r =>
      if isSpace c
      then (if String.eqb word "" then fields_from r ""
            else word :: fields_from r "")
      else fields_from r (word ++ String c "")
  end.

Definition FieldsASCII (s : string) : list string := fields_from s "".

Fixpoint Contains (s substr : string) : bool :=
  prefix substr s ||
  match s with
  | EmptyString => false
  | String _ r => Contains r substr
  end.

Definition Join (elems : list string) (sep : string) : string :=
  String.concat sep elems.

Fixpoint split_from (s : string) (sep : ascii) (cur : string) : list string :=
  match s with
  | EmptyString => [cur]
  | String c r =>
      if Ascii.eqb c sep then cur :: split_from r sep ""
      else split_from r sep (cur ++ String c "")
  end.

(** [strings.Split(s, sep)] for a one-byte separator. *)
Definition Split (s : string) (sep : ascii) : list string := split_from s sep "".

Fixpoint Repeat (s : string) (count : nat) : string :=
  match count with
  | O => ""
  | S n => s ++ Repeat s n
  end.

Definition HasPrefix (s prefix : string) : bool := String.prefix prefix s.

Definition TrimPrefix (s prefix : string) : string :=
  if HasPrefix s prefix
  then substring (String.length prefix) (String.length s - String.length prefix) s
  else s.

Fixpoint trim_left (s : string) : string :=
  match s with
  | EmptyString => EmptyString
  | String c r => if isSpace c then trim_left r else s
  end.

Fixpoint trim_right (s : string) : string :=
  match s with
  | EmptyString => EmptyString
  | String c r =>
      let r' := trim_right r in
      if isSpace c && String.eqb r' "" then EmptyString else String c r'
  end.

Definition TrimSpaceASCII (s : string) : string := trim_right (trim_left s).

End strings.

(** ** Package strconv *)

Module strconv.

Definition Itoa (z : Z) : string := NilZero.string_of_int (Z.to_int z).

Definition digit_of (c : ascii) : option Z :=
  let n := nat_of_ascii c in
  if ((48 <=? n) && (n <=? 57))%nat then Some (Z.of_nat (n - 48)) else None.

Fixpoint parse_digits (s : string) (acc : Z) : option Z :=
  match s with
  | EmptyString => Some acc
  | String c r =>
      match digit_of c with
      | Some d => parse_digits r (10 * acc + d)%Z
      | None => None
      end
  end.

Definition minInt64 : Z := (- 2 ^ 63)%Z.
Definition maxInt64 : Z := (2 ^ 63 - 1)%Z.

Definition inInt64 (z : Z) : bool := ((minInt64 <=? z) && (z <=? maxInt64))%Z.

(** [strconv.ParseInt(s, 10, 64)]; [None] stands for a non-nil error
    (syntax or range). *)
Definition ParseInt (s : string) : option Z :=
  match s with
  | EmptyString => None
  | String c r =>
      let neg := Ascii.eqb c "-" in
      let body := if Ascii.eqb c "+" || Ascii.eqb c "-" then r else s in
      match body with
      | EmptyString => None
      | _ =>
          match parse_digits body 0 with
          | None => None
          | Some n =>
              let v := if neg then (- n)%Z else n in
              if inInt64 v then Some v else None
          end
      end
  end.

Definition maxUint64 : Z := (2 ^ 64 - 1)%Z.

(** [strconv.ParseUint(s, 10, 64)]: digits only, no sign. *)
Definition ParseUint (s : string) : option Z :=
  match s with
  | EmptyString => None
  | _ =>
      match parse_digits s 0 with
      | None => None
      | Some n => if (n <=? maxUint64)%Z then Some n else None
      end
  end.

End strconv.

(** ** Library functions that stay abstract

    [time.Parse], [Time.Format], the HTML text extraction (goquery and
    regexp) and the functions of package strings that depend on the Unicode
    tables are not part of the repository; the program is modelled over
    any implementation of them. *)

Record Lib : Type := {
  time_Parse : string -> string -> option Z;   (* layout, value *)
  time_Format : Z -> string -> string;         (* t.Format(layout) *)
  html_Text : string -> string;                (* extractTextFromHTML *)
  strings_ToLower : string -> string;          (* strings.ToLower *)
  strings_Fields : string -> list string;      (* strings.Fields *)
  strings_TrimSpace : string -> string         (* strings.TrimSpace *)
}.

(** ** Package types *)

Module types.

(** What encoding/json hands to [interface{}] values.  A number arrives
    as a finite float64, written here as [mant * 2 ^ expo]. *)
Record float64 : Type := { mant : Z; expo : Z }.

Inductive JSON : Type :=
| JNull
| JBool (b : bool)
| JNumber (f : float64)
| JString (s : string)
| JArray (elems : list JSON)
| JObject (members : list (string * JSON)).

Definition Time : Type := Z.

Record Config : Type := {
  DiscordToken : string;
  PollPeriod : Z;
  PollCount : Z;
  FreshSeconds : Z;
  MsgCount : Z;
  ChannelsPath : string;
  DatabasePath : string;
  Environment : string
}.

Record NewsItem : Type := {
  ID : Z;
  Title : string;
  Summary : string;
  Content : string;
  Tags : list string;
  Platforms : list string;
  Updated : Time;
  ThumbnailURL : string;
  Images : option (list (string * JSON))
}.

(** The zero value of [NewsItem]. *)
Definition zeroNewsItem : NewsItem :=
  {| ID := 0; Title := ""; Summary := ""; Content := ""; Tags := [];
     Platforms := []; Updated := 0%Z; ThumbnailURL := ""; Images := None |}.

Record FetchOptions : Type := {
  EnablePagination : bool;
  PageLimit : Z;
  ItemLimit : Z
}.

Record DatabaseOptions : Type := {
  UseBatch : bool;
  IgnoreErrors : bool;
  RetryCount : Z;
  LogProgress : bool
}.

Definition DefaultDatabaseOptions : DatabaseOptions :=
  {| UseBatch := false; IgnoreErrors := false; RetryCount := 3;
     LogProgress := false |}.

(** Layouts of package time used by the program. *)
Definition RFC3339 : string := "2006-01-02T15:04:05Z07:00".

(** [int64(v)] for a float64: truncation toward zero.  Outside int64 Go
    leaves the result to the implementation; the value given here is the
    one of amd64. *)
Definition int64_of_float64 (f : float64) : Z :=
  let t := if (0 <=? expo f)%Z then (mant f * 2 ^ expo f)%Z
           else Z.quot (mant f) (2 ^ (- expo f)) in
  if strconv.inInt64 t then t else strconv.minInt64.

(** The value of a key of a map decoded from a JSON object: keys are
    compared as they are, the last occurrence in the text wins. *)
Definition lookup (key : string) (members : list (string * JSON)) : option JSON :=
  fold_left (fun acc kv => if String.eqb (fst kv) key then Some (snd kv) else acc)
            members None.

(** *** The fields of the struct that UnmarshalJSON decodes into

    [aux] has the fields ID and Updated of its own, which hide the ones of
    the embedded receiver, and the other fields of the receiver. *)
Inductive Field : Type :=
| FieldID | FieldUpdated | FieldTitle | FieldSummary | FieldContent
| FieldTags | FieldPlatforms | FieldThumbnailURL | FieldImages.

Definition fieldNames : list (string * Field) :=
  [ ("id", FieldID); ("updated", FieldUpdated); ("title", FieldTitle);
    ("summary", FieldSummary); ("content", FieldContent); ("tags", FieldTags);
    ("platforms", FieldPlatforms); ("thumbnail_url", FieldThumbnailURL);
    ("images", FieldImages) ].

(** A key against a field name (lower-case letters and the underscore),
    the case of letters left aside, as encoding/json compares them: an
    ASCII letter matches in either case; the long s (U+017F, bytes C5 BF)
    matches s and the Kelvin sign (U+212A, bytes E2 84 AA) matches k. *)
Fixpoint foldsTo (name key : string) : bool :=
  match name with
  | EmptyString => String.eqb key ""
  | String c name' =>
      match key with
      | EmptyString => false
      | String b key' =>
          if Ascii.eqb (strings.lower_byte b) c then foldsTo name' key'
          else if Ascii.eqb c "s" then
            match key' with
            | String b1 key'' =>
                (nat_of_ascii b =? 197)%nat && (nat_of_ascii b1 =? 191)%nat
                && foldsTo name' key''
            | EmptyString => false
            end
          else if Ascii.eqb c "k" then
            match key' with
            | String b1 (String b2 key'') =>
                (nat_of_ascii b =? 226)%nat && (nat_of_ascii b1 =? 132)%nat
                && (nat_of_ascii b2 =? 170)%nat && foldsTo name' key''
            | _ => false
            end
          else false
      end
  end.

(** The field a key is decoded into: the one with that name, or else the
    first one whose name the key folds to; [None] for a key that is
    ignored. *)
Definition fieldOf (key : string) : option Field :=
  match find (fun nf => String.eqb (fst nf) key) fieldNames with
  | Some nf => Some (snd nf)
  | None => option_map snd (find (fun nf => foldsTo (fst nf) key) fieldNames)
  end.

Definition sameField (f g : Field) : bool :=
  match f, g with
  | FieldID, FieldID | FieldUpdated, FieldUpdated | FieldTitle, FieldTitle
  | FieldSummary, FieldSummary | FieldContent, FieldContent
  | FieldTags, FieldTags | FieldPlatforms, FieldPlatforms
  | FieldThumbnailURL, FieldThumbnailURL | FieldImages, FieldImages => true
  | _, _ => false
  end.

(** [aux] while the decoder goes through the members of the object:
    [aux.ID] (an interface{}: nil or the value), [aux.Updated], the
    receiver behind the embedded pointer, and the first error the decoder
    has met, which it returns at the end. *)
Record Aux : Type := {
  auxID : option JSON;
  auxUpdated : string;
  auxAlias : NewsItem;
  auxError : option error
}.

Definition saveError (e : error) (a : Aux) : Aux :=
  {| auxID := auxID a; auxUpdated := auxUpdated a; auxAlias := auxAlias a;
     auxError := match auxError a with Some first => Some first | None => Some e end |}.

Definition withAlias (n : NewsItem) (a : Aux) : Aux :=
  {| auxID := auxID a; auxUpdated := auxUpdated a; auxAlias := n;
     auxError := auxError a |}.

(** encoding/json on a value for a string: null leaves the string as it
    is. *)
Definition intoString (v : JSON) (old : string) : result string :=
  match v with
  | JNull => Ok old
  | JString s => Ok s
  | _ => Err (ErrJSON "cannot unmarshal into Go value of type string")
  end.

(** The elements of an array for a []string, and the first error among
    them; an element that is refused stays empty. *)
Fixpoint intoStrings (elems : list JSON) : list string * option error :=
  match elems with
  | [] => ([], None)
  | e :: rest =>
      let (l, err) := intoStrings rest in
      match intoString e "" with
      | Ok s => (s :: l, err)
      | Err e' => ("" :: l, Some e')
      end
  end.

Definition stringField (v : JSON) (old : string) (set : string -> Aux) (a : Aux)
  : Aux :=
  match intoString v old with
  | Ok s => set s
  | Err e => saveError e a
  end.

(** A []string field: null makes it nil, an array replaces it.  (When a
    second member names the same field, encoding/json decodes into the
    slice it has; the model is for objects that name a list field once.) *)
Definition stringsField (v : JSON) (set : list string -> Aux) (a : Aux) : Aux :=
  match v with
  | JNull => set []
  | JArray elems =>
      let (l, err) := intoStrings elems in
      match err with
      | Some e => saveError e (set l)
      | None => set l
      end
  | _ => saveError (ErrJSON "cannot unmarshal into Go value of type []string") a
  end.

(** One member of the object. *)
Definition decodeMember (a : Aux) (member : string * JSON) : Aux :=
  let v := snd member in
  let n := auxAlias a in
  match fieldOf (fst member) with
  | None => a
  | Some FieldID =>
      {| auxID := match v with JNull => None | _ => Some v end;
         auxUpdated := auxUpdated a; auxAlias := n; auxError := auxError a |}
  | Some FieldUpdated =>
      stringField v (auxUpdated a)
        (fun s => {| auxID := auxID a; auxUpdated := s; auxAlias := n;
                     auxError := auxError a |}) a
  | Some FieldTitle =>
      stringField v (Title n)
        (fun s => withAlias
                    {| ID := ID n; Title := s; Summary := Summary n;
                       Content := Content n; Tags := Tags n;
                       Platforms := Platforms n; Updated := Updated n;
                       ThumbnailURL := ThumbnailURL n; Images := Images n |} a) a
  | Some FieldSummary =>
      stringField v (Summary n)
        (fun s => withAlias
                    {| ID := ID n; Title := Title n; Summary := s;
                       Content := Content n; Tags := Tags n;
                       Platforms := Platforms n; Updated := Updated n;
                       ThumbnailURL := ThumbnailURL n; Images := Images n |} a) a
  | Some FieldContent =>
      stringField v (Content n)
        (fun s => withAlias
                    {| ID := ID n; Title := Title n; Summary := Summary n;
                       Content := s; Tags := Tags n;
                       Platforms := Platforms n; Updated := Updated n;
                       ThumbnailURL := ThumbnailURL n; Images := Images n |} a) a
  | Some FieldTags =>
      stringsField v
        (fun l => withAlias
                    {| ID := ID n; Title := Title n; Summary := Summary n;
                       Content := Content n; Tags := l;
                       Platforms := Platforms n; Updated := Updated n;
                       ThumbnailURL := ThumbnailURL n; Images := Images n |} a) a
  | Some FieldPlatforms =>
      stringsField v
        (fun l => withAlias
                    {| ID := ID n; Title := Title n; Summary := Summary n;
                       Content := Content n; Tags := Tags n;
                       Platforms := l; Updated := Updated n;
                       ThumbnailURL := ThumbnailURL n; Images := Images n |} a) a
  | Some FieldThumbnailURL =>
      stringField v (ThumbnailURL n)
        (fun s => withAlias
                    {| ID := ID n; Title := Title n; Summary := Summary n;
                       Content := Content n; Tags := Tags n;
                       Platforms := Platforms n; Updated := Updated n;
                       ThumbnailURL := s; Images := Images n |} a) a
  | Some FieldImages =>
      let set images :=
        withAlias {| ID := ID n; Title := Title n; Summary := Summary n;
                     Content := Content n; Tags := Tags n;
                     Platforms := Platforms n; Updated := Updated n;
                     ThumbnailURL := ThumbnailURL n; Images := images |} a in
      match v with
      | JNull => set None
      | JObject m =>
          set (Some (match Images n with
                     | Some old => (old ++ m)%list
                     | None => m
                     end))
      | _ => saveError (ErrJSON "cannot unmarshal into Go value of type map") a
      end
  end.

(** [json.Unmarshal(data, &aux)] for an object. *)
Definition decodeAux (n : NewsItem) (members : list (string * JSON)) : Aux :=
  fold_left decodeMember members
            {| auxID := None; auxUpdated := ""; auxAlias := n; auxError := None |}.

Definition updatedFormats : list string :=
  [ RFC3339; "2006-01-02T15:04:05Z"; "2006-01-02 15:04:05"; "2006-01-02T15:04:05" ].

(** The loop over the time formats: the first that parses wins. *)
Fixpoint parseUpdated (lib : Lib) (formats : list string) (value : string)
         (old : Time) : Time :=
  match formats with
  | [] => old
  | format :: rest =>
      match time_Parse lib format value with
      | Some t => t
      | None => parseUpdated lib rest value old
      end
  end.

Definition thumbnailFields : list string :=
  [ "img_microsite_thumbnail"; "thumbnail"; "img_microsite_background";
    "unhighlight_img" ].

Fixpoint findThumbnail (images : list (string * JSON)) (fields : list string)
         (old : string) : string :=
  match fields with
  | [] => old
  | field :: rest =>
      match lookup field images with
      | Some (JObject thumbnail) =>
          match lookup "url" thumbnail with
          | Some (JString url) => url
          | _ => findThumbnail images rest old
          end
      | _ => findThumbnail images rest old
      end
  end.

(** [(n *NewsItem) UnmarshalJSON(data)]: [n] is the receiver before the
    call, the result is the receiver after it, or the error returned.  For
    null the decoder sets the pointer [aux] to nil and the method panics
    when it reads [aux.ID]. *)
Definition UnmarshalJSON (lib : Lib) (n : NewsItem) (data : JSON) : result NewsItem :=
  match data with
  | JNull => Err (ErrPanic "invalid memory address or nil pointer dereference")
  | JObject members =>
      let aux := decodeAux n members in
      match auxError aux with
      | Some e => Err e
      | None =>
          let n := auxAlias aux in
          Ok {| ID := match auxID aux with
                      | Some (JString v) =>
                          match strconv.ParseInt v with
                          | Some id => id
                          | None => ID n
                          end
                      | Some (JNumber v) => int64_of_float64 v
                      | _ => ID n
                      end;
                Title := Title n;
                Summary := Summary n;
                Content := Content n;
                Tags := Tags n;
                Platforms := Platforms n;
                Updated := if negb (String.eqb (auxUpdated aux) "")
                           then parseUpdated lib updatedFormats (auxUpdated aux) (Updated n)
                           else Updated n;
                ThumbnailURL := match Images n with
                                | Some m => findThumbnail m thumbnailFields (ThumbnailURL n)
                                | None => ThumbnailURL n
                                end;
                Images := Images n |}
      end
  | _ => Err (ErrJSON "cannot unmarshal into Go value of type struct")
  end.

(** Decoding the array of a response into a fresh []NewsItem: every
    element goes through UnmarshalJSON, the first error ends the decoding. *)
Fixpoint decodeNews (lib : Lib) (elems : list JSON) : result (list NewsItem) :=
  match elems with
  | [] => Ok []
  | e :: rest =>
      match UnmarshalJSON lib zeroNewsItem e with
      | Err err => Err err
      | Ok item =>
          match decodeNews lib rest with
          | Err err => Err err
          | Ok items => Ok (item :: items)
          end
      end
  end.

End types.

(** ** Package discordgo: the parts of messages the engine reads and writes *)

Module discordgo.

Record MessageEmbedField : Type := {
  Name : string;
  Value : string;
  Inline : bool
}.

Record MessageEmbed : Type := {
  Title : string;
  Description : string;
  URL : string;
  Color : Z;
  Timestamp : string;
  Footer : option string;          (* Footer.Text, [None] for a nil footer *)
  Fields : list MessageEmbedField;
  Thumbnail : option string        (* Thumbnail.URL, [None] for nil *)
}.

Record Message : Type := {
  AuthorID : string;
  Content : string;
  Embeds : list MessageEmbed
}.

End discordgo.

(** ** Package discord: text limits *)

Module discord.

Definition MaxEmbedTitle : Z := 256.

Definition TruncateText (text : string) (maxLength : Z) : string :=
  if (len text <=? maxLength)%Z then text
  else if (maxLength <=? 3)%Z then strings.Repeat "." (Z.to_nat maxLength)
  else slice_to text (maxLength - 3) ++ "...".

(** [s[i:j]] for [0 <= i <= j <= len s]. *)
Definition slice (s : string) (i j : Z) : string :=
  substring (Z.to_nat i) (Z.to_nat (j - i)) s.

(** The loop [for i := 0; i <= len(s)-len(substr); i++] of findInString:
    the first index at which the slice equals [substr] ends it. *)
Definition findInString (s substr : string) : bool :=
  existsb (fun i => String.eqb (slice s (Z.of_nat i) (Z.of_nat i + len substr)) substr)
          (seq 0 (Z.to_nat (len s - len substr + 1))).

Definition contains (s substr : string) : bool :=
  (len substr <=? len s)%Z
  && (String.eqb s substr
      || ((len substr <? len s)%Z
          && (String.eqb (slice s 0 (len substr)) substr
              || String.eqb (slice s (len s - len substr) (len s)) substr
              || findInString s substr))).

(** *** Retries *)

(** The errors the retry loop tells apart: a [*discordgo.RESTError] with
    the status code of its response and the code of its message, each
    [None] when the pointer is nil, and any other error with its text. *)
Inductive apiError : Type :=
| RESTError (Response : option Z) (Message : option Z)
| otherError (text : string).

Definition ErrCodeAPIResourceIsCurrentlyOverloaded : Z := 130000.

Definition retryablePatterns : list string :=
  ["connection reset"; "timeout"; "temporary failure";
   "network is unreachable"; "EOF"].

(** [None] stands for the panic of a nil pointer dereference. *)
Definition isRetryableError (err : option apiError) : option bool :=
  match err with
  | None => Some false
  | Some (RESTError None _) => None
  | Some (RESTError (Some StatusCode) Message) =>
      if (StatusCode =? 429)%Z then Some true
      else if (StatusCode =? 500)%Z || (StatusCode =? 502)%Z
              || (StatusCode =? 503)%Z || (StatusCode =? 504)%Z then Some true
      else match Message with
           | None => None
           | Some Code => Some (Code =? ErrCodeAPIResourceIsCurrentlyOverloaded)%Z
           end
  | Some (otherError text) => Some (existsb (contains text) retryablePatterns)
  end.

Record RetryConfig : Type := {
  MaxRetries : Z;
  BaseDelay : Z;
  MaxDelay : Z
}.

Definition DefaultRetryConfig : RetryConfig :=
  {| MaxRetries := 3; BaseDelay := 1000000000; MaxDelay := 10000000000 |}.

(** What withRetry returns: nil, the error of the operation as it is, or
    the error that wraps the last one after the last attempt; or it does
    not return, because the look at the error panics. *)
Inductive retried : Type :=
| succeeded
| failed (err : apiError)
| gaveUp (retries : Z) (lastErr : option apiError)
| panicked.

(** The loop of withRetry from [attempt] on, with [remaining] attempts to
    go.  [operation k] is what the k-th call of the operation returns; the
    second component is the number of calls made.  The pause before a
    retry and the rate limiter only take time. *)
Fixpoint retryFrom (operation : nat -> option apiError) (config : RetryConfig)
         (remaining : nat) (attempt : nat) (lastErr : option apiError)
  : retried * nat :=
  match remaining with
  | O => (gaveUp (MaxRetries config) lastErr, attempt)
  | S rest =>
      match operation attempt with
      | Some err =>
          match isRetryableError (Some err) with
          | None => (panicked, S attempt)
          | Some retryable =>
              if negb retryable then (failed err, S attempt)
              else retryFrom operation config rest (S attempt) (Some err)
          end
      | None => (succeeded, S attempt)
      end
  end.

(** [for attempt := 0; attempt <= config.MaxRetries; attempt++]. *)
Definition withRetry (operation : nat -> option apiError) (config : RetryConfig)
  : retried * nat :=
  retryFrom operation config (Z.to_nat (MaxRetries config + 1)) 0 None.

(** The embed used by the slash commands. *)
Definition formatNewsEmbed (lib : Lib) (newsItem : types.NewsItem)
  : discordgo.MessageEmbed :=
  {| discordgo.Title := TruncateText (types.Title newsItem) 256;
     discordgo.Description := TruncateText (types.Summary newsItem) 2048;
     discordgo.URL :=
       "https://playstartrekonline.com/en/news/article/"
         ++ strconv.Itoa (types.ID newsItem);
     discordgo.Color := 0x00ff00;
     discordgo.Timestamp :=
       time_Format lib (types.Updated newsItem) "2006-01-02T15:04:05Z";
     discordgo.Footer :=
       Some ("Platforms: " ++ strings.Join (types.Platforms newsItem) ", ");
     discordgo.Fields :=
       [ {| discordgo.Name := "Tags";
            discordgo.Value := strings.Join (types.Tags newsItem) ", ";
            discordgo.Inline := true |};
         {| discordgo.Name := "Platforms";
            discordgo.Value := strings.Join (types.Platforms newsItem) ", ";
            discordgo.Inline := true |} ];
     discordgo.Thumbnail :=
       if String.eqb (types.ThumbnailURL newsItem) "" then None
       else Some (types.ThumbnailURL newsItem) |}.

End discord.

(** ** The SQLite file

    Tables are lists of rows in insertion order.  The constraints of
    [posted_news] are read off the CREATE statement kept in
    [sqlite_master], the text the migration itself inspects.  The surrogate
    AUTOINCREMENT key of [posted_news] is never read by the program and is
    left out.  A table of [channels] or [news_cache] without columns stands
    for a table that does not exist.  Foreign keys are declared but not
    enforced: the connection is opened without turning them on. *)

Module sqlite.

Record ChannelRow : Type := {
  ch_id : string;
  ch_platforms : string;
  ch_environment : string;
  ch_created_at : Z;
  ch_updated_at : Z
}.

Record PostedRow : Type := {
  news_id : Z;
  channel_id : string;
  posted_at : option Z          (* NULL in a table without the column *)
}.

Record CacheRow : Type := {
  c_id : Z;
  c_title : string;
  c_summary : string;
  c_content : string;
  c_tags : string;
  c_platforms : string;
  c_updated_at : Z;
  c_thumbnail_url : string;
  c_fetched_at : Z
}.

Record PostedTable : Type := {
  schema_sql : string;          (* sqlite_master.sql *)
  has_posted_at : bool;         (* pragma_table_info lists posted_at *)
  posted_rows : list PostedRow
}.

Record Store : Type := {
  channels_columns : list string;
  channels : list ChannelRow;
  posted_news : option PostedTable;
  posted_news_backup : option PostedTable;
  news_cache_columns : list string;
  news_cache : list CacheRow
}.

Definition set_channels (f : list ChannelRow -> list ChannelRow) (s : Store) : Store :=
  {| channels_columns := channels_columns s; channels := f (channels s);
     posted_news := posted_news s; posted_news_backup := posted_news_backup s;
     news_cache_columns := news_cache_columns s; news_cache := news_cache s |}.

Definition set_channels_columns (c : list string) (s : Store) : Store :=
  {| channels_columns := c; channels := channels s;
     posted_news := posted_news s; posted_news_backup := posted_news_backup s;
     news_cache_columns := news_cache_columns s; news_cache := news_cache s |}.

Definition set_posted_news (t : option PostedTable) (s : Store) : Store :=
  {| channels_columns := channels_columns s; channels := channels s;
     posted_news := t; posted_news_backup := posted_news_backup s;
     news_cache_columns := news_cache_columns s; news_cache := news_cache s |}.

Definition set_posted_news_backup (t : option PostedTable) (s : Store) : Store :=
  {| channels_columns := channels_columns s; channels := channels s;
     posted_news := posted_news s; posted_news_backup := t;
     news_cache_columns := news_cache_columns s; news_cache := news_cache s |}.

Definition set_news_cache (f : list CacheRow -> list CacheRow) (s : Store) : Store :=
  {| channels_columns := channels_columns s; channels := channels s;
     posted_news := posted_news s; posted_news_backup := posted_news_backup s;
     news_cache_columns := news_cache_columns s; news_cache := f (news_cache s) |}.

Definition set_news_cache_columns (c : list string) (s : Store) : Store :=
  {| channels_columns := channels_columns s; channels := channels s;
     posted_news := posted_news s; posted_news_backup := posted_news_backup s;
     news_cache_columns := c; news_cache := news_cache s |}.

(** A file that has just been created. *)
Definition empty : Store :=
  {| channels_columns := []; channels := [];
     posted_news := None; posted_news_backup := None;
     news_cache_columns := []; news_cache := [] |}.

Definition has_column (cols : list string) (name : string) : bool :=
  existsb (String.eqb name) cols.

(** *** The statements of createTables *)

Definition posted_news_sql : string :=
  "CREATE TABLE posted_news (id INTEGER PRIMARY KEY AUTOINCREMENT, news_id INTEGER NOT NULL, channel_id TEXT NOT NULL, posted_at DATETIME DEFAULT CURRENT_TIMESTAMP, UNIQUE(news_id, channel_id), FOREIGN KEY (channel_id) REFERENCES channels(id))".

Definition create_channels (s : Store) : result Store :=
  match channels_columns s with
  | [] => Ok (set_channels_columns
                ["id"; "platforms"; "environment"; "created_at"; "updated_at"] s)
  | _ => Ok s
  end.

Definition create_posted_news_if_not_exists (s : Store) : result Store :=
  match posted_news s with
  | None => Ok (set_posted_news
                  (Some {| schema_sql := posted_news_sql; has_posted_at := true;
                           posted_rows := [] |}) s)
  | Some _ => Ok s
  end.

Definition create_news_cache (s : Store) : result Store :=
  match news_cache_columns s with
  | [] => Ok (set_news_cache_columns
                ["id"; "title"; "summary"; "content"; "tags"; "platforms";
                 "updated_at"; "thumbnail_url"; "fetched_at"] s)
  | _ => Ok s
  end.

(** CREATE INDEX IF NOT EXISTS ... ON posted_news(col): no row changes. *)
Definition create_posted_news_index (s : Store) : result Store :=
  match posted_news s with
  | None => Err (ErrSQL "no such table: main.posted_news")
  | Some _ => Ok s
  end.

Definition create_news_cache_index (col : string) (s : Store) : result Store :=
  match news_cache_columns s with
  | [] => Err (ErrSQL "no such table: main.news_cache")
  | cols => if has_column cols col then Ok s else Err (ErrSQL "no such column")
  end.

(** *** The statements of migrateDatabase *)

Definition count_news_cache_column (name : string) (s : Store) : result bool :=
  Ok (has_column (news_cache_columns s) name).

Definition count_channels_column (name : string) (s : Store) : result bool :=
  Ok (has_column (channels_columns s) name).

Definition alter_news_cache_add (name : string) (s : Store) : result Store :=
  match news_cache_columns s with
  | [] => Err (ErrSQL "no such table: news_cache")
  | cols => if has_column cols name then Err (ErrSQL "duplicate column name")
            else Ok (set_news_cache_columns (cols ++ [name])%list s)
  end.

Definition alter_channels_add (name : string) (s : Store) : result Store :=
  match channels_columns s with
  | [] => Err (ErrSQL "no such table: channels")
  | cols => if has_column cols name then Err (ErrSQL "duplicate column name")
            else Ok (set_channels_columns (cols ++ [name])%list s)
  end.

(** SELECT sql FROM sqlite_master WHERE type='table' AND name='posted_news' *)
Definition select_posted_news_sql (s : Store) : result string :=
  match posted_news s with
  | None => Err ErrNoRows
  | Some t => Ok (schema_sql t)
  end.

(** CREATE TABLE posted_news_backup AS SELECT * FROM posted_news *)
Definition create_backup (s : Store) : result Store :=
  match posted_news_backup s, posted_news s with
  | Some _, _ => Err (ErrSQL "table posted_news_backup already exists")
  | None, None => Err (ErrSQL "no such table: posted_news")
  | None, Some t =>
      Ok (set_posted_news_backup
            (Some {| schema_sql := "CREATE TABLE posted_news_backup(news_id INT, channel_id TEXT)";
                     has_posted_at := has_posted_at t;
                     posted_rows := posted_rows t |}) s)
  end.

Definition drop_posted_news (s : Store) : result Store :=
  match posted_news s with
  | None => Err (ErrSQL "no such table: posted_news")
  | Some _ => Ok (set_posted_news None s)
  end.

(** CREATE TABLE posted_news (...) without IF NOT EXISTS *)
Definition create_posted_news (s : Store) : result Store :=
  match posted_news s with
  | Some _ => Err (ErrSQL "table posted_news already exists")
  | None => Ok (set_posted_news
                  (Some {| schema_sql := posted_news_sql; has_posted_at := true;
                           posted_rows := [] |}) s)
  end.

(** SELECT COUNT( * ) FROM pragma_table_info('posted_news_backup')
    WHERE name='posted_at' *)
Definition count_backup_posted_at (s : Store) : result Z :=
  match posted_news_backup s with
  | None => Ok 0%Z
  | Some t => Ok (if has_posted_at t then 1 else 0)%Z
  end.

Definition drop_backup (s : Store) : result Store :=
  match posted_news_backup s with
  | None => Err (ErrSQL "no such table: posted_news_backup")
  | Some _ => Ok (set_posted_news_backup None s)
  end.

(** *** Constraints of posted_news, as declared by its CREATE statement *)

Definition pk_news_id (t : PostedTable) : bool :=
  strings.Contains (schema_sql t) "news_id INTEGER PRIMARY KEY".

Definition unique_pair (t : PostedTable) : bool :=
  strings.Contains (schema_sql t) "UNIQUE(news_id, channel_id)".

Definition same_pair (n : Z) (c : string) (r : PostedRow) : bool :=
  (news_id r =? n)%Z && String.eqb (channel_id r) c.

(** Does inserting [(n, c)] violate a uniqueness constraint of [t]? *)
Definition conflicts (t : PostedTable) (n : Z) (c : string) : bool :=
  existsb (fun r => (pk_news_id t && (news_id r =? n)%Z)
                    || (unique_pair t && same_pair n c r))
          (posted_rows t).

Definition insert_or_ignore_row (t : PostedTable) (r : PostedRow) : PostedTable :=
  if conflicts t (news_id r) (channel_id r) then t
  else {| schema_sql := schema_sql t; has_posted_at := has_posted_at t;
          posted_rows := (posted_rows t ++ [r])%list |}.

(** INSERT OR IGNORE INTO posted_news (news_id, channel_id) VALUES (?, ?) *)
Definition insert_or_ignore_posted (n : Z) (c : string) (now : Z) (s : Store)
  : result Store :=
  match posted_news s with
  | None => Err (ErrSQL "no such table: posted_news")
  | Some t =>
      Ok (set_posted_news
            (Some (insert_or_ignore_row t
                     {| news_id := n; channel_id := c;
                        posted_at := if has_posted_at t then Some now else None |})) s)
  end.

(** INSERT OR IGNORE INTO posted_news (news_id, channel_id[, posted_at])
    SELECT news_id, channel_id[, posted_at] FROM posted_news_backup *)
Definition restore_from_backup (with_posted_at : bool) (now : Z) (s : Store)
  : result Store :=
  match posted_news s, posted_news_backup s with
  | None, _ => Err (ErrSQL "no such table: posted_news")
  | _, None => Err (ErrSQL "no such table: posted_news_backup")
  | Some t, Some b =>
      if with_posted_at && negb (has_posted_at b)
      then Err (ErrSQL "no such column: posted_at")
      else
        Ok (set_posted_news
              (Some (fold_left
                       (fun acc r =>
                          insert_or_ignore_row acc
                            {| news_id := news_id r; channel_id := channel_id r;
                               posted_at := if with_posted_at then posted_at r
                                            else Some now |})
                       (posted_rows b) t)) s)
  end.

(** SELECT 1 FROM posted_news WHERE news_id = ? AND channel_id = ? *)
Definition select_posted (n : Z) (c : string) (s : Store) : result Z :=
  match posted_news s with
  | None => Err (ErrSQL "no such table: posted_news")
  | Some t => if existsb (same_pair n c) (posted_rows t) then Ok 1%Z
              else Err ErrNoRows
  end.

(** DELETE FROM posted_news WHERE channel_id = ? *)
Definition delete_posted_of_channel (c : string) (s : Store) : result Store :=
  match posted_news s with
  | None => Err (ErrSQL "no such table: posted_news")
  | Some t =>
      Ok (set_posted_news
            (Some {| schema_sql := schema_sql t; has_posted_at := has_posted_at t;
                     posted_rows :=
                       filter (fun r => negb (String.eqb (channel_id r) c))
                              (posted_rows t) |}) s)
  end.

(** *** Statements on channels *)

Definition find_channel (id : string) (s : Store) : option ChannelRow :=
  find (fun r => String.eqb (ch_id r) id) (channels s).

(** SELECT 1 FROM channels WHERE id = ? *)
Definition select_channel (id : string) (s : Store) : result Z :=
  match find_channel id s with
  | Some _ => Ok 1%Z
  | None => Err ErrNoRows
  end.

Definition select_platforms (id : string) (s : Store) : result string :=
  match find_channel id s with
  | Some r => Ok (ch_platforms r)
  | None => Err ErrNoRows
  end.

Definition select_environment (id : string) (s : Store) : result string :=
  match find_channel id s with
  | Some r => Ok (ch_environment r)
  | None => Err ErrNoRows
  end.

Fixpoint insert_id (id : string) (ids : list string) : list string :=
  match ids with
  | [] => [id]
  | x :: rest => if String.leb id x then id :: ids else x :: insert_id id rest
  end.

Definition order_by_id (ids : list string) : list string :=
  fold_right insert_id [] ids.

(** SELECT id FROM channels: SQLite reads the ids off the index of the
    primary key, in the order of their bytes. *)
Definition select_channel_ids (s : Store) : result (list string) :=
  Ok (order_by_id (map ch_id (channels s))).

(** SELECT id FROM channels WHERE environment = ?: the rows of the table
    in their order. *)
Definition select_channel_ids_by_environment (env : string) (s : Store)
  : result (list string) :=
  Ok (map ch_id (filter (fun r => String.eqb (ch_environment r) env) (channels s))).

Definition without_channel (id : string) (l : list ChannelRow) : list ChannelRow :=
  filter (fun r => negb (String.eqb (ch_id r) id)) l.

(** INSERT OR REPLACE INTO channels (id, platforms, environment, updated_at)
    VALUES (?, ?, ?, CURRENT_TIMESTAMP): a row with the same primary key is
    deleted first; created_at takes its default. *)
Definition insert_or_replace_channel (id platforms environment : string)
           (now : Z) (s : Store) : result Store :=
  if String.eqb environment "DEV" || String.eqb environment "PROD"
  then Ok (set_channels
             (fun l => (without_channel id l ++
                       [ {| ch_id := id; ch_platforms := platforms;
                            ch_environment := environment;
                            ch_created_at := now; ch_updated_at := now |} ])%list) s)
  else Err (ErrSQL "CHECK constraint failed: environment").

(** INSERT INTO channels (id, platforms, environment, created_at, updated_at)
    VALUES (?, ?, 'PROD', CURRENT_TIMESTAMP, CURRENT_TIMESTAMP) *)
Definition insert_channel (id platforms : string) (now : Z) (s : Store)
  : result Store :=
  match find_channel id s with
  | Some _ => Err (ErrSQL "UNIQUE constraint failed: channels.id")
  | None =>
      Ok (set_channels
            (fun l => (l ++ [ {| ch_id := id; ch_platforms := platforms;
                                 ch_environment := "PROD";
                                 ch_created_at := now; ch_updated_at := now |} ])%list) s)
  end.

(** DELETE FROM channels WHERE id = ? *)
Definition delete_channel (id : string) (s : Store) : result Store :=
  Ok (set_channels (without_channel id) s).

(** UPDATE channels SET ... WHERE id = ?: the rows whose key is [id] are
    rewritten in place; the number with the store is what RowsAffected
    reports. *)
Definition update_channel (id : string) (f : ChannelRow -> ChannelRow) (s : Store)
  : Store * Z :=
  (set_channels (map (fun r => if String.eqb (ch_id r) id then f r else r)) s,
   Z.of_nat (List.length (filter (fun r => String.eqb (ch_id r) id) (channels s)))).

Definition with_platforms (platforms : string) (now : Z) (r : ChannelRow) : ChannelRow :=
  {| ch_id := ch_id r; ch_platforms := platforms;
     ch_environment := ch_environment r;
     ch_created_at := ch_created_at r; ch_updated_at := now |}.


(** UPDATE channels SET platforms = ?, updated_at = CURRENT_TIMESTAMP
    WHERE id = ? *)
Definition update_channel_platforms (id platforms : string) (now : Z) (s : Store)
  : result (Store * Z) :=
  Ok (update_channel id (with_platforms platforms now) s).


(** *** Statements on news_cache *)

Definition without_article (id : Z) (l : list CacheRow) : list CacheRow :=
  filter (fun r => negb (c_id r =? id)%Z) l.

(** INSERT OR REPLACE INTO news_cache (...) VALUES (..., CURRENT_TIMESTAMP) *)
Definition insert_or_replace_cache (r : CacheRow) (s : Store) : result Store :=
  Ok (set_news_cache (fun l => (without_article (c_id r) l ++ [r])%list) s).

(** DELETE FROM news_cache WHERE fetched_at < datetime('now', '-30 days') *)
Definition delete_old_cache (now : Z) (s : Store) : result Store :=
  Ok (set_news_cache
        (filter (fun r => negb (c_fetched_at r <? now - 30 * 86400)%Z)) s).

Fixpoint insert_desc (r : CacheRow) (l : list CacheRow) : list CacheRow :=
  match l with
  | [] => [r]
  | x :: rest => if (c_id x <=? c_id r)%Z then r :: l else x :: insert_desc r rest
  end.

Definition order_by_id_desc (l : list CacheRow) : list CacheRow :=
  fold_right insert_desc [] l.

(** SELECT ... FROM news_cache ORDER BY id DESC *)
Definition select_all_cache (s : Store) : result (list CacheRow) :=
  Ok (order_by_id_desc (news_cache s)).

End sqlite.

(** ** The environment and the state of the world *)

(** The query of a GET on the news API, as [buildNewsURL] assembles it;
    a parameter that is left out of the URL is [None]. *)
Record Request : Type := {
  q_tag : option string;
  q_limit : option Z;
  q_offset : option Z;
  q_fields : list string;
  q_platform : option string
}.

(** A response of the news API.  [Body] is the array under the key
    [news] when the body is a JSON object of that shape. *)
Record Response : Type := {
  StatusCode : Z;
  Body : option (list types.JSON)
}.

Record Env : Type := {
  lib : Lib;
  db_fault : nat -> bool;
  http_Get : nat -> Request -> result Response;
  ChannelMessages : nat -> string -> Z -> result (list discordgo.Message);
  ChannelMessageSendEmbed : nat -> string -> discordgo.MessageEmbed -> option error;
  self_id : string                (* b.Session.State.User.ID *)
}.

Record World : Type := {
  db : sqlite.Store;
  tx : option sqlite.Store;       (* the store as it was at Begin *)
  db_calls : nat;
  requests : list Request;        (* the GETs sent to the news API so far *)
  chat_calls : nat;
  sent : list (string * Z);       (* successful posts: channel, article id *)
  now : Z                         (* CURRENT_TIMESTAMP, time.Now() *)
}.

(** The number of GETs so far: the index of the next one. *)
Definition http_calls (w : World) : nat := List.length (requests w).

Definition with_db (s : sqlite.Store) (w : World) : World :=
  {| db := s; tx := tx w; db_calls := db_calls w; requests := requests w;
     chat_calls := chat_calls w; sent := sent w; now := now w |}.

Definition with_tx (t : option sqlite.Store) (w : World) : World :=
  {| db := db w; tx := t; db_calls := db_calls w; requests := requests w;
     chat_calls := chat_calls w; sent := sent w; now := now w |}.

Definition with_now (t : Z) (w : World) : World :=
  {| db := db w; tx := tx w; db_calls := db_calls w; requests := requests w;
     chat_calls := chat_calls w; sent := sent w; now := t |}.

Definition M (A : Type) : Type := World -> A * World.

Definition ret {A} (a : A) : M A := fun w => (a, w).

Definition bind {A B} (m : M A) (k : A -> M B) : M B :=
  fun w => let (a, w') := m w in k a w'.

Notation "x <- m ;; k" := (bind m (fun x => k))
  (at level 61, m at next level, right associativity).

(** *** The driver *)

Definition driver_call (env : Env) : M bool :=
  fun w => (db_fault env (db_calls w),
            {| db := db w; tx := tx w; db_calls := S (db_calls w);
               requests := requests w; chat_calls := chat_calls w;
               sent := sent w; now := now w |}).

Definition run_statement (stmt : Z -> sqlite.Store -> result sqlite.Store)
  : M (result unit) :=
  fun w => match stmt (now w) (db w) with
           | Ok s => (Ok tt, with_db s w)
           | Err e => (Err e, w)
           end.

(** [db.Exec] and [tx.Exec]. *)
Definition Exec (env : Env) (stmt : Z -> sqlite.Store -> result sqlite.Store)
  : M (result unit) :=
  failed <- driver_call env ;;
  if failed then ret (Err ErrDriver) else run_statement stmt.

(** [db.Exec] when the caller reads [result.RowsAffected()] (the SQLite
    driver reports the count without an error of its own). *)
Definition ExecRows (env : Env)
           (stmt : Z -> sqlite.Store -> result (sqlite.Store * Z)) : M (result Z) :=
  failed <- driver_call env ;;
  if failed then ret (Err ErrDriver)
  else fun w => match stmt (now w) (db w) with
                | Ok (s, rows) => (Ok rows, with_db s w)
                | Err e => (Err e, w)
                end.

(** [db.Query] and [db.QueryRow(...).Scan(...)]. *)
Definition Query {A} (env : Env) (q : sqlite.Store -> result A) : M (result A) :=
  failed <- driver_call env ;;
  if failed then ret (Err ErrDriver) else fun w => (q (db w), w).

Definition Begin (env : Env) : M (result unit) :=
  failed <- driver_call env ;;
  if failed then ret (Err ErrDriver)
  else fun w => (Ok tt, with_tx (Some (db w)) w).

(** [tx.Commit].  A COMMIT that fails ends the transaction without its
    changes: database/sql marks the transaction done and the driver rolls
    it back. *)
Definition Commit (env : Env) : M (result unit) :=
  failed <- driver_call env ;;
  if failed
  then fun w => (Err ErrDriver,
                 match tx w with
                 | Some s => with_tx None (with_db s w)
                 | None => w
                 end)
  else fun w => (Ok tt, with_tx None w).

(** [tx.Rollback]: nothing to do once the transaction is committed. *)
Definition Rollback : M unit :=
  fun w => match tx w with
           | Some s => (tt, with_tx None (with_db s w))
           | None => (tt, w)
           end.

(** [defer tx.Rollback()] around the rest of a function. *)
Definition deferRollback {A} (body : M A) : M A :=
  a <- body ;; _ <- Rollback ;; ret a.

Definition wrap (msg : string) (err : option error) : error :=
  match err with
  | Some e => Errorf msg e
  | None => ErrNew msg
  end.

(** ** Package database *)

Module database.

Import sqlite.

Definition BulkDatabaseOptions : types.DatabaseOptions :=
  {| types.UseBatch := true; types.IgnoreErrors := true;
     types.RetryCount := 3; types.LogProgress := true |}.

(** The posted_news part of migrateDatabase, entered when the stored
    CREATE statement has the old primary key. *)
Definition migratePostedNews (env : Env) : M (result unit) :=
  r <- Exec env (fun _ => create_backup) ;;
  match r with
  | Err e => ret (Err (Errorf "failed to backup posted_news table" e))
  | Ok _ =>
  r <- Exec env (fun _ => drop_posted_news) ;;
  match r with
  | Err e => ret (Err (Errorf "failed to drop old posted_news table" e))
  | Ok _ =>
  r <- Exec env (fun _ => create_posted_news) ;;
  match r with
  | Err e => ret (Err (Errorf "failed to create new posted_news table" e))
  | Ok _ =>
  c <- Query env count_backup_posted_at ;;
  let hasPostedAt := match c with Ok colCount => (0 <? colCount)%Z | Err _ => false end in
  r <- Exec env (restore_from_backup hasPostedAt) ;;
  match r with
  | Err e => ret (Err (Errorf "failed to restore posted_news data" e))
  | Ok _ =>
  r <- Exec env (fun _ => drop_backup) ;;
  match r with
  | Err e => ret (Err (Errorf "failed to drop backup table" e))
  | Ok _ =>
  r <- Exec env (fun _ => create_posted_news_index) ;;
  match r with
  | Err e => ret (Err (Errorf "failed to create channel index" e))
  | Ok _ =>
  r <- Exec env (fun _ => create_posted_news_index) ;;
  match r with
  | Err e => ret (Err (Errorf "failed to create news_id index" e))
  | Ok _ => ret (Ok tt)
  end end end end end end end.

Definition migrateDatabase (env : Env) : M (result unit) :=
  r <- Query env (count_news_cache_column "tags") ;;
  match r with
  | Err e => ret (Err (Errorf "failed to check for tags column" e))
  | Ok tagsColumnExists =>
  r <- (if tagsColumnExists then ret (Ok tt)
        else
          r <- Exec env (fun _ => alter_news_cache_add "tags") ;;
          match r with
          | Err e => ret (Err (Errorf "failed to add tags column" e))
          | Ok _ =>
              r <- Exec env (fun _ => create_news_cache_index "tags") ;;
              match r with
              | Err e => ret (Err (Errorf "failed to create tags index" e))
              | Ok _ => ret (Ok tt)
              end
          end) ;;
  match r with
  | Err e => ret (Err e)
  | Ok _ =>
  r <- Query env (count_news_cache_column "content") ;;
  match r with
  | Err e => ret (Err (Errorf "failed to check for content column" e))
  | Ok contentColumnExists =>
  r <- (if contentColumnExists then ret (Ok tt)
        else
          r <- Exec env (fun _ => alter_news_cache_add "content") ;;
          match r with
          | Err e => ret (Err (Errorf "failed to add content column" e))
          | Ok _ => ret (Ok tt)
          end) ;;
  match r with
  | Err e => ret (Err e)
  | Ok _ =>
  r <- Query env (count_news_cache_column "tag") ;;
  match r with
  | Err e => ret (Err (Errorf "failed to check for tag column" e))
  | Ok _ =>
  r <- Query env select_posted_news_sql ;;
  match (match r with Err ErrNoRows => None | Err e => Some e | Ok _ => None end) with
  | Some e => ret (Err (Errorf "failed to check posted_news schema" e))
  | None =>
  let postedNewsSchema := match r with Ok sql => sql | Err _ => "" end in
  r <- (if strings.Contains postedNewsSchema "news_id INTEGER PRIMARY KEY"
        then migratePostedNews env else ret (Ok tt)) ;;
  match r with
  | Err e => ret (Err e)
  | Ok _ =>
  r <- Query env (count_channels_column "environment") ;;
  match r with
  | Err e => ret (Err (Errorf "failed to check for environment column" e))
  | Ok environmentColumnExists =>
      if environmentColumnExists then ret (Ok tt)
      else
        r <- Exec env (fun _ => alter_channels_add "environment") ;;
        match r with
        | Err e => ret (Err (Errorf "failed to add environment column" e))
        | Ok _ => ret (Ok tt)
        end
  end end end end end end end end.

Fixpoint execAll (env : Env) (queries : list (sqlite.Store -> result sqlite.Store))
  : M (result unit) :=
  match queries with
  | [] => ret (Ok tt)
  | query :: rest =>
      r <- Exec env (fun _ => query) ;;
      match r with
      | Err e => ret (Err (Errorf "failed to execute query" e))
      | Ok _ => execAll env rest
      end
  end.

Definition createTables (env : Env) : M (result unit) :=
  r <- execAll env
         [ create_channels;
           create_posted_news_if_not_exists;
           create_news_cache;
           create_posted_news_index;
           create_posted_news_index;
           create_news_cache_index "tags";
           create_news_cache_index "updated_at" ] ;;
  match r with
  | Err e => ret (Err e)
  | Ok _ =>
      r <- migrateDatabase env ;;
      match r with
      | Err e => ret (Err (Errorf "failed to migrate database" e))
      | Ok _ => ret (Ok tt)
      end
  end.

(** initDatabase once the file is open and answers Ping. *)
Definition initDatabase (env : Env) : M (result unit) :=
  r <- createTables env ;;
  match r with
  | Err e => ret (Err (Errorf "failed to create tables" e))
  | Ok _ =>
      r <- migrateDatabase env ;;
      match r with
      | Err e => ret (Err (Errorf "failed to migrate database" e))
      | Ok _ => ret (Ok tt)
      end
  end.

(** parseNewsRows for one row (no column of a row written by CacheNews
    is NULL). *)
Definition parseNewsRow (r : CacheRow) : types.NewsItem :=
  {| types.ID := c_id r;
     types.Title := c_title r;
     types.Summary := c_summary r;
     types.Content := c_content r;
     types.Tags := if String.eqb (c_tags r) "" then []
                   else strings.Split (c_tags r) ",";
     types.Platforms := if String.eqb (c_platforms r) "" then []
                        else strings.Split (c_platforms r) ",";
     types.Updated := c_updated_at r;
     types.ThumbnailURL := c_thumbnail_url r;
     types.Images := None |}.

Definition parseNewsRows (rows : list CacheRow) : result (list types.NewsItem) :=
  Ok (map parseNewsRow rows).

Definition GetAllCachedNews (env : Env) : M (result (list types.NewsItem)) :=
  r <- Query env select_all_cache ;;
  match r with
  | Err e => ret (Err (Errorf "failed to query cached news" e))
  | Ok rows => ret (parseNewsRows rows)
  end.

(** IsNewsPosted: the pair of Go results is [Ok posted] or [Err err]. *)
Definition IsNewsPosted (env : Env) (newsID : Z) (channelID : string)
  : M (result bool) :=
  r <- Query env (select_posted newsID channelID) ;;
  match r with
  | Err ErrNoRows => ret (Ok false)
  | Err e => ret (Err (Errorf "failed to check if news is posted" e))
  | Ok _ => ret (Ok true)
  end.

(** The retry loop of MarkNewsAsPostedWithOptions: [attempts] iterations
    are left, [err] is the last error. *)
Fixpoint markAttempts (env : Env) (newsID : Z) (channelID : string)
         (attempts : nat) (err : option error) : M (result unit) :=
  match attempts with
  | O => ret (Err (wrap "failed to mark news as posted after retries" err))
  | S k =>
      r <- Exec env (insert_or_ignore_posted newsID channelID) ;;
      match r with
      | Ok _ => ret (Ok tt)
      | Err e => markAttempts env newsID channelID k (Some e)
      end
  end.

Definition MarkNewsAsPostedWithOptions (env : Env) (newsID : Z)
           (channelID : string) (options : types.DatabaseOptions)
  : M (result unit) :=
  markAttempts env newsID channelID
               (Z.to_nat (types.RetryCount options + 1)) None.

Definition MarkNewsAsPosted (env : Env) (newsID : Z) (channelID : string)
  : M (result unit) :=
  MarkNewsAsPostedWithOptions env newsID channelID types.DefaultDatabaseOptions.

(** The loops of MarkMultipleNewsAsPosted; [Err] is an early return. *)
Fixpoint markSingleChannels (env : Env) (options : types.DatabaseOptions)
         (newsItem : types.NewsItem) (channelIDs : list string) : M (result unit) :=
  match channelIDs with
  | [] => ret (Ok tt)
  | channelID :: rest =>
      r <- MarkNewsAsPostedWithOptions env (types.ID newsItem) channelID options ;;
      match r with
      | Err e =>
          if negb (types.IgnoreErrors options) then ret (Err e)
          else markSingleChannels env options newsItem rest
      | Ok _ => markSingleChannels env options newsItem rest
      end
  end.

Fixpoint markSingle (env : Env) (options : types.DatabaseOptions)
         (newsItems : list types.NewsItem) (channelIDs : list string)
  : M (result unit) :=
  match newsItems with
  | [] => ret (Ok tt)
  | newsItem :: rest =>
      r <- markSingleChannels env options newsItem channelIDs ;;
      match r with
      | Err e => ret (Err e)
      | Ok _ => markSingle env options rest channelIDs
      end
  end.

Fixpoint markBatchChannels (env : Env) (options : types.DatabaseOptions)
         (newsItem : types.NewsItem) (channelIDs : list string) : M (result unit) :=
  match channelIDs with
  | [] => ret (Ok tt)
  | channelID :: rest =>
      r <- Exec env (insert_or_ignore_posted (types.ID newsItem) channelID) ;;
      match r with
      | Err e =>
          if negb (types.IgnoreErrors options)
          then ret (Err (Errorf "failed to mark news as posted to channel" e))
          else markBatchChannels env options newsItem rest
      | Ok _ => markBatchChannels env options newsItem rest
      end
  end.

Fixpoint markBatch (env : Env) (options : types.DatabaseOptions)
         (newsItems : list types.NewsItem) (channelIDs : list string)
  : M (result unit) :=
  match newsItems with
  | [] => ret (Ok tt)
  | newsItem :: rest =>
      r <- markBatchChannels env options newsItem channelIDs ;;
      match r with
      | Err e => ret (Err e)
      | Ok _ => markBatch env options rest channelIDs
      end
  end.

Definition MarkMultipleNewsAsPosted (env : Env) (newsItems : list types.NewsItem)
           (channelIDs : list string) (options : types.DatabaseOptions)
  : M (result unit) :=
  if negb (types.UseBatch options) then
    r <- markSingle env options newsItems channelIDs ;;
    match r with
    | Err e => ret (Err e)
    | Ok _ => ret (Ok tt)
    end
  else
    r <- Begin env ;;
    match r with
    | Err e => ret (Err (Errorf "failed to begin transaction" e))
    | Ok _ =>
        deferRollback
          (r <- markBatch env options newsItems channelIDs ;;
           match r with
           | Err e => ret (Err e)
           | Ok _ => Commit env
           end)
    end.

Definition AddChannel (env : Env) (channelID : string) : M (result unit) :=
  r <- Query env (select_channel channelID) ;;
  let isNewChannel := match r with Err ErrNoRows => true | _ => false end in
  r <- Exec env (insert_or_replace_channel channelID "pc,xbox,ps" "PROD") ;;
  match r with
  | Err e => ret (Err (Errorf "failed to add channel" e))
  | Ok _ =>
      if isNewChannel then
        r <- GetAllCachedNews env ;;
        match r with
        | Err _ => ret (Ok tt)
        | Ok allNews =>
            if (0 <? Z.of_nat (List.length allNews))%Z then
              _ <- MarkMultipleNewsAsPosted env allNews [channelID]
                     BulkDatabaseOptions ;;
              ret (Ok tt)
            else ret (Ok tt)
        end
      else ret (Ok tt)
  end.


Definition RemoveChannel (env : Env) (channelID : string) : M (result unit) :=
  r <- Begin env ;;
  match r with
  | Err e => ret (Err (Errorf "failed to begin transaction" e))
  | Ok _ =>
      deferRollback
        (r <- Exec env (fun _ => delete_channel channelID) ;;
         match r with
         | Err e => ret (Err (Errorf "failed to remove channel" e))
         | Ok _ =>
             r <- Exec env (fun _ => delete_posted_of_channel channelID) ;;
             match r with
             | Err e => ret (Err (Errorf "failed to remove posted news" e))
             | Ok _ => Commit env
             end
         end)
  end.

Definition GetChannelPlatforms (env : Env) (channelID : string)
  : M (result (list string)) :=
  r <- Query env (select_platforms channelID) ;;
  match r with
  | Err ErrNoRows => ret (Ok [])
  | Err e => ret (Err (Errorf "failed to get channel platforms" e))
  | Ok platforms => ret (Ok (strings.Split platforms ","))
  end.

Definition GetRegisteredChannels (env : Env) : M (result (list string)) :=
  r <- Query env select_channel_ids ;;
  match r with
  | Err e => ret (Err (Errorf "failed to query channels" e))
  | Ok channels => ret (Ok channels)
  end.

Definition GetChannelEnvironment (env : Env) (channelID : string)
  : M (result string) :=
  r <- Query env (select_environment channelID) ;;
  match r with
  | Err ErrNoRows => ret (Ok "PROD")
  | Err e => ret (Err (Errorf "failed to get channel environment" e))
  | Ok environment => ret (Ok environment)
  end.

Definition UpdateChannelPlatforms (env : Env) (channelID : string)
           (platforms : list string) : M (result unit) :=
  let platformsStr := strings.Join platforms "," in
  r <- ExecRows env (update_channel_platforms channelID platformsStr) ;;
  match r with
  | Err e => ret (Err (Errorf "failed to update channel platforms" e))
  | Ok _ => ret (Ok tt)
  end.


Definition GetChannelsByEnvironment (env : Env) (environment : string)
  : M (result (list string)) :=
  if negb (String.eqb environment "DEV") && negb (String.eqb environment "PROD")
  then ret (Err (ErrNew "invalid environment value"))
  else
    r <- Query env (select_channel_ids_by_environment environment) ;;
    match r with
    | Err e => ret (Err (Errorf "failed to query channels by environment" e))
    | Ok channels => ret (Ok channels)
    end.

Definition cacheRow (item : types.NewsItem) (fetched : Z) : CacheRow :=
  {| c_id := types.ID item;
     c_title := types.Title item;
     c_summary := types.Summary item;
     c_content := types.Content item;
     c_tags := strings.Join (types.Tags item) ",";
     c_platforms := strings.Join (types.Platforms item) ",";
     c_updated_at := types.Updated item;
     c_thumbnail_url := types.ThumbnailURL item;
     c_fetched_at := fetched |}.

Definition insertCache (item : types.NewsItem) (now : Z) (s : Store) : result Store :=
  insert_or_replace_cache (cacheRow item now) s.

(** The retry loop of CacheNewsWithOptions for one item; the result is
    the last [err]. *)
Fixpoint cacheAttempts (env : Env) (item : types.NewsItem)
         (attempts : nat) (err : option error) : M (option error) :=
  match attempts with
  | O => ret err
  | S k =>
      r <- Exec env (insertCache item) ;;
      match r with
      | Ok _ => ret None
      | Err e => cacheAttempts env item k (Some e)
      end
  end.

Fixpoint cacheSingle (env : Env) (options : types.DatabaseOptions)
         (news : list types.NewsItem) : M (result unit) :=
  match news with
  | [] => ret (Ok tt)
  | item :: rest =>
      err <- cacheAttempts env item (Z.to_nat (types.RetryCount options + 1)) None ;;
      match err with
      | Some e =>
          if negb (types.IgnoreErrors options)
          then ret (Err (Errorf "failed to cache news item after retries" e))
          else cacheSingle env options rest
      | None => cacheSingle env options rest
      end
  end.

Fixpoint cacheBatch (env : Env) (options : types.DatabaseOptions)
         (news : list types.NewsItem) : M (result unit) :=
  match news with
  | [] => ret (Ok tt)
  | item :: rest =>
      r <- Exec env (insertCache item) ;;
      match r with
      | Err e =>
          if negb (types.IgnoreErrors options)
          then ret (Err (Errorf "failed to cache news item" e))
          else cacheBatch env options rest
      | Ok _ => cacheBatch env options rest
      end
  end.

Definition CacheNewsWithOptions (env : Env) (news : list types.NewsItem)
           (options : types.DatabaseOptions) : M (result unit) :=
  if (Z.of_nat (List.length news) =? 0)%Z then ret (Ok tt)
  else if negb (types.UseBatch options) then cacheSingle env options news
  else
    r <- Begin env ;;
    match r with
    | Err e => ret (Err (Errorf "failed to begin transaction" e))
    | Ok _ =>
        deferRollback
          (r <- cacheBatch env options news ;;
           match r with
           | Err e => ret (Err e)
           | Ok _ => Commit env
           end)
    end.

Definition CacheNews (env : Env) (news : list types.NewsItem) : M (result unit) :=
  CacheNewsWithOptions env news types.DefaultDatabaseOptions.

Definition CleanOldCache (env : Env) : M (result unit) :=
  r <- Exec env delete_old_cache ;;
  match r with
  | Err e => ret (Err (Errorf "failed to clean old cache" e))
  | Ok _ => ret (Ok tt)
  end.

(** *** Import of a channels file *)

(** What the scanner yields from an opened file: the text of its lines and
    then [scanner.Err()]. *)
Record File : Type := {
  lines : list string;
  scan_error : option error
}.

(** The entry of a line, [channel:123456789|pc,ps,xbox]: the channel and
    its cleaned platforms; [None] for a line that is skipped. *)
Definition parseChannelEntry (lib : Lib) (text : string) : option (string * string) :=
  let line := strings_TrimSpace lib text in
  if String.eqb line "" || strings.HasPrefix line "#" then None
  else if negb (strings.HasPrefix line "channel:") then None
  else
    match strings.Split (strings.TrimPrefix line "channel:") "|" with
    | [part0; part1] =>
        let channelID := strings_TrimSpace lib part0 in
        let platformsStr := strings_TrimSpace lib part1 in
        match strconv.ParseUint channelID with
        | None => None
        | Some _ =>
            let validPlatforms :=
              filter (fun platform => negb (String.eqb platform ""))
                     (map (strings_TrimSpace lib) (strings.Split platformsStr ",")) in
            let validPlatforms :=
              if (Z.of_nat (List.length validPlatforms) =? 0)%Z
              then ["pc"; "xbox"; "ps"] else validPlatforms in
            Some (channelID, strings.Join validPlatforms ",")
        end
    | _ => None
    end.

(** One round of the loop over the lines; [Err] leaves the function. *)
Definition importLine (env : Env) (text : string) : M (result unit) :=
  match parseChannelEntry (lib env) text with
  | None => ret (Ok tt)
  | Some (channelID, platformsStr) =>
      r <- Query env (select_platforms channelID) ;;
      match r with
      | Ok _ => ret (Ok tt)
      | Err ErrNoRows =>
          r <- Exec env (insert_channel channelID platformsStr) ;;
          match r with
          | Err e => ret (Err (Errorf "failed to insert channel" e))
          | Ok _ => ret (Ok tt)
          end
      | Err e => ret (Err (Errorf "failed to check existing channel" e))
      end
  end.

Fixpoint importLines (env : Env) (texts : list string) : M (result unit) :=
  match texts with
  | [] => ret (Ok tt)
  | text :: rest =>
      r <- importLine env text ;;
      match r with
      | Err e => ret (Err e)
      | Ok _ => importLines env rest
      end
  end.

(** [open] is [os.Open] followed by the scanner. *)
Definition ImportChannelsFromFile (env : Env) (open : string -> result File)
           (filePath : string) : M (result unit) :=
  match open filePath with
  | Err e => ret (Err (Errorf "failed to open channels file" e))
  | Ok file =>
      r <- Begin env ;;
      match r with
      | Err e => ret (Err (Errorf "failed to begin transaction" e))
      | Ok _ =>
          deferRollback
            (r <- importLines env (lines file) ;;
             match r with
             | Err e => ret (Err e)
             | Ok _ =>
                 match scan_error file with
                 | Some e => ret (Err (Errorf "error reading file" e))
                 | None =>
                     r <- Commit env ;;
                     match r with
                     | Err e => ret (Err (Errorf "failed to commit transaction" e))
                     | Ok _ => ret (Ok tt)
                     end
                 end
             end)
      end
  end.

End database.

(** ** Package news *)

Definition inspect {A} (a : A) : {b : A | a = b} := exist _ a eq_refl.

Module news.

Definition buildNewsURL (tag : string) (limit offset : Z) (platform : string)
           (fields : list string) : Request :=
  {| q_tag := if negb (String.eqb tag "") then Some tag else None;
     q_limit := if (0 <? limit)%Z then Some limit else None;
     q_offset := if (0 <? offset)%Z then Some offset else None;
     q_fields := fields;
     q_platform := if negb (String.eqb platform "") then Some platform else None |}.

Definition DefaultFetchOptions : types.FetchOptions :=
  {| types.EnablePagination := false; types.PageLimit := 0; types.ItemLimit := 100 |}.

Definition BulkFetchOptions : types.FetchOptions :=
  {| types.EnablePagination := true; types.PageLimit := 0; types.ItemLimit := 100 |}.

Definition fields : list string :=
  [ "id"; "title"; "summary"; "tags"; "platforms"; "updated"; "images"; "content" ].

(** [client.Get(url)] *)
Definition Get (env : Env) (url : Request) : M (result Response) :=
  fun w => (http_Get env (http_calls w) url,
            {| db := db w; tx := tx w; db_calls := db_calls w;
               requests := (requests w ++ [url])%list; chat_calls := chat_calls w;
               sent := sent w; now := now w |}).

Definition withTags (item : types.NewsItem) (tags : list string) : types.NewsItem :=
  {| types.ID := types.ID item; types.Title := types.Title item;
     types.Summary := types.Summary item; types.Content := types.Content item;
     types.Tags := tags; types.Platforms := types.Platforms item;
     types.Updated := types.Updated item;
     types.ThumbnailURL := types.ThumbnailURL item;
     types.Images := types.Images item |}.

Definition withContent (item : types.NewsItem) (content : string) : types.NewsItem :=
  {| types.ID := types.ID item; types.Title := types.Title item;
     types.Summary := types.Summary item; types.Content := content;
     types.Tags := types.Tags item; types.Platforms := types.Platforms item;
     types.Updated := types.Updated item;
     types.ThumbnailURL := types.ThumbnailURL item;
     types.Images := types.Images item |}.

Definition processNewsItemTags (newsItems : list types.NewsItem)
           (requestedTag : string) : list types.NewsItem :=
  map (fun item =>
         let tagExists := existsb (fun existingTag => String.eqb existingTag requestedTag)
                                  (types.Tags item) in
         if negb tagExists && negb (String.eqb requestedTag "")
         then withTags item (types.Tags item ++ [requestedTag])%list
         else item)
      newsItems.

Definition cleanNewsItemContent (lib : Lib) (newsItems : list types.NewsItem)
  : list types.NewsItem :=
  map (fun item =>
         if negb (String.eqb (types.Content item) "")
         then withContent item (html_Text lib (types.Content item))
         else item)
      newsItems.

(** [json.NewDecoder(resp.Body).Decode(&newsResponse)] *)
Definition decodeResponse (lib : Lib) (resp : Response) : result (list types.NewsItem) :=
  match Body resp with
  | None => Err (ErrJSON "invalid news response")
  | Some elems => types.decodeNews lib elems
  end.

(** What one turn of the pagination loop of FetchNews decides. *)
Inductive Turn : Type :=
| Return (r : result (list types.NewsItem))
| Continue (allNews : list types.NewsItem) (offset : Z).

(** One turn of [for len(allNews) < count { ... }], the test included. *)
Definition fetchPage (env : Env) (tag : string) (count itemLimit : Z)
           (allNews : list types.NewsItem) (offset : Z) : M Turn :=
  if negb (Z.of_nat (List.length allNews) <? count)%Z then ret (Return (Ok allNews))
  else
    let remaining := (count - Z.of_nat (List.length allNews))%Z in
    let limit := if (remaining <? itemLimit)%Z then remaining else itemLimit in
    r <- Get env (buildNewsURL tag limit offset "" fields) ;;
    match r with
    | Err e => ret (Return (Err (Errorf "failed to fetch news page" e)))
    | Ok resp =>
        if negb (StatusCode resp =? 200)%Z
        then ret (Return (Err (ErrNew "API returned status")))
        else
          match decodeResponse (lib env) resp with
          | Err e => ret (Return (Err (Errorf "failed to decode news response" e)))
          | Ok news =>
              let news := cleanNewsItemContent (lib env) (processNewsItemTags news tag) in
              let allNews' := (allNews ++ news)%list in
              if (Z.of_nat (List.length news) =? 0)%Z then ret (Return (Ok allNews'))
              else ret (Continue allNews' (offset + Z.of_nat (List.length news))%Z)
          end
    end.

Equations? fetchPages (env : Env) (tag : string) (count itemLimit : Z)
           (allNews : list types.NewsItem) (offset : Z) (w : World)
  : result (list types.NewsItem) * World
  by wf (Z.to_nat (count - Z.of_nat (List.length allNews))) lt :=
  fetchPages env tag count itemLimit allNews offset w
    with inspect (fetchPage env tag count itemLimit allNews offset w) := {
    | exist _ (Return r, w') _ => (r, w')
    | exist _ (Continue allNews' offset', w') Heq =>
        fetchPages env tag count itemLimit allNews' offset' w' }.
Proof.
  revert Heq. unfold fetchPage, bind, ret, Get.
  destruct (Z.of_nat (List.length allNews) <? count)%Z eqn:Hlt; simpl; [|discriminate].
  destruct (http_Get env (http_calls w) _) as [resp|e]; [|discriminate].
  destruct (negb (StatusCode resp =? 200)%Z); [discriminate|].
  destruct (decodeResponse (lib env) resp) as [news|e]; [|discriminate].
  destruct (Z.of_nat (List.length (cleanNewsItemContent _ _)) =? 0)%Z eqn:Hz;
    [discriminate|].
  intros H; inversion H; subst; clear H.
  rewrite length_app.
  apply Z.ltb_lt in Hlt. apply Z.eqb_neq in Hz. lia.
Qed.

Definition FetchNews (env : Env) (tag : string) (count : Z)
           (options : types.FetchOptions) : M (result (list types.NewsItem)) :=
  if negb (types.EnablePagination options) || (count <=? types.ItemLimit options)%Z
  then
    r <- Get env (buildNewsURL tag count 0 "" fields) ;;
    match r with
    | Err e => ret (Err (Errorf "failed to fetch news" e))
    | Ok resp =>
        if negb (StatusCode resp =? 200)%Z
        then ret (Err (ErrNew "API returned status"))
        else
          match decodeResponse (lib env) resp with
          | Err e => ret (Err (Errorf "failed to decode news response" e))
          | Ok news =>
              ret (Ok (cleanNewsItemContent (lib env) (processNewsItemTags news tag)))
          end
    end
  else fetchPages env tag count (types.ItemLimit options) [] 0.

Definition filterNewsByPlatforms (lib : Lib) (news : list types.NewsItem)
           (platforms : list string) : list types.NewsItem :=
  if (Z.of_nat (List.length platforms) =? 0)%Z then news
  else
    let platformSet := map (strings_ToLower lib) platforms in
    filter (fun item =>
              existsb (fun itemPlatform =>
                         existsb (String.eqb (strings_ToLower lib itemPlatform)) platformSet)
                      (types.Platforms item))
           news.

Definition formatNewsForDiscord (lib : Lib) (newsItem : types.NewsItem)
  : discordgo.MessageEmbed :=
  let summary := types.Summary newsItem in
  let summary :=
    if (2048 <? len summary)%Z then
      if (len summary <=? 3)%Z then slice_to summary 2048
      else slice_to summary 2045 ++ "..."
    else summary in
  {| discordgo.Title := types.Title newsItem;
     discordgo.Description := summary;
     discordgo.URL :=
       "https://playstartrekonline.com/en/news/article/"
         ++ strconv.Itoa (types.ID newsItem);
     discordgo.Color := 0x00ff00;
     discordgo.Timestamp := time_Format lib (types.Updated newsItem) types.RFC3339;
     discordgo.Footer :=
       Some ("Platforms: " ++ strings.Join (types.Platforms newsItem) ", ");
     discordgo.Fields :=
       [ {| discordgo.Name := "Tags";
            discordgo.Value := strings.Join (types.Tags newsItem) ", ";
            discordgo.Inline := true |};
         {| discordgo.Name := "Platforms";
            discordgo.Value := strings.Join (types.Platforms newsItem) ", ";
            discordgo.Inline := true |} ];
     discordgo.Thumbnail :=
       if negb (String.eqb (types.ThumbnailURL newsItem) "")
       then Some (types.ThumbnailURL newsItem) else None |}.

(** PostNewsToChannel; a post that the chat service accepts is recorded
    in [sent]. *)
Definition PostNewsToChannel (env : Env) (channelID : string)
           (newsItem : types.NewsItem) : M (option error) :=
  fun w =>
    let embed := formatNewsForDiscord (lib env) newsItem in
    let err := ChannelMessageSendEmbed env (chat_calls w) channelID embed in
    (err,
     {| db := db w; tx := tx w; db_calls := db_calls w; requests := requests w;
        chat_calls := S (chat_calls w);
        sent := match err with
                | None => (sent w ++ [(channelID, types.ID newsItem)])%list
                | Some _ => sent w
                end;
        now := now w |}).

(** The text of a message that the duplicate check searches. *)
Fixpoint embedsText (lib : Lib) (messageText : string)
         (embeds : list discordgo.MessageEmbed) : string :=
  match embeds with
  | [] => messageText
  | embed :: rest =>
      let messageText :=
        if negb (String.eqb (discordgo.Title embed) "")
        then messageText ++ " " ++ strings_ToLower lib (discordgo.Title embed)
        else messageText in
      let messageText :=
        if negb (String.eqb (discordgo.Description embed) "")
        then messageText ++ " " ++ strings_ToLower lib (discordgo.Description embed)
        else messageText in
      embedsText lib messageText rest
  end.

Fixpoint countMatches (messageText : string) (titleWords : list string)
         (matchCount : Z) : Z :=
  match titleWords with
  | [] => matchCount
  | word :: rest =>
      countMatches messageText rest
        (if (3 <? len word)%Z && strings.Contains messageText word
         then (matchCount + 1)%Z else matchCount)
  end.

Fixpoint scanMessages (lib : Lib) (selfID : string) (titleWords : list string)
         (messages : list discordgo.Message) : bool :=
  match messages with
  | [] => false
  | message :: rest =>
      if negb (String.eqb (discordgo.AuthorID message) selfID)
      then scanMessages lib selfID titleWords rest
      else
        let messageText :=
          embedsText lib (strings_ToLower lib (discordgo.Content message))
                     (discordgo.Embeds message) in
        let matchCount := countMatches messageText titleWords 0 in
        if (Z.quot (Z.of_nat (List.length titleWords)) 2 <? matchCount)%Z
           && (2 <=? matchCount)%Z
        then true
        else scanMessages lib selfID titleWords rest
  end.

(** [b.Session.ChannelMessages(channelID, b.Config.MsgCount, "", "", "")] *)
Definition recentMessages (env : Env) (cfg : types.Config) (channelID : string)
  : M (result (list discordgo.Message)) :=
  fun w => (ChannelMessages env (chat_calls w) channelID (types.MsgCount cfg),
            {| db := db w; tx := tx w; db_calls := db_calls w;
               requests := requests w; chat_calls := S (chat_calls w);
               sent := sent w; now := now w |}).

Definition IsDuplicateInRecentMessages (env : Env) (cfg : types.Config)
           (channelID : string) (newsItem : types.NewsItem) : M bool :=
  r <- recentMessages env cfg channelID ;;
  match r with
  | Err _ => ret false
  | Ok messages =>
      let titleWords :=
        strings_Fields (lib env) (strings_ToLower (lib env) (types.Title newsItem)) in
      if (Z.of_nat (List.length titleWords) =? 0)%Z then ret false
      else ret (scanMessages (lib env) (self_id env) titleWords messages)
  end.

(** The loop of ProcessChannelNews over the fetched items. *)
Fixpoint postUnposted (env : Env) (channelID : string)
         (newsItems : list types.NewsItem) : M unit :=
  match newsItems with
  | [] => ret tt
  | newsItem :: rest =>
      r <- database.IsNewsPosted env (types.ID newsItem) channelID ;;
      match r with
      | Err _ => postUnposted env channelID rest
      | Ok true => postUnposted env channelID rest
      | Ok false =>
          err <- PostNewsToChannel env channelID newsItem ;;
          match err with
          | Some _ => postUnposted env channelID rest
          | None =>
              _ <- database.MarkNewsAsPosted env (types.ID newsItem) channelID ;;
              postUnposted env channelID rest
          end
      end
  end.

Definition ProcessChannelNews (env : Env) (cfg : types.Config) (channelID : string)
  : M unit :=
  proceed <-
    (if negb (String.eqb (types.Environment cfg) "") then
       r <- database.GetChannelEnvironment env channelID ;;
       match r with
       | Err _ => ret false
       | Ok channelEnv => ret (String.eqb channelEnv (types.Environment cfg))
       end
     else ret true) ;;
  if negb proceed then ret tt
  else
    r <- database.GetChannelPlatforms env channelID ;;
    match r with
    | Err _ => ret tt
    | Ok platforms =>
        if (Z.of_nat (List.length platforms) =? 0)%Z then ret tt
        else
          r <- FetchNews env "" (types.PollCount cfg) DefaultFetchOptions ;;
          match r with
          | Err _ => ret tt
          | Ok newsItems =>
              _ <- database.CacheNews env newsItems ;;
              postUnposted env channelID newsItems
          end
    end.

(** The innermost loop of CatchUpUnpostedNews. *)
Fixpoint catchUpItems (env : Env) (cfg : types.Config) (cutoff : Z)
         (channelID : string) (filteredNews : list types.NewsItem) : M unit :=
  match filteredNews with
  | [] => ret tt
  | newsItem :: rest =>
      if (types.Updated newsItem <? cutoff)%Z
      then catchUpItems env cfg cutoff channelID rest
      else
        r <- database.IsNewsPosted env (types.ID newsItem) channelID ;;
        match r with
        | Err _ => catchUpItems env cfg cutoff channelID rest
        | Ok true => catchUpItems env cfg cutoff channelID rest
        | Ok false =>
            dup <- IsDuplicateInRecentMessages env cfg channelID newsItem ;;
            if dup then catchUpItems env cfg cutoff channelID rest
            else
              err <- PostNewsToChannel env channelID newsItem ;;
              match err with
              | Some _ => catchUpItems env cfg cutoff channelID rest
              | None =>
                  _ <- database.MarkNewsAsPosted env (types.ID newsItem) channelID ;;
                  catchUpItems env cfg cutoff channelID rest
              end
        end
  end.

Fixpoint catchUpChannels (env : Env) (cfg : types.Config) (cutoff : Z)
         (newsItems : list types.NewsItem) (channels : list string) : M unit :=
  match channels with
  | [] => ret tt
  | channelID :: rest =>
      r <- database.GetChannelPlatforms env channelID ;;
      match r with
      | Err _ => catchUpChannels env cfg cutoff newsItems rest
      | Ok platforms =>
          _ <- catchUpItems env cfg cutoff channelID
                 (filterNewsByPlatforms (lib env) newsItems platforms) ;;
          catchUpChannels env cfg cutoff newsItems rest
      end
  end.

Fixpoint catchUpTags (env : Env) (cfg : types.Config) (cutoff : Z)
         (channels : list string) (tags : list string) : M unit :=
  match tags with
  | [] => ret tt
  | tag :: rest =>
      r <- FetchNews env tag (types.PollCount cfg * 10)%Z BulkFetchOptions ;;
      match r with
      | Err _ => catchUpTags env cfg cutoff channels rest
      | Ok newsItems =>
          _ <- catchUpChannels env cfg cutoff newsItems channels ;;
          catchUpTags env cfg cutoff channels rest
      end
  end.

Definition CatchUpUnpostedNews (env : Env) (cfg : types.Config) (days : Z) : M unit :=
  r <- database.GetRegisteredChannels env ;;
  match r with
  | Err _ => ret tt
  | Ok channels =>
      if (Z.of_nat (List.length channels) =? 0)%Z then ret tt
      else
        fun w =>
          let cutoff := (now w - days * 24 * 3600)%Z in
          catchUpTags env cfg cutoff channels ["star-trek-online"; "patch-notes"] w
  end.

(** The workers of a tick when none overlaps another: each one runs to its
    end before the next is started.  [goroutines.NewsPollerTurn] is the
    loop with its go statements. *)
Fixpoint processChannels (env : Env) (cfg : types.Config) (channels : list string)
  : M unit :=
  match channels with
  | [] => ret tt
  | channelID :: rest =>
      _ <- ProcessChannelNews env cfg channelID ;;
      processChannels env cfg rest
  end.

(** One turn of the ticker loop of NewsPoller in that schedule. *)
Definition pollTick (env : Env) (cfg : types.Config) : M unit :=
  r <- (if negb (String.eqb (types.Environment cfg) "")
        then database.GetChannelsByEnvironment env (types.Environment cfg)
        else database.GetRegisteredChannels env) ;;
  match r with
  | Err _ => ret tt
  | Ok channels =>
      if (Z.of_nat (List.length channels) =? 0)%Z then ret tt
      else
        _ <- processChannels env cfg channels ;;
        _ <- database.CleanOldCache env ;;
        ret tt
  end.

End news.

(** ** Package main: the maintenance commands *)

Module main.

(** [markAllPosted] once the flags are read.  An [Err] stands for the
    exit of the process through log.Fatalf. *)
Definition markAllPosted (env : Env) (dryRun : bool) : M (result unit) :=
  r <- database.initDatabase env ;;
  match r with
  | Err e => ret (Err (Errorf "Failed to initialize database" e))
  | Ok _ =>
  r <- database.GetRegisteredChannels env ;;
  match r with
  | Err e => ret (Err (Errorf "Failed to get channels" e))
  | Ok channels =>
  if (Z.of_nat (List.length channels) =? 0)%Z then ret (Ok tt)
  else
  r <- database.GetAllCachedNews env ;;
  match r with
  | Err e => ret (Err (Errorf "Failed to get cached news" e))
  | Ok newsItems =>
  if (Z.of_nat (List.length newsItems) =? 0)%Z then ret (Ok tt)
  else if dryRun then ret (Ok tt)
  else
  r <- database.MarkMultipleNewsAsPosted env newsItems channels
         database.BulkDatabaseOptions ;;
  match r with
  | Err e => ret (Err (Errorf "Failed to mark news items as posted" e))
  | Ok _ => ret (Ok tt)
  end end end end.

End main.

(** ** Runs of the engine *)

(** What the engine does over time: ticks of the poller and catch-up
    runs, each at the wall-clock time it starts.  [run] is the history in
    which each of them ends before the next one starts;
    [goroutines.engine] is the history with its go statements. *)
Inductive Op : Type :=
| Tick (at_time : Z)
| CatchUp (at_time : Z) (days : Z).

Definition runOp (env : Env) (cfg : types.Config) (op : Op) : M unit :=
  match op with
  | Tick t => fun w => news.pollTick env cfg (with_now t w)
  | CatchUp t days => fun w => news.CatchUpUnpostedNews env cfg days (with_now t w)
  end.

Fixpoint run (env : Env) (cfg : types.Config) (ops : list Op) : M unit :=
  match ops with
  | [] => ret tt
  | op :: rest => _ <- runOp env cfg op ;; run env cfg rest
  end.

(** The number of successful posts of article [A] to channel [C]. *)
Definition posts (A : Z) (C : string) (w : World) : nat :=
  List.length (filter (fun p => String.eqb (fst p) C && (snd p =? A)%Z) (sent w)).

(** ** Goroutines

    A goroutine is a sequence of actions and go statements.  An action is a
    call of the program on the world; the scheduler does not switch inside
    an action.  Every call of the store, of the chat service and of the
    clock is an action of its own; FetchNews, CacheNews and
    MarkNewsAsPosted, which make several calls, are taken as one action
    each, so that the schedules of the model are schedules of the program
    (the program has more). *)

Inductive Task : Type :=
| Done
| Act {X : Type} (action : M X) (rest : X -> Task)
| Go (child : Task) (rest : Task).

(** [go f(); go g(); ...] before [rest]. *)
Definition goEach (children : list Task) (rest : Task) : Task :=
  fold_right Go rest children.




(** The schedule without overlap: a goroutine that is started runs to its
    end before the one that started it goes on. *)
Fixpoint serial (t : Task) : M unit :=
  match t with
  | Done => ret tt
  | Act action rest => x <- action ;; serial (rest x)
  | Go child rest => _ <- serial child ;; serial rest
  end.

(** The clock shows [t]: the ticker fires, the process starts. *)
Definition clock (t : Z) : M unit := fun w => (tt, with_now t w).

Module goroutines.

(** The loop of ProcessChannelNews over the fetched items. *)
Fixpoint postUnposted (env : Env) (channelID : string)
         (newsItems : list types.NewsItem) (rest : Task) : Task :=
  match newsItems with
  | [] => rest
  | newsItem :: items =>
      Act (database.IsNewsPosted env (types.ID newsItem) channelID)
        (fun r =>
           match r with
           | Err _ => postUnposted env channelID items rest
           | Ok true => postUnposted env channelID items rest
           | Ok false =>
               Act (news.PostNewsToChannel env channelID newsItem)
                 (fun err =>
                    match err with
                    | Some _ => postUnposted env channelID items rest
                    | None =>
                        Act (database.MarkNewsAsPosted env (types.ID newsItem) channelID)
                          (fun _ => postUnposted env channelID items rest)
                    end)
           end)
  end.

Definition ProcessChannelNews (env : Env) (cfg : types.Config) (channelID : string)
           (rest : Task) : Task :=
  let work :=
    Act (database.GetChannelPlatforms env channelID)
      (fun r =>
         match r with
         | Err _ => rest
         | Ok platforms =>
             if (Z.of_nat (List.length platforms) =? 0)%Z then rest
             else
               Act (news.FetchNews env "" (types.PollCount cfg) news.DefaultFetchOptions)
                 (fun r =>
                    match r with
                    | Err _ => rest
                    | Ok newsItems =>
                        Act (database.CacheNews env newsItems)
                          (fun _ => postUnposted env channelID newsItems rest)
                    end)
         end) in
  if negb (String.eqb (types.Environment cfg) "") then
    Act (database.GetChannelEnvironment env channelID)
      (fun r =>
         match r with
         | Err _ => rest
         | Ok channelEnv =>
             if negb (String.eqb channelEnv (types.Environment cfg)) then rest
             else work
         end)
  else work.

(** The innermost loop of CatchUpUnpostedNews. *)
Fixpoint catchUpItems (env : Env) (cfg : types.Config) (cutoff : Z)
         (channelID : string) (filteredNews : list types.NewsItem) (rest : Task)
  : Task :=
  match filteredNews with
  | [] => rest
  | newsItem :: items =>
      if (types.Updated newsItem <? cutoff)%Z
      then catchUpItems env cfg cutoff channelID items rest
      else
        Act (database.IsNewsPosted env (types.ID newsItem) channelID)
          (fun r =>
             match r with
             | Err _ => catchUpItems env cfg cutoff channelID items rest
             | Ok true => catchUpItems env cfg cutoff channelID items rest
             | Ok false =>
                 Act (news.IsDuplicateInRecentMessages env cfg channelID newsItem)
                   (fun dup =>
                      if dup then catchUpItems env cfg cutoff channelID items rest
                      else
                        Act (news.PostNewsToChannel env channelID newsItem)
                          (fun err =>
                             match err with
                             | Some _ =>
                                 catchUpItems env cfg cutoff channelID items rest
                             | None =>
                                 Act (database.MarkNewsAsPosted env
                                        (types.ID newsItem) channelID)
                                   (fun _ =>
                                      catchUpItems env cfg cutoff channelID items rest)
                             end))
             end)
  end.

Fixpoint catchUpChannels (env : Env) (cfg : types.Config) (cutoff : Z)
         (newsItems : list types.NewsItem) (channels : list string) (rest : Task)
  : Task :=
  match channels with
  | [] => rest
  | channelID :: others =>
      Act (database.GetChannelPlatforms env channelID)
        (fun r =>
           match r with
           | Err _ => catchUpChannels env cfg cutoff newsItems others rest
           | Ok platforms =>
               catchUpItems env cfg cutoff channelID
                 (news.filterNewsByPlatforms (lib env) newsItems platforms)
                 (catchUpChannels env cfg cutoff newsItems others rest)
           end)
  end.

Fixpoint catchUpTags (env : Env) (cfg : types.Config) (cutoff : Z)
         (channels : list string) (tags : list string) (rest : Task) : Task :=
  match tags with
  | [] => rest
  | tag :: others =>
      Act (news.FetchNews env tag (types.PollCount cfg * 10)%Z news.BulkFetchOptions)
        (fun r =>
           match r with
           | Err _ => catchUpTags env cfg cutoff channels others rest
           | Ok newsItems =>
               catchUpChannels env cfg cutoff newsItems channels
                 (catchUpTags env cfg cutoff channels others rest)
           end)
  end.

Definition CatchUpUnpostedNews (env : Env) (cfg : types.Config) (days : Z)
           (rest : Task) : Task :=
  Act (database.GetRegisteredChannels env)
    (fun r =>
       match r with
       | Err _ => rest
       | Ok channels =>
           if (Z.of_nat (List.length channels) =? 0)%Z then rest
           else
             Act (fun w => (now w, w))
               (fun time_Now =>
                  let cutoff := (time_Now - days * 24 * 3600)%Z in
                  catchUpTags env cfg cutoff channels
                    ["star-trek-online"; "patch-notes"] rest)
       end).

(** One turn of [for range ticker.C] in NewsPoller: a goroutine is
    started for each channel, and the poller goes on without waiting for
    any of them. *)
Definition NewsPollerTurn (env : Env) (cfg : types.Config) (rest : Task) : Task :=
  Act (if negb (String.eqb (types.Environment cfg) "")
       then database.GetChannelsByEnvironment env (types.Environment cfg)
       else database.GetRegisteredChannels env)
    (fun r =>
       match r with
       | Err _ => rest
       | Ok channels =>
           if (Z.of_nat (List.length channels) =? 0)%Z then rest
           else
             goEach (map (fun channelID => ProcessChannelNews env cfg channelID Done)
                         channels)
                    (Act (database.CleanOldCache env) (fun _ => rest))
       end).

(** NewsPoller while the ticker fires at the times [ticks]. *)
Fixpoint NewsPoller (env : Env) (cfg : types.Config) (ticks : list Z) : Task :=
  match ticks with
  | [] => Done
  | t :: later =>
      Act (clock t) (fun _ => NewsPollerTurn env cfg (NewsPoller env cfg later))
  end.

(** runBot from its two go statements on, the process being started at
    [start]. *)
Definition runBot (env : Env) (cfg : types.Config) (start : Z) (ticks : list Z)
  : Task :=
  Act (clock start)
    (fun _ => Go (CatchUpUnpostedNews env cfg 7 Done)
                 (Go (NewsPoller env cfg ticks) Done)).


End goroutines.

(** ** What the specification says the duplicate check computes *)

Module spec.

(** The title split on white space, each token lowercased. *)
Definition tokens (lib : Lib) (title : string) : list string :=
  map (strings_ToLower lib) (strings_Fields lib title).

Definition embedParts (e : discordgo.MessageEmbed) : string :=
  (if String.eqb (discordgo.Title e) "" then "" else " " ++ discordgo.Title e)
  ++ (if String.eqb (discordgo.Description e) "" then ""
      else " " ++ discordgo.Description e).

(** Content plus all embed titles and descriptions, concatenated (a
    space before each part that is present) and lowercased. *)
Definition messageText (lib : Lib) (m : discordgo.Message) : string :=
  strings_ToLower lib
    (discordgo.Content m ++ String.concat "" (map embedParts (discordgo.Embeds m))).

(** The number of tokens longer than 3 that occur in the text. *)
Definition matching (text : string) (toks : list string) : Z :=
  Z.of_nat (List.length
              (filter (fun t => (3 <? len t)%Z && strings.Contains text t) toks)).

Definition isDuplicate (lib : Lib) (selfID title : string)
           (inspected : list discordgo.Message) : bool :=
  let toks := tokens lib title in
  match toks with
  | [] => false
  | _ =>
      existsb (fun m =>
                 let k := matching (messageText lib m) toks in
                 (Z.of_nat (List.length toks) / 2 <? k)%Z && (2 <=? k)%Z)
              (filter (fun m => String.eqb (discordgo.AuthorID m) selfID) inspected)
  end.

End spec.

(** What the duplicate check needs of the library.  Lowering goes through a
    text part by part when the parts are separated by a space, and it maps
    the words of a text to the words of the lowered text: white space is
    not a letter.  Both hold of Go's strings.ToLower and strings.Fields. *)
Definition lowersParts (lib : Lib) : Prop :=
  forall x y, strings_ToLower lib (x ++ " " ++ y)
              = strings_ToLower lib x ++ " " ++ strings_ToLower lib y.

Definition lowersWords (lib : Lib) : Prop :=
  forall s, strings_Fields lib (strings_ToLower lib s)
            = map (strings_ToLower lib) (strings_Fields lib s).


(** ** Sample data *)

(** A library instance for the examples.  The parser knows one instant,
    in the texts that the layouts of UnmarshalJSON read: the text that ends
    in Z is read by RFC3339 and by the second layout, the text with a
    space by the third, the text without a zone by the fourth.  The texts
    of the examples are ASCII. *)
Definition sampleLib : Lib :=
  {| time_Parse := fun layout value =>
       if (String.eqb value "2024-01-15T12:00:00Z"
           && (String.eqb layout types.RFC3339
               || String.eqb layout "2006-01-02T15:04:05Z"))
          || (String.eqb value "2024-01-15 12:00:00"
              && String.eqb layout "2006-01-02 15:04:05")
          || (String.eqb value "2024-01-15T12:00:00"
              && String.eqb layout "2006-01-02T15:04:05")
       then Some 63840873600%Z else None;
     time_Format := fun t layout => layout ++ "@" ++ strconv.Itoa t;
     html_Text := fun s => s;
     strings_ToLower := strings.ToLowerASCII;
     strings_Fields := strings.FieldsASCII;
     strings_TrimSpace := strings.TrimSpaceASCII |}.

Definition longTitleItem : types.NewsItem :=
  {| types.ID := 12345;
     types.Title := strings.Repeat "a" 257;
     types.Summary := "Patch notes for this week";
     types.Content := "";
     types.Tags := ["patch-notes"];
     types.Platforms := ["pc"];
     types.Updated := 63840873600%Z;
     types.ThumbnailURL := "";
     types.Images := None |}.

(** An upstream article whose id is neither a number nor a numeric string. *)
Definition badIdArticle : types.JSON :=
  types.JObject [ ("id", types.JString "abc");
                  ("title", types.JString "Patch notes");
                  ("updated", types.JString "next tuesday") ].

(** The values an object gives for a field, in the order of the text: the
    values of the members whose key names the field. *)
Definition named (f : types.Field) (members : list (string * types.JSON))
  : list types.JSON :=
  map snd (filter (fun kv => match types.fieldOf (fst kv) with
                             | Some g => types.sameField g f
                             | None => false
                             end) members).

(** The last of them. *)
Definition given (f : types.Field) (members : list (string * types.JSON))
  : option types.JSON :=
  last (map Some (named f members)) None.

(** The JSON values that the Go type of a field takes. *)
Definition takes (f : types.Field) (v : types.JSON) : bool :=
  match f with
  | types.FieldID => true
  | types.FieldTags | types.FieldPlatforms =>
      match v with
      | types.JNull => true
      | types.JArray elems =>
          forallb (fun e => match e with
                            | types.JString _ | types.JNull => true
                            | _ => false
                            end) elems
      | _ => false
      end
  | types.FieldImages =>
      match v with types.JNull | types.JObject _ => true | _ => false end
  | _ => match v with types.JNull | types.JString _ => true | _ => false end
  end.

(** An object all of whose members are of the type of the field they
    name. *)
Definition wellTyped (members : list (string * types.JSON)) : bool :=
  forallb (fun kv => match types.fieldOf (fst kv) with
                     | Some f => takes f (snd kv)
                     | None => true
                     end) members.

(** [z] is the number [mant * 2 ^ expo] without its fraction. *)
Definition truncated (f : types.float64) (z : Z) : Prop :=
  let num := if (0 <=? types.expo f)%Z
             then (types.mant f * 2 ^ types.expo f)%Z else types.mant f in
  let den := if (0 <=? types.expo f)%Z then 1%Z else (2 ^ (- types.expo f))%Z in
  (Z.abs z * den <= Z.abs num < (Z.abs z + 1) * den)%Z /\ (0 <= z * num)%Z.

(** ** Vocabulary of the statements *)

(** No driver call fails below SQL. *)
Definition reliable (env : Env) : Prop := forall n, db_fault env n = false.

(** The driver never fails four times in a row: a statement that is tried
    four times, as mark_delivered tries its insert, goes through. *)
Definition transientFaults (env : Env) : Prop :=
  forall n, db_fault env n && db_fault env (S n)
            && db_fault env (S (S n)) && db_fault env (S (S (S n))) = false.

(** The world after one more driver call. *)
Definition tick (w : World) : World :=
  {| db := db w; tx := tx w; db_calls := S (db_calls w);
     requests := requests w; chat_calls := chat_calls w;
     sent := sent w; now := now w |}.

(** The table has the schema that createTables and the migration give it. *)
Definition composite (t : sqlite.PostedTable) : Prop :=
  sqlite.schema_sql t = sqlite.posted_news_sql.

(** The number of rows of the ledger for a pair. *)
Definition pairCount (A : Z) (C : string) (t : sqlite.PostedTable) : nat :=
  List.length (filter (sqlite.same_pair A C) (sqlite.posted_rows t)).

(** UNIQUE(news_id, channel_id) holds of the rows. *)
Definition uniqueRows (t : sqlite.PostedTable) : Prop :=
  forall A C, (pairCount A C t <= 1)%nat.

(** [k] calls of mark_delivered in a row, with their results. *)
Fixpoint markTimes (env : Env) (A : Z) (C : string) (k : nat)
  : M (list (result unit)) :=
  match k with
  | O => ret []
  | S k' =>
      r <- database.MarkNewsAsPosted env A C ;;
      rs <- markTimes env A C k' ;;
      ret (r :: rs)
  end.

(** An environment without failures: the feed is empty, the channel has no
    messages, every post is accepted. *)
Definition quietEnv : Env :=
  {| lib := sampleLib;
     db_fault := fun _ => false;
     http_Get := fun _ _ => Ok {| StatusCode := 200; Body := Some [] |};
     ChannelMessages := fun _ _ _ => Ok [];
     ChannelMessageSendEmbed := fun _ _ _ => None;
     self_id := "bot" |}.

Definition freshWorld : World :=
  {| db := sqlite.empty; tx := None; db_calls := O; requests := [];
     chat_calls := O; sent := []; now := 1000%Z |}.

(** The world once initDatabase has run on a new file. *)
Definition readyWorld : World := snd (database.initDatabase quietEnv freshWorld).

(** The answer of the upstream to a request past its last article. *)
Definition emptyPage : Response := {| StatusCode := 200; Body := Some [] |}.

Definition article (id : Z) (title : string) : types.JSON :=
  types.JObject [ ("id", types.JNumber {| types.mant := id; types.expo := 0 |});
                  ("title", types.JString title);
                  ("platforms", types.JArray [types.JString "PC"]);
                  ("updated", types.JString "2024-01-15T12:00:00Z") ].

(** An upstream that has three articles and honours limit and offset. *)
Definition threeArticles : list types.JSON :=
  [ article 103 "Tholian Assembly Update"; article 102 "Patch notes"; article 101 "Weekend event" ].

Definition smallFeed (req : Request) : result Response :=
  let offset := match q_offset req with Some o => Z.to_nat o | None => O end in
  let rest := skipn offset threeArticles in
  Ok {| StatusCode := 200;
        Body := Some (match q_limit req with
                      | Some l => firstn (Z.to_nat l) rest
                      | None => rest
                      end) |}.

Definition smallFeedEnv : Env :=
  {| lib := sampleLib;
     db_fault := fun _ => false;
     http_Get := fun _ => smallFeed;
     ChannelMessages := fun _ _ _ => Ok [];
     ChannelMessageSendEmbed := fun _ _ _ => None;
     self_id := "bot" |}.

Definition pagesOfTwo : types.FetchOptions :=
  {| types.EnablePagination := true; types.PageLimit := 0; types.ItemLimit := 2 |}.

(** The offset a request asks for (none is 0). *)
Definition offsetOf (r : Request) : Z :=
  match q_offset r with Some o => o | None => 0%Z end.

(** A store of the older program: the delivery table has news_id as its
    primary key; the other tables are those of createTables. *)
Definition legacyTable : sqlite.PostedTable :=
  {| sqlite.schema_sql :=
       "CREATE TABLE posted_news (news_id INTEGER PRIMARY KEY, channel_id TEXT NOT NULL)";
     sqlite.has_posted_at := false;
     sqlite.posted_rows :=
       [ {| sqlite.news_id := 1; sqlite.channel_id := "A"; sqlite.posted_at := None |};
         {| sqlite.news_id := 2; sqlite.channel_id := "B"; sqlite.posted_at := None |} ] |}.

Definition legacyWorld : World :=
  {| db := sqlite.set_posted_news (Some legacyTable) sqlite.empty;
     tx := None; db_calls := O; requests := []; chat_calls := O;
     sent := []; now := 1000%Z |}.

(** An environment in which exactly the driver call number [k] fails. *)
Definition faultAt (k : nat) : Env :=
  {| lib := sampleLib;
     db_fault := fun n => Nat.eqb n k;
     http_Get := fun _ _ => Ok emptyPage;
     ChannelMessages := fun _ _ _ => Ok [];
     ChannelMessageSendEmbed := fun _ _ _ => None;
     self_id := "bot" |}.

(** Every pair of the old rows is in the table, once, and nothing else. *)
Definition holdsExactly (rows : list sqlite.PostedRow) (t : sqlite.PostedTable) : Prop :=
  forall A C,
    pairCount A C t = if existsb (sqlite.same_pair A C) rows then 1%nat else 0%nat.

(** An upstream whose only article has a malformed id and date. *)
Definition badFeedEnv : Env :=
  {| lib := sampleLib;
     db_fault := fun _ => false;
     http_Get := fun _ _ => Ok {| StatusCode := 200; Body := Some [badIdArticle] |};
     ChannelMessages := fun _ _ _ => Ok [];
     ChannelMessageSendEmbed := fun _ _ _ => None;
     self_id := "bot" |}.

Definition sampleConfig : types.Config :=
  {| types.DiscordToken := "token"; types.PollPeriod := 600; types.PollCount := 20;
     types.FreshSeconds := 600; types.MsgCount := 10;
     types.ChannelsPath := "/data/channels.txt";
     types.DatabasePath := "./data/stobot.db"; types.Environment := "" |}.

(** The store after init and the registration of channel CH1. *)
Definition subscribedWorld : World :=
  snd (database.AddChannel quietEnv "CH1" readyWorld).

(** The chat service refuses the first post and accepts the later ones,
    the driver call number 27 fails (the first attempt of the first
    mark_delivered of a tick that starts in [subscribedWorld]); the upstream
    serves its three articles. *)
Definition flakyChatEnv : Env :=
  {| lib := sampleLib;
     db_fault := fun n => Nat.eqb n 27;
     http_Get := fun _ => smallFeed;
     ChannelMessages := fun _ _ _ => Ok [];
     ChannelMessageSendEmbed := fun n _ _ =>
       if Nat.eqb n 0 then Some (ErrChat "HTTP 500") else None;
     self_id := "bot" |}.

(** The four attempts of the first mark_delivered of a run that starts in
    [subscribedWorld] fail; everything else works. *)
Definition lostWriteEnv : Env :=
  {| lib := sampleLib;
     db_fault := fun n =>
       let first := (db_calls subscribedWorld + 4)%nat in
       Nat.leb first n && Nat.leb n (first + 3);
     http_Get := fun _ _ =>
       Ok {| StatusCode := 200; Body := Some [article 103 "Tholian Assembly Update"] |};
     ChannelMessages := fun _ _ _ => Ok [];
     ChannelMessageSendEmbed := fun _ _ _ => None;
     self_id := "bot" |}.

Definition cachedItem (id : Z) : types.NewsItem :=
  {| types.ID := id; types.Title := "Weekend event"; types.Summary := "";
     types.Content := ""; types.Tags := []; types.Platforms := ["pc"];
     types.Updated := 63840873600%Z; types.ThumbnailURL := "";
     types.Images := None |}.

(** The store after init with the articles 101, 102 and 103 in the cache. *)
Definition cachedWorld : World :=
  snd (database.CacheNews quietEnv [cachedItem 101; cachedItem 102; cachedItem 103]
                          readyWorld).

(** CH1 is registered for pc only, in DEV, and 101 was delivered to it. *)
Definition devWorld : World :=
  with_db
    (sqlite.set_posted_news
       (Some {| sqlite.schema_sql := sqlite.posted_news_sql;
                sqlite.has_posted_at := true;
                sqlite.posted_rows :=
                  [ {| sqlite.news_id := 101; sqlite.channel_id := "CH1";
                       sqlite.posted_at := Some 900%Z |} ] |})
       (sqlite.set_channels
          (fun _ => [ {| sqlite.ch_id := "CH1"; sqlite.ch_platforms := "pc";
                         sqlite.ch_environment := "DEV";
                         sqlite.ch_created_at := 500; sqlite.ch_updated_at := 600 |} ])
          (db cachedWorld)))
    cachedWorld.






(** ** Vocabulary of the delivery properties *)

(** The ledger has a row for the pair: what is_delivered reads. *)
Definition marked (s : sqlite.Store) (A : Z) (C : string) : bool :=
  match sqlite.posted_news s with
  | Some t => existsb (sqlite.same_pair A C) (sqlite.posted_rows t)
  | None => false
  end.

(** The channel has a row in the subscription table, and the row suits a
    bot whose configured environment is [e] (any row suits the empty one). *)
Definition subscribed (e : string) (s : sqlite.Store) (C : string) : Prop :=
  exists r, sqlite.find_channel C s = Some r
            /\ (e = "" \/ sqlite.ch_environment r = e).

(** A post the engine may make in the store [s]: to a subscribed channel,
    of an article that the ledger does not have for it. *)
Definition mayPost (e : string) (s : sqlite.Store) (p : string * Z) : Prop :=
  marked s (snd p) (fst p) = false /\ subscribed e s (fst p).

(** Steps that only read the subscriptions and the ledger and post
    nothing. *)
Definition quiet (w w' : World) : Prop :=
  sqlite.channels (db w') = sqlite.channels (db w)
  /\ sqlite.posted_news (db w') = sqlite.posted_news (db w)
  /\ sent w' = sent w.

Definition Quiet {A} (m : M A) : Prop := forall w, quiet w (snd (m w)).

(** Steps of the engine: the subscriptions stay, the ledger keeps its
    rows, and every post that is made was allowed when the step began. *)
Definition advances (e : string) (w w' : World) : Prop :=
  sqlite.channels (db w') = sqlite.channels (db w)
  /\ (forall A C, marked (db w) A C = true -> marked (db w') A C = true)
  /\ exists new, sent w' = (sent w ++ new)%list /\ Forall (mayPost e (db w)) new.

Definition Advances {A} (e : string) (m : M A) : Prop :=
  forall w, advances e w (snd (m w)).

(** The ops of a run are ticks of the poller. *)
Definition isTick (op : Op) : bool :=
  match op with Tick _ => true | CatchUp _ _ => false end.

(** Steps that may add rows to the ledger and do nothing else the
    delivery properties look at. *)
Definition marking (w w' : World) : Prop :=
  sqlite.channels (db w') = sqlite.channels (db w)
  /\ (forall A C, marked (db w) A C = true -> marked (db w') A C = true)
  /\ sent w' = sent w.


(** The article id is one of the ids of the list. *)
Definition hasID (A : Z) (newsItems : list types.NewsItem) : bool :=
  existsb (fun item => (types.ID item =? A)%Z) newsItems.

(** Sample data: the store after CH1 has registered with 101, 102 and 103
    in the cache, and a configuration for the PROD environment. *)
Definition backfilledWorld : World :=
  snd (database.AddChannel quietEnv "CH1" cachedWorld).

Definition prodConfig : types.Config :=
  {| types.DiscordToken := "token"; types.PollPeriod := 600; types.PollCount := 20;
     types.FreshSeconds := 600; types.MsgCount := 10;
     types.ChannelsPath := "/data/channels.txt";
     types.DatabasePath := "./data/stobot.db"; types.Environment := "PROD" |}.

(** The articles of [threeArticles] as FetchNews decodes them. *)
Definition fetchedArticles : list types.NewsItem :=
  match types.decodeNews sampleLib threeArticles with
  | Ok newsItems => newsItems
  | Err _ => []
  end.

(** The byte does not occur in the string. *)
Fixpoint without_byte (sep : ascii) (s : string) : bool :=
  match s with
  | EmptyString => true
  | String c r => negb (Ascii.eqb c sep) && without_byte sep r
  end.

(** The names of a list can be stored in one column, separated by commas,
    and read back. *)
Definition storable (names : list string) : Prop :=
  names <> [] /\ Forall (fun p => without_byte "," p = true) names.

(** The second store is the first one with another ledger. *)
Definition onlyLedger (s s' : sqlite.Store) : Prop :=
  s' = sqlite.set_posted_news (sqlite.posted_news s') s.

(** The second store is the first one with another cache. *)
Definition onlyCache (s s' : sqlite.Store) : Prop :=
  s' = sqlite.set_news_cache (fun _ => sqlite.news_cache s') s.

(** The subscriptions of a channel other than [C], the ledger rows of
    other channels and the cache are the same in both stores. *)
Definition sameElsewhere (C : string) (s s' : sqlite.Store) : Prop :=
  (forall C', C' <> C -> sqlite.find_channel C' s' = sqlite.find_channel C' s)
  /\ (forall A C', C' <> C -> marked s' A C' = marked s A C')
  /\ sqlite.news_cache s' = sqlite.news_cache s.

(** CH1 and CH2 are registered, CH2 for DEV; each has one delivery. *)
Definition twoChannelsWorld : World :=
  with_db
    (sqlite.set_posted_news
       (Some {| sqlite.schema_sql := sqlite.posted_news_sql;
                sqlite.has_posted_at := true;
                sqlite.posted_rows :=
                  [ {| sqlite.news_id := 101; sqlite.channel_id := "CH1";
                       sqlite.posted_at := Some 900%Z |};
                    {| sqlite.news_id := 101; sqlite.channel_id := "CH2";
                       sqlite.posted_at := Some 950%Z |} ] |})
       (sqlite.set_channels
          (fun _ => [ {| sqlite.ch_id := "CH1"; sqlite.ch_platforms := "pc";
                         sqlite.ch_environment := "PROD";
                         sqlite.ch_created_at := 500; sqlite.ch_updated_at := 600 |};
                      {| sqlite.ch_id := "CH2"; sqlite.ch_platforms := "xbox,ps";
                         sqlite.ch_environment := "DEV";
                         sqlite.ch_created_at := 700; sqlite.ch_updated_at := 700 |} ])
          (db cachedWorld)))
    cachedWorld.

(** Every driver call fails. *)
Definition brokenEnv : Env :=
  {| lib := sampleLib;
     db_fault := fun _ => true;
     http_Get := fun _ _ => Ok emptyPage;
     ChannelMessages := fun _ _ _ => Ok [];
     ChannelMessageSendEmbed := fun _ _ _ => None;
     self_id := "bot" |}.

(** Options for single statements without retries. *)
Definition strictSingle : types.DatabaseOptions :=
  {| types.UseBatch := false; types.IgnoreErrors := false;
     types.RetryCount := 0; types.LogProgress := false |}.

(** A store as init leaves it: the three tables are there, with the
    columns that the migration adds, and the ledger does not have the legacy
    primary key. *)
Definition initialised (s : sqlite.Store) : bool :=
  sqlite.has_column (sqlite.channels_columns s) "environment"
  && match sqlite.posted_news s with
     | Some t => negb (sqlite.pk_news_id t)
     | None => false
     end
  && sqlite.has_column (sqlite.news_cache_columns s) "tags"
  && sqlite.has_column (sqlite.news_cache_columns s) "updated_at"
  && sqlite.has_column (sqlite.news_cache_columns s) "content".


(** A step whose effect on the store is within the relation [R]. *)
Definition Respects (R : sqlite.Store -> sqlite.Store -> Prop) {A} (m : M A) : Prop :=
  forall w, R (db w) (db (snd (m w))).


(** The article has a row in the cache; the channel has a row in the
    subscription table. *)
Definition cached (s : sqlite.Store) (A : Z) : bool :=
  existsb (fun r => (sqlite.c_id r =? A)%Z) (sqlite.news_cache s).

Definition registered (s : sqlite.Store) (C : string) : bool :=
  existsb (fun r => String.eqb (sqlite.ch_id r) C) (sqlite.channels s).

(** What the cache keeps of an article: everything but the images. *)
Definition stored (item : types.NewsItem) : types.NewsItem :=
  {| types.ID := types.ID item; types.Title := types.Title item;
     types.Summary := types.Summary item; types.Content := types.Content item;
     types.Tags := types.Tags item; types.Platforms := types.Platforms item;
     types.Updated := types.Updated item;
     types.ThumbnailURL := types.ThumbnailURL item;
     types.Images := None |}.

(** A list of names that comes back from a column of the cache: the empty
    list, or names without commas that are not just one empty name. *)
Definition readsBack (names : list string) : Prop :=
  names = [] \/ (storable names /\ names <> [""]).

(** The cache rows after the articles of a list have been written. *)
Definition writeAll (newsItems : list types.NewsItem) (fetched : Z)
           (rows : list sqlite.CacheRow) : list sqlite.CacheRow :=
  fold_left (fun l item =>
               (sqlite.without_article (types.ID item) l
                ++ [database.cacheRow item fetched])%list)
            newsItems rows.

(** The posts made between two worlds all satisfy [P]. *)
Definition appends (P : string * Z -> Prop) (w w' : World) : Prop :=
  exists new, sent w' = (sent w ++ new)%list /\ Forall P new.

(** What the upstream serves: every article of every response that
    decodes satisfies [Q]. *)
Definition serves (env : Env) (Q : types.NewsItem -> Prop) : Prop :=
  forall n req resp newsItems,
    http_Get env n req = Ok resp ->
    news.decodeResponse (lib env) resp = Ok newsItems ->
    Forall Q newsItems.

(** The article [A] is older than the cut-off whenever it is among the
    articles at hand; a post is not of the article [A]. *)
Definition outdated (cutoff A : Z) (item : types.NewsItem) : Prop :=
  types.ID item = A -> (types.Updated item < cutoff)%Z.

Definition notOfArticle (A : Z) (p : string * Z) : Prop := snd p <> A.

(** An upstream that always answers with the article 103, dated
    63840873600; everything else works. *)
Definition oneArticleEnv : Env :=
  {| lib := sampleLib;
     db_fault := fun _ => false;
     http_Get := fun _ _ =>
       Ok {| StatusCode := 200; Body := Some [article 103 "Tholian Assembly Update"] |};
     ChannelMessages := fun _ _ _ => Ok [];
     ChannelMessageSendEmbed := fun _ _ _ => None;
     self_id := "bot" |}.

(** [t] occurs in [s]: some slice of [s] is [t]. *)
Definition occurs (s t : string) : Prop :=
  exists i, (i + String.length t <= String.length s)%nat
            /\ substring i (String.length t) s = t.

(** The second store is the first one with more channels: [added] comes
    after the rows there were, each of its rows is in PROD under a numeric
    channel id that was not registered, and no id comes twice. *)
Definition addsChannels (s s' : sqlite.Store) : Prop :=
  exists added,
    s' = sqlite.set_channels (fun l => (l ++ added)%list) s
    /\ NoDup (map sqlite.ch_id added)
    /\ Forall (fun r => sqlite.ch_environment r = "PROD"
                        /\ strconv.ParseUint (sqlite.ch_id r) <> None
                        /\ sqlite.ch_platforms r <> ""
                        /\ sqlite.find_channel (sqlite.ch_id r) s = None) added.



(** A channels file: a comment, two channels (the second one twice), a line
    that is not an entry and a channel without platforms. *)
Definition channelsFile : database.File :=
  {| database.lines :=
       [ "# channels";
         "channel:123456789|pc,xbox,ps";
         "  channel: 987654321 | PC , ps ,";
         "channel:987654321|xbox";
         "";
         "guild:5|pc";
         "channel:abc|pc";
         "channel:555|" ];
     database.scan_error := None |}.

Definition openChannelsFile (filePath : string) : result database.File :=
  if String.eqb filePath "channels.txt" then Ok channelsFile else Err ErrNoRows.

(** A channel in which the bot has announced the Tholian Assembly. *)
Definition tholianMessage : discordgo.Message :=
  {| discordgo.AuthorID := "bot"; discordgo.Content := "";
     discordgo.Embeds :=
       [ {| discordgo.Title := "tholian assembly update coming soon";
            discordgo.Description := ""; discordgo.URL := "";
            discordgo.Color := 0; discordgo.Timestamp := "";
            discordgo.Footer := None; discordgo.Fields := [];
            discordgo.Thumbnail := None |} ] |}.

Definition tholianEnv : Env :=
  {| lib := sampleLib;
     db_fault := fun _ => false;
     http_Get := fun _ _ => Ok {| StatusCode := 200; Body := Some [] |};
     ChannelMessages := fun _ _ _ => Ok [tholianMessage];
     ChannelMessageSendEmbed := fun _ _ _ => None;
     self_id := "bot" |}.

Definition titledItem (title : string) : types.NewsItem :=
  {| types.ID := 200; types.Title := title; types.Summary := "";
     types.Content := ""; types.Tags := []; types.Platforms := ["pc"];
     types.Updated := 63840873600%Z; types.ThumbnailURL := "";
     types.Images := None |}.

(** An article for one platform. *)
Definition platformItem (id : Z) (platform : string) : types.NewsItem :=
  {| types.ID := id; types.Title := "Weekend event"; types.Summary := "";
     types.Content := ""; types.Tags := []; types.Platforms := [platform];
     types.Updated := 63840873600%Z; types.ThumbnailURL := "";
     types.Images := None |}.
(** * Properties *)

Unset Implicit Arguments.

(** ** The duplicate check *)

(** The library of the examples lowers part by part and word by word. *)

Lemma isSpace_lower_byte c : strings.isSpace (strings.lower_byte c) = strings.isSpace c.
Proof. destruct c as [[] [] [] [] [] [] [] []]; reflexivity. Qed.

Lemma ToLower_app s t :
  strings.ToLowerASCII (s ++ t) = strings.ToLowerASCII s ++ strings.ToLowerASCII t.
Proof. induction s as [|c s IH]; simpl; [reflexivity | now rewrite IH]. Qed.

Lemma ToLower_empty s : String.eqb (strings.ToLowerASCII s) "" = String.eqb s "".
Proof. destruct s; reflexivity. Qed.

Lemma fields_from_ToLower s w :
  strings.fields_from (strings.ToLowerASCII s) (strings.ToLowerASCII w)
  = map strings.ToLowerASCII (strings.fields_from s w).
Proof.
  revert w; induction s as [|c s IH]; intros w; simpl.
  - rewrite ToLower_empty. destruct (String.eqb w ""); reflexivity.
  - rewrite isSpace_lower_byte, ToLower_empty.
    destruct (strings.isSpace c).
    + destruct (String.eqb w ""); simpl; [apply (IH "") | f_equal; apply (IH "")].
    + rewrite <- IH, ToLower_app. reflexivity.
Qed.

Lemma sampleLib_lowersParts : lowersParts sampleLib.
Proof. intros x y. cbn [strings_ToLower sampleLib]. rewrite !ToLower_app. reflexivity. Qed.

Lemma sampleLib_lowersWords : lowersWords sampleLib.
Proof. intros s. apply (fields_from_ToLower s ""). Qed.

Lemma countMatches_matching text toks acc :
  news.countMatches text toks acc = (acc + spec.matching text toks)%Z.
Proof.
  revert acc; induction toks as [|t toks IH]; intros acc; simpl.
  - unfold spec.matching; simpl; lia.
  - rewrite IH. unfold spec.matching; simpl.
    destruct ((3 <? len t)%Z && strings.Contains text t); simpl; lia.
Qed.

Lemma append_assoc (a b c : string) : (a ++ b) ++ c = a ++ b ++ c.
Proof. induction a; simpl; [reflexivity | now f_equal]. Qed.

Lemma append_empty_r (a : string) : a ++ "" = a.
Proof. induction a; simpl; [reflexivity | now f_equal]. Qed.

Section DuplicateCheck.

Variable lib : Lib.
Hypothesis parts : lowersParts lib.
Hypothesis words : lowersWords lib.

Lemma embedsText_messageText x embeds :
  news.embedsText lib (strings_ToLower lib x) embeds
  = strings_ToLower lib (x ++ String.concat "" (map spec.embedParts embeds)).
Proof.
  revert x; induction embeds as [|e embeds IH]; intros x.
  - simpl. now rewrite append_empty_r.
  - cbn [map news.embedsText].
    assert (Hc : forall l, String.concat "" (spec.embedParts e :: l)
                           = spec.embedParts e ++ String.concat "" l).
    { intros [|y l]; simpl; [now rewrite append_empty_r | reflexivity]. }
    rewrite Hc, <- (append_assoc x), <- IH. f_equal.
    unfold spec.embedParts.
    destruct (String.eqb (discordgo.Title e) ""),
             (String.eqb (discordgo.Description e) ""); cbn [negb].
    + cbn [append]. rewrite append_empty_r. reflexivity.
    + change ("" ++ " " ++ discordgo.Description e)
        with (" " ++ discordgo.Description e).
      rewrite (parts x). reflexivity.
    + rewrite (append_empty_r (" " ++ discordgo.Title e)).
      rewrite (parts x). reflexivity.
    + replace (x ++ (" " ++ discordgo.Title e) ++ " " ++ discordgo.Description e)
        with ((x ++ " " ++ discordgo.Title e) ++ " " ++ discordgo.Description e)
        by (rewrite !append_assoc; reflexivity).
      rewrite (parts (x ++ " " ++ discordgo.Title e)), (parts x). reflexivity.
Qed.

Lemma scanMessages_exists selfID toks messages :
  news.scanMessages lib selfID toks messages
  = existsb (fun m =>
               let k := spec.matching (spec.messageText lib m) toks in
               (Z.of_nat (List.length toks) / 2 <? k)%Z && (2 <=? k)%Z)
            (filter (fun m => String.eqb (discordgo.AuthorID m) selfID) messages).
Proof.
  induction messages as [|m messages IH]; simpl; [reflexivity|].
  destruct (String.eqb (discordgo.AuthorID m) selfID); simpl; [|exact IH].
  rewrite embedsText_messageText, countMatches_matching, Z.add_0_l, IH.
  fold (spec.messageText lib m).
  rewrite Z.quot_div_nonneg by lia.
  destruct ((_ <? _)%Z && _); reflexivity.
Qed.

End DuplicateCheck.

(** C5.  The duplicate check of the catch-up path returns what the
    specification describes: false for a title without tokens, otherwise
    true exactly when some inspected message of the bot contains more than
    half of the title tokens, and at least two, counting tokens longer than
    three bytes.  The inspected messages are those the chat service
    returned (none when the read fails).  Lowering and splitting are the
    library's; the code lowers the title before it splits it and lowers
    the parts of a message before it joins them, which comes to the same
    for a library that lowers part by part and word by word, as Go's
    does. *)
Theorem C5_duplicate_check env cfg channelID newsItem w :
  lowersParts (lib env) ->
  lowersWords (lib env) ->
  fst (news.IsDuplicateInRecentMessages env cfg channelID newsItem w)
  = spec.isDuplicate (lib env) (self_id env) (types.Title newsItem)
      (match ChannelMessages env (chat_calls w) channelID (types.MsgCount cfg) with
       | Ok messages => messages
       | Err _ => []
       end).
Proof.
  intros Hparts Hwords.
  unfold news.IsDuplicateInRecentMessages, news.recentMessages, bind, ret; simpl.
  unfold spec.isDuplicate, spec.tokens.
  rewrite <- (Hwords (types.Title newsItem)).
  destruct (ChannelMessages env (chat_calls w) channelID (types.MsgCount cfg))
    as [messages|e]; simpl.
  - destruct (strings_Fields (lib env) (strings_ToLower (lib env) (types.Title newsItem)))
      as [|t toks] eqn:E; simpl; [reflexivity|].
    replace (Z.pos (Pos.of_succ_nat (List.length toks)) =? 0)%Z with false
      by (symmetry; apply Z.eqb_neq; lia).
    simpl. rewrite (scanMessages_exists (lib env) Hparts). reflexivity.
  - destruct (strings_Fields (lib env) _); reflexivity.
Qed.

(** ** The embed of a post *)

Lemma substring_length n s :
  (n <= String.length s)%nat -> String.length (substring 0 n s) = n.
Proof.
  revert s; induction n as [|n IH]; intros [|c s] H; simpl in *;
    try reflexivity; try lia.
  rewrite IH; lia.
Qed.

Lemma append_length (s t : string) :
  String.length (s ++ t) = (String.length s + String.length t)%nat.
Proof. induction s; simpl; [reflexivity | now rewrite IHs]. Qed.

(** What formatNewsForDiscord does to the summary: kept when it fits, cut
    to 2045 bytes plus an ellipsis otherwise. *)
Lemma formatNewsForDiscord_description lib item :
  let d := discordgo.Description (news.formatNewsForDiscord lib item) in
  ((len (types.Summary item) <= 2048)%Z -> d = types.Summary item)
  /\ ((2048 < len (types.Summary item))%Z ->
      d = slice_to (types.Summary item) 2045 ++ "..." /\ len d = 2048%Z).
Proof.
  unfold news.formatNewsForDiscord; cbn [discordgo.Description].
  split; intros H.
  - destruct (2048 <? len (types.Summary item))%Z eqn:E; [apply Z.ltb_lt in E; lia|].
    reflexivity.
  - destruct (2048 <? len (types.Summary item))%Z eqn:E; [|apply Z.ltb_ge in E; lia].
    destruct (len (types.Summary item) <=? 3)%Z eqn:E3; [apply Z.leb_le in E3; lia|].
    split; [reflexivity|].
    unfold len in *. rewrite append_length. unfold slice_to.
    rewrite substring_length by lia. simpl. lia.
Qed.

(** The parts of the embed that do not depend on lengths. *)
Lemma formatNewsForDiscord_fields lib item :
  let e := news.formatNewsForDiscord lib item in
  discordgo.URL e = "https://playstartrekonline.com/en/news/article/"
                      ++ strconv.Itoa (types.ID item)
  /\ discordgo.Color e = 65280%Z
  /\ discordgo.Timestamp e = time_Format lib (types.Updated item) types.RFC3339
  /\ discordgo.Footer e
     = Some ("Platforms: " ++ strings.Join (types.Platforms item) ", ")
  /\ map discordgo.Name (discordgo.Fields e) = ["Tags"; "Platforms"]
  /\ map discordgo.Inline (discordgo.Fields e) = [true; true]
  /\ (discordgo.Thumbnail e = None <-> types.ThumbnailURL item = "")
  /\ (forall u, discordgo.Thumbnail e = Some u -> u = types.ThumbnailURL item).
Proof.
  unfold news.formatNewsForDiscord; simpl.
  repeat split; try reflexivity.
  - destruct (String.eqb_spec (types.ThumbnailURL item) ""); simpl; congruence.
  - intros ->. reflexivity.
  - destruct (String.eqb (types.ThumbnailURL item) ""); simpl; congruence.
Qed.

(** C8.  The embed built for posting takes the article title as it is: a
    title of 257 bytes stays 257 bytes long, beyond the limit of 256, while
    the embed of the slash commands cuts the same title to 256. *)
Theorem C8_title_not_truncated lib :
  len (discordgo.Title (news.formatNewsForDiscord lib longTitleItem)) = 257%Z
  /\ len (discordgo.Title (discord.formatNewsEmbed lib longTitleItem)) = 256%Z.
Proof. split; vm_compute; reflexivity. Qed.

(** ** Decoding upstream articles *)

Lemma sameField_eq g f : types.sameField g f = true <-> g = f.
Proof. destruct g, f; simpl; split; intros H; try reflexivity; discriminate. Qed.

Lemma decodeAux_snoc n members m :
  types.decodeAux n (members ++ [m])
  = types.decodeMember (types.decodeAux n members) m.
Proof. unfold types.decodeAux. rewrite fold_left_app. reflexivity. Qed.

Lemma named_snoc f members m :
  named f (members ++ [m])
  = (named f members
     ++ match types.fieldOf (fst m) with
        | Some g => if types.sameField g f then [snd m] else []
        | None => []
        end)%list.
Proof.
  unfold named. rewrite filter_app, map_app. f_equal. simpl.
  destruct (types.fieldOf (fst m)) as [g|]; [|reflexivity].
  destruct (types.sameField g f); reflexivity.
Qed.

Lemma given_snoc f members m :
  given f (members ++ [m])
  = match types.fieldOf (fst m) with
    | Some g => if types.sameField g f then Some (snd m) else given f members
    | None => given f members
    end.
Proof.
  unfold given. rewrite named_snoc, map_app.
  destruct (types.fieldOf (fst m)) as [g|]; [|rewrite app_nil_r; reflexivity].
  destruct (types.sameField g f); [|rewrite app_nil_r; reflexivity].
  simpl. apply last_last.
Qed.

Lemma intoStrings_ok elems :
  forallb (fun e => match e with
                    | types.JString _ | types.JNull => true
                    | _ => false
                    end) elems = true ->
  snd (types.intoStrings elems) = None.
Proof.
  induction elems as [|e elems IH]; simpl; [reflexivity|].
  intros H. apply andb_true_iff in H as [He H]. specialize (IH H).
  destruct (types.intoStrings elems) as [l err]. simpl in IH. subst err.
  destruct e; try discriminate; reflexivity.
Qed.

(** What one member does to the parts of [aux] that the method reads. *)
Lemma decodeMember_parts a m :
  types.ID (types.auxAlias (types.decodeMember a m)) = types.ID (types.auxAlias a)
  /\ types.Updated (types.auxAlias (types.decodeMember a m))
     = types.Updated (types.auxAlias a)
  /\ types.auxID (types.decodeMember a m)
     = match types.fieldOf (fst m) with
       | Some types.FieldID =>
           match snd m with types.JNull => None | v => Some v end
       | _ => types.auxID a
       end
  /\ types.auxUpdated (types.decodeMember a m)
     = match types.fieldOf (fst m) with
       | Some types.FieldUpdated =>
           match snd m with types.JString s => s | _ => types.auxUpdated a end
       | _ => types.auxUpdated a
       end
  /\ (types.auxError a = None ->
      match types.fieldOf (fst m) with
      | Some f => takes f (snd m) = true
      | None => True
      end ->
      types.auxError (types.decodeMember a m) = None).
Proof.
  unfold types.decodeMember, types.stringField, types.stringsField.
  destruct (types.fieldOf (fst m)) as [[]|]; simpl;
    try (destruct (snd m) eqn:Ev; simpl; repeat split; auto;
         try (intros; discriminate);
         try (intros He Ht; rewrite He; reflexivity); fail).
  - destruct (snd m) eqn:Ev; simpl; repeat split; auto;
      try (intros; discriminate).
    all: try (destruct (types.intoStrings elems) as [l [e|]]; reflexivity).
    intros He Ht. pose proof (intoStrings_ok elems Ht) as Hs.
    destruct (types.intoStrings elems) as [l err]. simpl in Hs. subst err.
    exact He.
  - destruct (snd m) eqn:Ev; simpl; repeat split; auto;
      try (intros; discriminate).
    all: try (destruct (types.intoStrings elems) as [l [e|]]; reflexivity).
    intros He Ht. pose proof (intoStrings_ok elems Ht) as Hs.
    destruct (types.intoStrings elems) as [l err]. simpl in Hs. subst err.
    exact He.
Qed.

Lemma decodeAux_alias n members :
  types.ID (types.auxAlias (types.decodeAux n members)) = types.ID n
  /\ types.Updated (types.auxAlias (types.decodeAux n members)) = types.Updated n.
Proof.
  induction members as [|m members IH] using rev_ind; [split; reflexivity|].
  rewrite decodeAux_snoc.
  destruct (decodeMember_parts (types.decodeAux n members) m) as (H1 & H2 & _).
  rewrite H1, H2. exact IH.
Qed.

(** [aux.ID] is the last value the object gives for id, nil when that
    is null or when there is none. *)
Lemma decodeAux_ID n members :
  types.auxID (types.decodeAux n members)
  = match given types.FieldID members with
    | Some types.JNull => None
    | o => o
    end.
Proof.
  induction members as [|m members IH] using rev_ind; [reflexivity|].
  rewrite decodeAux_snoc, given_snoc.
  destruct (decodeMember_parts (types.decodeAux n members) m) as (_ & _ & H & _).
  rewrite H. destruct (types.fieldOf (fst m)) as [[]|]; simpl; try exact IH.
  destruct (snd m); reflexivity.
Qed.

(** [aux.Updated] is the last string the object gives for updated. *)
Lemma decodeAux_Updated n members v :
  given types.FieldUpdated members = Some (types.JString v) ->
  types.auxUpdated (types.decodeAux n members) = v.
Proof.
  induction members as [|m members IH] using rev_ind; [discriminate|].
  rewrite decodeAux_snoc, given_snoc.
  destruct (decodeMember_parts (types.decodeAux n members) m) as (_ & _ & _ & H & _).
  rewrite H. destruct (types.fieldOf (fst m)) as [[]|]; simpl; try exact IH.
  intros Hv. injection Hv as ->. reflexivity.
Qed.

Lemma decodeAux_no_Updated n members :
  (forall v, In (types.JString v) (named types.FieldUpdated members) -> v = "") ->
  types.auxUpdated (types.decodeAux n members) = "".
Proof.
  induction members as [|m members IH] using rev_ind; [reflexivity|].
  intros Hall. rewrite decodeAux_snoc.
  destruct (decodeMember_parts (types.decodeAux n members) m) as (_ & _ & _ & H & _).
  rewrite H.
  assert (Hrest : types.auxUpdated (types.decodeAux n members) = "").
  { apply IH. intros v Hv. apply Hall. rewrite named_snoc.
    apply in_or_app. left. exact Hv. }
  destruct (types.fieldOf (fst m)) as [[]|] eqn:Ef; try exact Hrest.
  destruct (snd m) eqn:Ev; try exact Hrest.
  apply Hall. rewrite named_snoc, Ef, Ev. simpl.
  apply in_or_app. right. left. reflexivity.
Qed.

Lemma decodeAux_wellTyped n members :
  wellTyped members = true -> types.auxError (types.decodeAux n members) = None.
Proof.
  induction members as [|m members IH] using rev_ind; [reflexivity|].
  unfold wellTyped. rewrite forallb_app. intros H.
  apply andb_true_iff in H as [Hm H]. simpl in H. rewrite andb_true_r in H.
  rewrite decodeAux_snoc.
  destruct (decodeMember_parts (types.decodeAux n members) m) as (_ & _ & _ & _ & He).
  apply He; [apply IH; exact Hm|].
  destruct (types.fieldOf (fst m)); [exact H | exact I].
Qed.

(** Dropping the fraction of a number that fits is the conversion. *)
Lemma int64_of_float64_truncated f z :
  truncated f z -> strconv.inInt64 z = true -> types.int64_of_float64 f = z.
Proof.
  unfold truncated, types.int64_of_float64.
  destruct (0 <=? types.expo f)%Z eqn:Ee; intros [Habs Hsign] Hin.
  - assert (E : (types.mant f * 2 ^ types.expo f = z)%Z) by nia.
    rewrite E, Hin. reflexivity.
  - apply Z.leb_gt in Ee.
    assert (Hden : (0 < 2 ^ (- types.expo f))%Z) by (apply Z.pow_pos_nonneg; lia).
    set (den := (2 ^ (- types.expo f))%Z) in *.
    assert (Hq : (Z.abs (types.mant f) / den = Z.abs z)%Z).
    { symmetry. apply (Z.div_unique_pos _ _ _ (Z.abs (types.mant f) - den * Z.abs z)%Z);
        nia. }
    assert (E : Z.quot (types.mant f) den = z).
    { rewrite Z.quot_div by lia. rewrite (Z.abs_eq den) by lia. rewrite Hq.
      rewrite (Z.sgn_pos den) by lia.
      destruct (Z.sgn_spec (types.mant f)) as [[Hm ->] | [[Hm ->] | [Hm ->]]]; nia. }
    rewrite E, Hin. reflexivity.
Qed.

(** The loop over the formats returns the time of the first format that
    parses the value, and the previous time when none does. *)
Lemma parseUpdated_first lib earlier format later value t old :
  Forall (fun e => time_Parse lib e value = None) earlier ->
  time_Parse lib format value = Some t ->
  types.parseUpdated lib (earlier ++ format :: later) value old = t.
Proof.
  induction 1 as [|e earlier He _ IH]; simpl; intros Ht.
  - rewrite Ht. reflexivity.
  - rewrite He. apply IH. exact Ht.
Qed.

Lemma parseUpdated_none lib formats value old :
  Forall (fun f => time_Parse lib f value = None) formats ->
  types.parseUpdated lib formats value old = old.
Proof.
  induction 1 as [|f formats Hf _ IH]; simpl; [reflexivity|].
  rewrite Hf. exact IH.
Qed.

Lemma decodeNews_length lib elems items :
  types.decodeNews lib elems = Ok items -> List.length items = List.length elems.
Proof.
  revert items; induction elems as [|e elems IH]; intros items; simpl.
  - intros H; inversion H; reflexivity.
  - destruct (types.UnmarshalJSON lib types.zeroNewsItem e); [|discriminate].
    destruct (types.decodeNews lib elems); [|discriminate].
    intros H; inversion H; simpl. now rewrite (IH _ eq_refl).
Qed.

(** C9, as the code has it.  For an object whose members have the types
    of the fields they name (a key names a field in any case of letters),
    the article is decoded and kept, whatever its id and its date are.  The
    id: a numeric string becomes its number, a number becomes the integer
    it is without its fraction, anything else leaves the id 0.  The date:
    the first of the four formats that parses the string gives the time;
    when none parses it, or when the object gives no string but the empty
    one, the time stays the zero time.  A response that decodes keeps one
    article for each element of its array. *)
Theorem C9_flexible_decoding lib members :
  wellTyped members = true ->
  (exists item,
      types.UnmarshalJSON lib types.zeroNewsItem (types.JObject members) = Ok item
      /\ (forall v z, given types.FieldID members = Some (types.JString v) ->
                      strconv.ParseInt v = Some z -> types.ID item = z)
      /\ (forall f z, given types.FieldID members = Some (types.JNumber f) ->
                      truncated f z -> strconv.inInt64 z = true -> types.ID item = z)
      /\ ((forall v z, given types.FieldID members = Some (types.JString v) ->
                       strconv.ParseInt v <> Some z) ->
          (forall f, given types.FieldID members <> Some (types.JNumber f)) ->
          types.ID item = 0%Z)
      /\ (forall v earlier format later t,
             given types.FieldUpdated members = Some (types.JString v) ->
             v <> "" ->
             types.updatedFormats = (earlier ++ format :: later)%list ->
             Forall (fun e => time_Parse lib e v = None) earlier ->
             time_Parse lib format v = Some t ->
             types.Updated item = t)
      /\ (forall v,
             given types.FieldUpdated members = Some (types.JString v) ->
             Forall (fun f => time_Parse lib f v = None) types.updatedFormats ->
             types.Updated item = 0%Z)
      /\ ((forall v, In (types.JString v) (named types.FieldUpdated members) ->
                     v = "") ->
          types.Updated item = 0%Z))
  /\ (forall elems items,
         types.decodeNews lib elems = Ok items ->
         List.length items = List.length elems).
Proof.
  intros Hty. split; [|apply decodeNews_length].
  unfold types.UnmarshalJSON. cbv zeta.
  rewrite (decodeAux_wellTyped types.zeroNewsItem members Hty).
  eexists; split; [reflexivity|]. cbn [types.ID types.Updated].
  destruct (decodeAux_alias types.zeroNewsItem members) as [HID HUpd].
  rewrite HID, HUpd, decodeAux_ID. cbn [types.ID types.Updated types.zeroNewsItem].
  repeat split.
  - intros v z -> ->. reflexivity.
  - intros f z -> Htr Hin. apply int64_of_float64_truncated; assumption.
  - intros Hs Hn.
    destruct (given types.FieldID members) as [[]|]; try reflexivity.
    + exfalso; eapply Hn; reflexivity.
    + destruct (strconv.ParseInt s) eqn:E; [|reflexivity].
      exfalso; eapply Hs; eauto.
  - intros v earlier format later t Hv Hne Hfmt Hearlier Ht.
    rewrite (decodeAux_Updated _ _ _ Hv).
    destruct (String.eqb_spec v ""); [contradiction|]. cbn [negb].
    rewrite Hfmt. apply parseUpdated_first; assumption.
  - intros v Hv Hnone.
    rewrite (decodeAux_Updated _ _ _ Hv).
    destruct (negb (String.eqb v "")); [|reflexivity].
    apply parseUpdated_none. exact Hnone.
  - intros Hall. rewrite (decodeAux_no_Updated _ _ Hall). reflexivity.
Qed.

(** ** Pagination *)

Lemma fetchPages_unfold env tag count itemLimit allNews offset w :
  news.fetchPages env tag count itemLimit allNews offset w
  = match news.fetchPage env tag count itemLimit allNews offset w with
    | (news.Return r, w') => (r, w')
    | (news.Continue allNews' offset', w') =>
        news.fetchPages env tag count itemLimit allNews' offset' w'
    end.
Proof.
  rewrite news.fetchPages_equation_1.
  generalize (inspect (news.fetchPage env tag count itemLimit allNews offset w)).
  intros [[[r|a o] w1] Hp];
    [rewrite news.fetchPages_clause_1_equation_1
    | rewrite news.fetchPages_clause_1_equation_2];
    rewrite Hp; reflexivity.
Qed.

Lemma offsetOf_buildNewsURL tag limit offset platform fields :
  (0 <= offset)%Z ->
  offsetOf (news.buildNewsURL tag limit offset platform fields) = offset.
Proof.
  intros H. unfold offsetOf, news.buildNewsURL; simpl.
  destruct (0 <? offset)%Z eqn:E; [reflexivity|].
  apply Z.ltb_ge in E. lia.
Qed.

Lemma decodeResponse_emptyPage lib : news.decodeResponse lib emptyPage = Ok [].
Proof. reflexivity. Qed.

(** One turn of the loop.  It returns without a request when enough is
    accumulated; otherwise it sends one request, at the offset reached, and
    goes on only if the page brought at least one article. *)
Lemma fetchPage_turn env tag count itemLimit allNews w :
  let offset := Z.of_nat (List.length allNews) in
  match news.fetchPage env tag count itemLimit allNews offset w with
  | (news.Return r, w') =>
      (w' = w /\ (count <= offset)%Z /\ r = Ok allNews)
      \/ ((offset < count)%Z
          /\ exists url, requests w' = (requests w ++ [url])%list
                         /\ offsetOf url = offset
                         /\ (http_Get env (http_calls w) url = Ok emptyPage ->
                             r = Ok allNews))
  | (news.Continue allNews' offset', w') =>
      (offset < count)%Z
      /\ (List.length allNews < List.length allNews')%nat
      /\ offset' = Z.of_nat (List.length allNews')
      /\ exists url, requests w' = (requests w ++ [url])%list
                     /\ offsetOf url = offset
                     /\ http_Get env (http_calls w) url <> Ok emptyPage
  end.
Proof.
  intros offset. unfold news.fetchPage, bind, ret, news.Get.
  destruct (Z.of_nat (List.length allNews) <? count)%Z eqn:Hlt; simpl.
  2:{ apply Z.ltb_ge in Hlt. left; auto. }
  apply Z.ltb_lt in Hlt.
  set (url := news.buildNewsURL _ _ _ _ _).
  assert (Hoff : offsetOf url = offset)
    by (apply offsetOf_buildNewsURL; unfold offset; lia).
  destruct (http_Get env (http_calls w) url) as [resp|e] eqn:Hget; simpl.
  2:{ right; split; [assumption|]. exists url. repeat split; auto.
      intros He; rewrite Hget in He; discriminate. }
  destruct (negb (StatusCode resp =? 200)%Z) eqn:Hst; simpl.
  { right; split; [assumption|]. exists url. repeat split; auto.
    intros He. rewrite Hget in He. inversion He; subst. discriminate. }
  destruct (news.decodeResponse (lib env) resp) as [items|e] eqn:Hdec; simpl.
  2:{ right; split; [assumption|]. exists url. repeat split; auto.
      intros He. rewrite Hget in He. inversion He; subst. discriminate. }
  destruct (Z.of_nat (List.length (news.cleanNewsItemContent _ _)) =? 0)%Z eqn:Hz;
    simpl.
  - right; split; [assumption|]. exists url. repeat split; auto.
    intros He. rewrite Hget in He. inversion He; subst.
    rewrite decodeResponse_emptyPage in Hdec.
    inversion Hdec; subst. simpl. now rewrite app_nil_r.
  - apply Z.eqb_neq in Hz. repeat split; auto.
    + rewrite length_app. lia.
    + unfold offset. rewrite length_app. lia.
    + exists url. repeat split; auto.
      intros He. rewrite Hget in He. inversion He; subst.
      rewrite decodeResponse_emptyPage in Hdec. inversion Hdec; subst.
      simpl in Hz. lia.
Qed.

(** The loop from any state it can be in: [reqs] are the requests it
    sends. *)
Lemma fetchPages_requests env tag count itemLimit :
  forall n allNews w,
    (Z.to_nat (count - Z.of_nat (List.length allNews)) <= n)%nat ->
    let out := news.fetchPages env tag count itemLimit allNews
                 (Z.of_nat (List.length allNews)) w in
    exists reqs,
      requests (snd out) = (requests w ++ reqs)%list
      /\ (List.length reqs <= Z.to_nat (count - Z.of_nat (List.length allNews)))%nat
      /\ Forall (fun r => (offsetOf r < count)%Z) reqs
      /\ (forall j url,
             nth_error reqs j = Some url ->
             http_Get env (http_calls w + j) url = Ok emptyPage ->
             List.length reqs = S j /\ is_ok (fst out) = true).
Proof.
  induction n as [|n IH]; intros allNews w Hn; simpl;
    rewrite fetchPages_unfold;
    pose proof (fetchPage_turn env tag count itemLimit allNews w) as Hturn;
    simpl in Hturn;
    destruct (news.fetchPage env tag count itemLimit allNews
                (Z.of_nat (List.length allNews)) w) as [[r|allNews' offset'] w'].
  - destruct Hturn as [(-> & Hc & ->) | (Hlt & _)]; [|lia].
    exists []. rewrite app_nil_r. repeat split; simpl; auto; try lia;
      destruct j; discriminate.
  - destruct Hturn as (Hlt & _). lia.
  - destruct Hturn as [(-> & Hc & ->) | (Hlt & url & Hreq & Hoff & Hempty)].
    + exists []. rewrite app_nil_r. repeat split; simpl; auto; try lia;
        destruct j; discriminate.
    + exists [url]. repeat split; simpl; auto; try lia.
      * constructor; [lia | constructor].
      * destruct j as [|[|j]]; simpl in H; try discriminate. reflexivity.
      * destruct j as [|[|j]]; simpl in H; try discriminate.
        inversion H; subst. rewrite Nat.add_0_r in H0. rewrite (Hempty H0).
        reflexivity.
  - destruct Hturn as (Hlt & Hlen & -> & url & Hreq & Hoff & Hnot).
    destruct (IH allNews' w') as (reqs & Hreqs & Hbound & Hall & Hstop); [lia|].
    assert (Hshift : forall j, (http_calls w' + j = http_calls w + S j)%nat).
    { intros j. unfold http_calls. rewrite Hreq, length_app. simpl. lia. }
    exists (url :: reqs). repeat split; simpl.
    + rewrite Hreqs, Hreq, <- app_assoc. reflexivity.
    + lia.
    + constructor; [lia | assumption].
    + destruct j as [|j]; simpl in H.
      * inversion H; subst. rewrite Nat.add_0_r in H0. contradiction.
      * f_equal. apply (Hstop j url0 H). rewrite Hshift. exact H0.
    + destruct j as [|j]; simpl in H.
      * inversion H; subst. rewrite Nat.add_0_r in H0. contradiction.
      * apply (Hstop j url0 H). rewrite Hshift. exact H0.
Qed.

(** C7.  In paginated mode fetch(t, N) returns after at most N requests,
    whatever the upstream answers; a request that is answered by an empty
    page is the last one, and the accumulated articles are returned then;
    and no request is sent once N articles are accumulated: every request
    asks for an offset below N. *)
Theorem C7_pagination_terminates env tag count options w :
  types.EnablePagination options = true ->
  (types.ItemLimit options < count)%Z ->
  let out := news.FetchNews env tag count options w in
  exists reqs,
    requests (snd out) = (requests w ++ reqs)%list
    /\ (List.length reqs <= Z.to_nat count)%nat
    /\ (forall j url,
           nth_error reqs j = Some url ->
           http_Get env (http_calls w + j) url = Ok emptyPage ->
           List.length reqs = S j /\ is_ok (fst out) = true)
    /\ Forall (fun r => (offsetOf r < count)%Z) reqs.
Proof.
  intros Hp Hlimit. unfold news.FetchNews. rewrite Hp; simpl.
  replace (count <=? types.ItemLimit options)%Z with false
    by (symmetry; apply Z.leb_gt; assumption).
  destruct (fetchPages_requests env tag count (types.ItemLimit options)
              (Z.to_nat count) [] w) as (reqs & H1 & H2 & H3 & H4);
    [simpl; lia|].
  simpl in *. exists reqs. repeat split; auto.
  - rewrite Z.sub_0_r in H2. exact H2.
  - eapply H4; eassumption.
  - eapply H4; eassumption.
Qed.

(** ** The store *)

Lemma Exec_ok env stmt w :
  db_fault env (db_calls w) = false ->
  Exec env stmt w = run_statement stmt (tick w).
Proof. unfold Exec, bind, driver_call; simpl. intros ->. reflexivity. Qed.

Lemma Exec_fault env stmt w :
  db_fault env (db_calls w) = true ->
  Exec env stmt w = (Err ErrDriver, tick w).
Proof. unfold Exec, bind, driver_call; simpl. intros ->. reflexivity. Qed.

Lemma Query_ok {A} env (q : sqlite.Store -> result A) w :
  db_fault env (db_calls w) = false ->
  Query env q w = (q (db w), tick w).
Proof. unfold Query, bind, driver_call; simpl. intros ->. reflexivity. Qed.

Lemma Query_fault {A} env (q : sqlite.Store -> result A) w :
  db_fault env (db_calls w) = true ->
  Query env q w = (Err ErrDriver, tick w).
Proof. unfold Query, bind, driver_call; simpl. intros ->. reflexivity. Qed.

Lemma schema_is_composite : composite {| sqlite.schema_sql := sqlite.posted_news_sql;
                                         sqlite.has_posted_at := true;
                                         sqlite.posted_rows := [] |}.
Proof. reflexivity. Qed.

Lemma composite_unique_pair t : composite t -> sqlite.unique_pair t = true.
Proof. unfold composite, sqlite.unique_pair. intros ->. vm_compute. reflexivity. Qed.

Lemma composite_not_pk t : composite t -> sqlite.pk_news_id t = false.
Proof. unfold composite, sqlite.pk_news_id. intros ->. vm_compute. reflexivity. Qed.

Lemma conflicts_composite t n c :
  composite t ->
  sqlite.conflicts t n c = existsb (sqlite.same_pair n c) (sqlite.posted_rows t).
Proof.
  intros H. unfold sqlite.conflicts.
  rewrite (composite_unique_pair _ H), (composite_not_pk _ H). reflexivity.
Qed.

Lemma pairCount_exists A C t :
  existsb (sqlite.same_pair A C) (sqlite.posted_rows t) = true
  <-> (1 <= pairCount A C t)%nat.
Proof.
  unfold pairCount. induction (sqlite.posted_rows t) as [|r l IH]; simpl.
  - split; [discriminate | lia].
  - destruct (sqlite.same_pair A C r); simpl; [split; auto; lia | exact IH].
Qed.

Lemma same_pair_eq A C r :
  sqlite.same_pair A C r = true <-> sqlite.news_id r = A /\ sqlite.channel_id r = C.
Proof.
  unfold sqlite.same_pair. rewrite andb_true_iff, Z.eqb_eq, String.eqb_eq. tauto.
Qed.

Lemma insert_or_ignore_composite t r :
  composite t -> composite (sqlite.insert_or_ignore_row t r).
Proof.
  unfold sqlite.insert_or_ignore_row, composite.
  destruct (sqlite.conflicts _ _ _); simpl; auto.
Qed.

Lemma pairCount_insert A C t r :
  composite t ->
  pairCount A C (sqlite.insert_or_ignore_row t r)
  = if sqlite.same_pair A C r && negb (existsb (sqlite.same_pair A C) (sqlite.posted_rows t))
    then S (pairCount A C t) else pairCount A C t.
Proof.
  intros Hc. unfold sqlite.insert_or_ignore_row.
  rewrite (conflicts_composite _ _ _ Hc).
  destruct (sqlite.same_pair A C r) eqn:Er; simpl.
  - assert (Er' := Er). apply same_pair_eq in Er' as [<- <-].
    destruct (existsb _ _); simpl; [reflexivity|].
    unfold pairCount; simpl. rewrite filter_app, length_app; simpl.
    rewrite Er; simpl; lia.
  - destruct (existsb _ _); [reflexivity|].
    unfold pairCount; simpl. rewrite filter_app, length_app; simpl.
    rewrite Er; simpl; lia.
Qed.

Lemma insert_or_ignore_unique t r :
  composite t -> uniqueRows t -> uniqueRows (sqlite.insert_or_ignore_row t r).
Proof.
  intros Hc Hu A C. rewrite (pairCount_insert _ _ _ _ Hc).
  destruct (sqlite.same_pair A C r); simpl; [|apply Hu].
  destruct (existsb _ _) eqn:E; simpl; [apply Hu|].
  assert (~ (1 <= pairCount A C t)%nat) by (rewrite <- pairCount_exists; congruence).
  lia.
Qed.

(** After an insert of the pair the ledger has exactly one row for it. *)
Lemma pairCount_after_insert A C t at_time :
  composite t -> uniqueRows t ->
  pairCount A C
    (sqlite.insert_or_ignore_row t
       {| sqlite.news_id := A; sqlite.channel_id := C; sqlite.posted_at := at_time |})
  = 1%nat.
Proof.
  intros Hc Hu. rewrite (pairCount_insert _ _ _ _ Hc).
  assert (E : sqlite.same_pair A C
                {| sqlite.news_id := A; sqlite.channel_id := C;
                   sqlite.posted_at := at_time |} = true)
    by (apply same_pair_eq; auto).
  rewrite E; simpl.
  destruct (existsb _ _) eqn:Ex; simpl.
  - apply pairCount_exists in Ex. specialize (Hu A C). lia.
  - assert (~ (1 <= pairCount A C t)%nat) by (rewrite <- pairCount_exists; congruence).
    lia.
Qed.


Lemma transientFaults_reliable env : reliable env -> transientFaults env.
Proof. intros H n. rewrite (H n). reflexivity. Qed.

(** The row that mark_delivered inserts in the world [w]. *)
Lemma markAttempts_ok env A C t attempts :
  forall w err,
    sqlite.posted_news (db w) = Some t ->
    (exists i, (i < attempts)%nat /\ db_fault env (db_calls w + i) = false) ->
    exists w',
      database.markAttempts env A C attempts err w = (Ok tt, w')
      /\ sqlite.posted_news (db w')
         = Some (sqlite.insert_or_ignore_row t
                   {| sqlite.news_id := A; sqlite.channel_id := C;
                      sqlite.posted_at :=
                        if sqlite.has_posted_at t then Some (now w) else None |})
      /\ sent w' = sent w.
Proof.
  induction attempts as [|k IH]; intros w err Ht (i & Hi & Hok); [lia|].
  cbn [database.markAttempts]. unfold bind.
  destruct (db_fault env (db_calls w)) eqn:F.
  - rewrite (Exec_fault env _ w F).
    destruct i as [|i]; [rewrite Nat.add_0_r in Hok; congruence|].
    destruct (IH (tick w) (Some ErrDriver) Ht) as (w' & Hrun & Ht' & Hsent).
    { exists i. split; [lia|]. simpl. rewrite <- Hok. f_equal. lia. }
    exists w'. repeat split; assumption.
  - rewrite (Exec_ok env _ w F).
    unfold run_statement, sqlite.insert_or_ignore_posted; simpl. rewrite Ht.
    eexists; repeat split.
Qed.

(** mark_delivered with its default three retries goes through transient
    failures of the driver. *)
Lemma MarkNewsAsPosted_transient env A C w t :
  transientFaults env ->
  sqlite.posted_news (db w) = Some t ->
  exists w',
    database.MarkNewsAsPosted env A C w = (Ok tt, w')
    /\ sqlite.posted_news (db w')
       = Some (sqlite.insert_or_ignore_row t
                 {| sqlite.news_id := A; sqlite.channel_id := C;
                    sqlite.posted_at :=
                      if sqlite.has_posted_at t then Some (now w) else None |})
    /\ sent w' = sent w.
Proof.
  intros Htr Ht.
  unfold database.MarkNewsAsPosted, database.MarkNewsAsPostedWithOptions.
  apply markAttempts_ok; [exact Ht|].
  specialize (Htr (db_calls w)). simpl.
  destruct (db_fault env (db_calls w)) eqn:F0;
    [|exists 0%nat; rewrite Nat.add_0_r; split; [lia | exact F0]].
  destruct (db_fault env (S (db_calls w))) eqn:F1;
    [|exists 1%nat; rewrite Nat.add_1_r; split; [lia | exact F1]].
  destruct (db_fault env (S (S (db_calls w)))) eqn:F2;
    [|exists 2%nat; replace (db_calls w + 2)%nat with (S (S (db_calls w))) by lia;
      split; [lia | exact F2]].
  exists 3%nat. replace (db_calls w + 3)%nat with (S (S (S (db_calls w)))) by lia.
  split; [lia | exact Htr].
Qed.

(** C3.  On a store whose ledger has the composite-unique schema and
    whose driver never fails four times in a row, k >= 1 calls of
    mark_delivered(A, C) all succeed and leave exactly one row for (A, C);
    the schema, and with it the UNIQUE(news_id, channel_id) constraint that
    rejects the second insert, is still in place. *)
Theorem C3_ledger_idempotent env A C k w t :
  transientFaults env ->
  sqlite.posted_news (db w) = Some t ->
  composite t ->
  uniqueRows t ->
  (1 <= k)%nat ->
  let out := markTimes env A C k w in
  List.length (fst out) = k
  /\ Forall (fun r => r = Ok tt) (fst out)
  /\ exists t', sqlite.posted_news (db (snd out)) = Some t'
                /\ sqlite.unique_pair t' = true
                /\ uniqueRows t'
                /\ pairCount A C t' = 1%nat.
Proof.
  intros Htr Ht Hc Hu Hk.
  assert (Hgen : forall k w t,
             sqlite.posted_news (db w) = Some t -> composite t -> uniqueRows t ->
             let out := markTimes env A C k w in
             List.length (fst out) = k
             /\ Forall (fun r => r = Ok tt) (fst out)
             /\ exists t', sqlite.posted_news (db (snd out)) = Some t'
                           /\ composite t' /\ uniqueRows t'
                           /\ (pairCount A C t' = 1%nat \/ (k = 0%nat /\ t' = t))).
  { clear - Htr. intros k; induction k as [|k IH]; intros w t Ht Hc Hu; simpl.
    - repeat split; auto. exists t; repeat split; auto.
    - unfold bind.
      destruct (MarkNewsAsPosted_transient env A C w t Htr Ht) as (w1 & -> & Ht1 & _).
      set (t1 := sqlite.insert_or_ignore_row t _) in Ht1.
      assert (Hc1 : composite t1) by (apply insert_or_ignore_composite; assumption).
      assert (Hu1 : uniqueRows t1) by (apply insert_or_ignore_unique; assumption).
      specialize (IH w1 t1 Ht1 Hc1 Hu1).
      destruct (markTimes env A C k w1) as [rs w2]; simpl in *.
      destruct IH as (Hl & Hall & t' & Ht' & Hc' & Hu' & Hcount).
      repeat split; auto.
      exists t'; repeat split; auto. left.
      destruct Hcount as [|[-> ->]]; [assumption|].
      apply pairCount_after_insert; assumption. }
  destruct (Hgen k w t Ht Hc Hu) as (Hl & Hall & t' & Ht' & Hc' & Hu' & Hcount).
  repeat split; auto. exists t'; repeat split; auto.
  - apply composite_unique_pair; assumption.
  - destruct Hcount as [|[-> _]]; [assumption | lia].
Qed.

(** The ids of the channels, in the order of the index. *)

Lemma In_insert_id x id ids : In x (sqlite.insert_id id ids) <-> x = id \/ In x ids.
Proof.
  induction ids as [|y ids IH]; simpl; [intuition congruence|].
  destruct (String.leb id y); simpl; rewrite ?IH; intuition congruence.
Qed.

Lemma In_order_by_id x ids : In x (sqlite.order_by_id ids) <-> In x ids.
Proof.
  induction ids as [|y ids IH]; simpl; [reflexivity|].
  rewrite In_insert_id, IH. intuition congruence.
Qed.

Lemma length_insert_id id ids :
  List.length (sqlite.insert_id id ids) = S (List.length ids).
Proof.
  induction ids as [|y ids IH]; simpl; [reflexivity|].
  destruct (String.leb id y); simpl; [reflexivity | rewrite IH; reflexivity].
Qed.

Lemma length_order_by_id ids :
  List.length (sqlite.order_by_id ids) = List.length ids.
Proof.
  induction ids as [|y ids IH]; simpl; [reflexivity|].
  rewrite length_insert_id, IH. reflexivity.
Qed.

Lemma existsb_order_by_id (f : string -> bool) ids :
  existsb f (sqlite.order_by_id ids) = existsb f ids.
Proof.
  apply eq_true_iff_eq. rewrite !existsb_exists.
  split; intros (x & Hx & Hf); exists x; split; auto; apply In_order_by_id; exact Hx.
Qed.

(** ** Subscriptions *)

Lemma find_without_channel C l :
  find (fun r => String.eqb (sqlite.ch_id r) C) (sqlite.without_channel C l) = None.
Proof.
  induction l as [|r l IH]; simpl; [reflexivity|].
  destruct (String.eqb (sqlite.ch_id r) C) eqn:E; simpl; [exact IH|].
  rewrite E. exact IH.
Qed.


(** C6.  When remove_subscription(C) returns without error, no row of C is
    left in channels and none in the ledger; when it returns an error, the
    store is as it was before the call: the two deletions are one
    transaction. *)
Theorem C6_remove_cascade env C w :
  let out := database.RemoveChannel env C w in
  (fst out = Ok tt ->
   sqlite.find_channel C (db (snd out)) = None
   /\ exists t', sqlite.posted_news (db (snd out)) = Some t'
                 /\ forall r, In r (sqlite.posted_rows t') -> sqlite.channel_id r <> C)
  /\ (forall e, fst out = Err e -> db (snd out) = db w).
Proof.
  unfold database.RemoveChannel, deferRollback, Rollback, Begin, Commit, Exec,
    bind, ret, driver_call, run_statement; simpl.
  destruct (db_fault env (db_calls w)); simpl;
    [split; [discriminate | reflexivity] |].
  destruct (db_fault env (S (db_calls w))); simpl;
    [split; [discriminate | reflexivity] |].
  destruct (db_fault env (S (S (db_calls w)))); simpl;
    [split; [discriminate | reflexivity] |].
  unfold sqlite.delete_posted_of_channel; simpl.
  destruct (sqlite.posted_news (db w)) as [t|] eqn:Et; simpl;
    [|split; [discriminate | reflexivity]].
  destruct (db_fault env (S (S (S (db_calls w))))); simpl;
    [split; [discriminate | reflexivity] |].
  split; [|discriminate].
  intros _. split.
  - unfold sqlite.find_channel; simpl. apply find_without_channel.
  - eexists; split; [reflexivity|]. simpl.
    intros r Hr. apply filter_In in Hr as [_ Hr].
    apply negb_true_iff in Hr. intros E. rewrite E, String.eqb_refl in Hr. discriminate.
Qed.


Lemma In_insert_desc r x l :
  In x (sqlite.insert_desc r l) <-> x = r \/ In x l.
Proof.
  induction l as [|y l IH]; simpl; [intuition|].
  destruct (sqlite.c_id y <=? sqlite.c_id r)%Z; simpl; [intuition|].
  rewrite IH. intuition.
Qed.

Lemma In_order_by_id_desc x l :
  In x (sqlite.order_by_id_desc l) <-> In x l.
Proof.
  induction l as [|r l IH]; simpl; [tauto|].
  rewrite In_insert_desc, IH. intuition.
Qed.





(** ** Migration of the ledger *)

(** The next driver call of the goal either fails or runs its statement. *)
Ltac exec_step F :=
  unfold bind at 1;
  match goal with
  | |- context [Exec ?env ?stmt ?w] =>
      destruct (db_fault env (db_calls w)) eqn:F;
      [ rewrite (Exec_fault env stmt w F) | rewrite (Exec_ok env stmt w F) ];
      unfold run_statement, ret; cbn [tick db with_db now]
  | |- context [Query ?env ?q ?w] =>
      destruct (db_fault env (db_calls w)) eqn:F;
      [ rewrite (Query_fault env q w F) | rewrite (Query_ok env q w F) ];
      unfold ret; cbn [tick db with_db now]
  end.

Ltac unreliable F :=
  let Hrel := fresh in intros Hrel; rewrite Hrel in F; discriminate.

Lemma restore_rows (f : sqlite.PostedRow -> option Z) rows :
  forall acc,
    composite acc -> uniqueRows acc ->
    let t' := fold_left
                (fun acc r =>
                   sqlite.insert_or_ignore_row acc
                     {| sqlite.news_id := sqlite.news_id r;
                        sqlite.channel_id := sqlite.channel_id r;
                        sqlite.posted_at := f r |})
                rows acc in
    composite t' /\ uniqueRows t'
    /\ forall A C,
        pairCount A C t'
        = if existsb (sqlite.same_pair A C) rows
             || existsb (sqlite.same_pair A C) (sqlite.posted_rows acc)
          then 1%nat else 0%nat.
Proof.
  induction rows as [|r rows IH]; intros acc Hc Hu; simpl.
  - repeat split; auto. intros A C.
    destruct (existsb _ _) eqn:E.
    + apply pairCount_exists in E. specialize (Hu A C). lia.
    + assert (~ (1 <= pairCount A C acc)%nat) by (rewrite <- pairCount_exists; congruence).
      lia.
  - set (row := {| sqlite.news_id := _ |}).
    assert (Hc1 : composite (sqlite.insert_or_ignore_row acc row))
      by (apply insert_or_ignore_composite; assumption).
    assert (Hu1 : uniqueRows (sqlite.insert_or_ignore_row acc row))
      by (apply insert_or_ignore_unique; assumption).
    destruct (IH _ Hc1 Hu1) as (Hc' & Hu' & Hcount).
    repeat split; auto. intros A C. rewrite Hcount.
    assert (Hrow : sqlite.same_pair A C row = sqlite.same_pair A C r) by reflexivity.
    assert (Hex : existsb (sqlite.same_pair A C)
                          (sqlite.posted_rows (sqlite.insert_or_ignore_row acc row))
                  = sqlite.same_pair A C r
                    || existsb (sqlite.same_pair A C) (sqlite.posted_rows acc)).
    { pose proof (pairCount_insert A C acc row Hc) as Hins. rewrite Hrow in Hins.
      destruct (existsb (sqlite.same_pair A C) (sqlite.posted_rows acc)) eqn:E.
      - rewrite orb_true_r. apply pairCount_exists.
        rewrite andb_false_r in Hins. rewrite Hins. apply pairCount_exists. exact E.
      - rewrite orb_false_r. rewrite andb_true_r in Hins.
        destruct (sqlite.same_pair A C r).
        + apply pairCount_exists. lia.
        + apply not_true_is_false. rewrite pairCount_exists, Hins.
          rewrite <- pairCount_exists. congruence. }
    rewrite Hex.
    destruct (sqlite.same_pair A C r), (existsb (sqlite.same_pair A C) rows),
             (existsb (sqlite.same_pair A C) (sqlite.posted_rows acc)); reflexivity.
Qed.

Lemma restore_into_new (f : sqlite.PostedRow -> option Z) rows :
  let t' := fold_left
              (fun acc r =>
                 sqlite.insert_or_ignore_row acc
                   {| sqlite.news_id := sqlite.news_id r;
                      sqlite.channel_id := sqlite.channel_id r;
                      sqlite.posted_at := f r |})
              rows
              {| sqlite.schema_sql := sqlite.posted_news_sql;
                 sqlite.has_posted_at := true; sqlite.posted_rows := [] |} in
  composite t' /\ holdsExactly rows t'.
Proof.
  destruct (restore_rows f rows _ schema_is_composite) as (Hc & _ & Hcount).
  - intros A C. unfold pairCount. simpl. lia.
  - split; [exact Hc|]. intros A C. rewrite Hcount. simpl.
    rewrite orb_false_r. reflexivity.
Qed.

(** C4, as the code has it.  For a ledger whose stored schema has news_id
    as primary key the migration copies the rows through the table
    posted_news_backup into a new table with the composite-unique schema.
    Whenever it returns without error, whatever failed on the way, every
    old pair is in the new table exactly once and the backup is dropped;
    and it does return without error when no driver call fails and no
    backup table is left from an earlier attempt.  The statements are not
    in a transaction: when one fails the migration stops where it is, and
    then either nothing was done yet, or the backup holds every old row, or
    the copy into the new table was already complete. *)
Theorem C4_migration_copies_rows env w t :
  sqlite.posted_news (db w) = Some t ->
  sqlite.pk_news_id t = true ->
  let out := database.migratePostedNews env w in
  (fst out = Ok tt ->
   sqlite.posted_news_backup (db (snd out)) = None
   /\ exists t', sqlite.posted_news (db (snd out)) = Some t'
                 /\ composite t' /\ holdsExactly (sqlite.posted_rows t) t')
  /\ (reliable env -> sqlite.posted_news_backup (db w) = None -> fst out = Ok tt)
  /\ (forall e, fst out = Err e ->
        db (snd out) = db w
        \/ (exists b, sqlite.posted_news_backup (db (snd out)) = Some b
                      /\ sqlite.posted_rows b = sqlite.posted_rows t)
        \/ (exists t', sqlite.posted_news (db (snd out)) = Some t'
                       /\ composite t' /\ holdsExactly (sqlite.posted_rows t) t')).
Proof.
  intros Ht Hpk.
  assert (H : exists r w',
             database.migratePostedNews env w = (r, w')
             /\ (r = Ok tt ->
                 sqlite.posted_news_backup (db w') = None
                 /\ exists t', sqlite.posted_news (db w') = Some t'
                               /\ composite t' /\ holdsExactly (sqlite.posted_rows t) t')
             /\ (reliable env -> sqlite.posted_news_backup (db w) = None -> r = Ok tt)
             /\ (forall e, r = Err e ->
                   db w' = db w
                   \/ (exists b, sqlite.posted_news_backup (db w') = Some b
                                 /\ sqlite.posted_rows b = sqlite.posted_rows t)
                   \/ (exists t', sqlite.posted_news (db w') = Some t'
                                  /\ composite t'
                                  /\ holdsExactly (sqlite.posted_rows t) t'))).
  { unfold database.migratePostedNews.
    exec_step F0.
    { eexists _, _; split; [reflexivity|]. split; [discriminate|].
      split; [unreliable F0 | left; reflexivity]. }
    destruct (sqlite.posted_news_backup (db w)) as [stale|] eqn:Hb;
      unfold sqlite.create_backup; simpl; rewrite Hb, ?Ht; simpl.
    { eexists _, _; split; [reflexivity|]. split; [discriminate|].
      split; [intros _ Hn; discriminate Hn | left; reflexivity]. }
    exec_step F1.
    { eexists _, _; split; [reflexivity|]. split; [discriminate|].
      split; [unreliable F1|].
      intros; right; left; eexists; split; reflexivity. }
    unfold sqlite.drop_posted_news; simpl. rewrite Ht; simpl.
    exec_step F2.
    { eexists _, _; split; [reflexivity|]. split; [discriminate|].
      split; [unreliable F2|].
      intros; right; left; eexists; split; reflexivity. }
    unfold sqlite.create_posted_news; simpl.
    set (colCount := (if sqlite.has_posted_at t then 1 else 0)%Z).
    assert (Hcol : forall c : result Z,
               c = Ok colCount \/ c = Err ErrDriver ->
               match c with Ok n => (0 <? n)%Z | Err _ => false end
               && negb (sqlite.has_posted_at t) = false).
    { intros c [-> | ->]; [|reflexivity].
      unfold colCount. destruct (sqlite.has_posted_at t); reflexivity. }
    exec_step F3; unfold sqlite.count_backup_posted_at; simpl; fold colCount;
      exec_step F4;
      try (eexists _, _; split; [reflexivity|]; split; [discriminate|];
           split; [unreliable F4|];
           intros; right; left; eexists; split; reflexivity);
      unfold sqlite.restore_from_backup; simpl;
      try (rewrite (Hcol (Ok colCount)) by auto);
      simpl;
      match goal with
      | |- context [fold_left (fun acc r => sqlite.insert_or_ignore_row acc
                                 {| sqlite.news_id := _; sqlite.channel_id := _;
                                    sqlite.posted_at := @?f r |}) _ _] =>
          pose proof (restore_into_new f (sqlite.posted_rows t)) as (Hc' & Hex')
      end;
      exec_step F5;
      try (eexists _, _; split; [reflexivity|]; split; [discriminate|];
           split; [unreliable F5|];
           intros; right; left; eexists; split; reflexivity);
      unfold sqlite.drop_backup; simpl;
      exec_step F6;
      try (eexists _, _; split; [reflexivity|]; split; [discriminate|];
           split; [unreliable F6|];
           intros; right; right; eexists; split; [reflexivity|]; split; assumption);
      unfold sqlite.create_posted_news_index; simpl;
      exec_step F7;
      try (eexists _, _; split; [reflexivity|]; split; [discriminate|];
           split; [unreliable F7|];
           intros; right; right; eexists; split; [reflexivity|]; split; assumption);
      simpl;
      (eexists _, _; split; [reflexivity|];
       split; [intros _; split; [reflexivity|];
               eexists; split; [reflexivity|]; split; assumption |];
       split; [|discriminate]).
    - unreliable F3.
    - intros _ _. reflexivity. }
  destruct H as (r & w' & -> & H1 & H2 & H3). simpl. exact (conj H1 (conj H2 H3)).
Qed.

(** ** Goroutines and the schedule without overlap *)






(** The functions of the program are what their goroutines do when they
    are left alone. *)

Lemma serial_postUnposted env C newsItems rest :
  forall w,
    serial (goroutines.postUnposted env C newsItems rest) w
    = serial rest (snd (news.postUnposted env C newsItems w)).
Proof.
  induction newsItems as [|item items IH]; intros w; [reflexivity|].
  cbn [goroutines.postUnposted news.postUnposted serial]. unfold bind.
  destruct (database.IsNewsPosted env (types.ID item) C w) as [[[|]|e] w1];
    try apply IH.
  cbn [serial]. unfold bind.
  destruct (news.PostNewsToChannel env C item w1) as [[e|] w2]; [apply IH|].
  cbn [serial]. unfold bind.
  destruct (database.MarkNewsAsPosted env (types.ID item) C w2) as [r w3]. apply IH.
Qed.

Lemma serial_ProcessChannelNews env cfg C rest w :
  serial (goroutines.ProcessChannelNews env cfg C rest) w
  = serial rest (snd (news.ProcessChannelNews env cfg C w)).
Proof.
  assert (Hwork : forall w1,
    serial (Act (database.GetChannelPlatforms env C)
      (fun r =>
         match r with
         | Err _ => rest
         | Ok platforms =>
             if (Z.of_nat (List.length platforms) =? 0)%Z then rest
             else
               Act (news.FetchNews env "" (types.PollCount cfg) news.DefaultFetchOptions)
                 (fun r =>
                    match r with
                    | Err _ => rest
                    | Ok newsItems =>
                        Act (database.CacheNews env newsItems)
                          (fun _ => goroutines.postUnposted env C newsItems rest)
                    end)
         end)) w1
    = serial rest
        (snd ((r <- database.GetChannelPlatforms env C ;;
               match r with
               | Err _ => ret tt
               | Ok platforms =>
                   if (Z.of_nat (List.length platforms) =? 0)%Z then ret tt
                   else
                     r <- news.FetchNews env "" (types.PollCount cfg)
                            news.DefaultFetchOptions ;;
                     match r with
                     | Err _ => ret tt
                     | Ok newsItems =>
                         _ <- database.CacheNews env newsItems ;;
                         news.postUnposted env C newsItems
                     end
               end) w1))).
  { intros w1. cbn [serial]. unfold bind at 1 2.
    destruct (database.GetChannelPlatforms env C w1) as [[platforms|e] w2];
      [|reflexivity].
    destruct (Z.of_nat (List.length platforms) =? 0)%Z; [reflexivity|].
    cbn [serial]. unfold bind at 1 2.
    destruct (news.FetchNews env "" (types.PollCount cfg) news.DefaultFetchOptions w2)
      as [[newsItems|e] w3]; [|reflexivity].
    cbn [serial]. unfold bind at 1 2.
    destruct (database.CacheNews env newsItems w3) as [r w4].
    apply serial_postUnposted. }
  unfold goroutines.ProcessChannelNews, news.ProcessChannelNews.
  destruct (negb (String.eqb (types.Environment cfg) "")).
  - cbn [serial]. unfold bind at 1 2 3.
    destruct (database.GetChannelEnvironment env C w) as [[channelEnv|e] w1];
      [|reflexivity].
    unfold ret at 1. destruct (String.eqb channelEnv (types.Environment cfg));
      cbn [negb]; [apply Hwork | reflexivity].
  - unfold bind at 2. unfold ret at 1. cbn [negb]. apply Hwork.
Qed.

Lemma serial_workers env cfg channels rest :
  forall w,
    serial (goEach (map (fun channelID =>
                           goroutines.ProcessChannelNews env cfg channelID Done)
                        channels) rest) w
    = serial rest (snd (news.processChannels env cfg channels w)).
Proof.
  induction channels as [|C channels IH]; intros w; [reflexivity|].
  cbn [map goEach fold_right serial news.processChannels]. unfold bind.
  rewrite serial_ProcessChannelNews. cbn [serial]. unfold ret at 1.
  destruct (news.ProcessChannelNews env cfg C w) as [u w1]. simpl.
  apply IH.
Qed.

Lemma serial_NewsPollerTurn env cfg rest w :
  serial (goroutines.NewsPollerTurn env cfg rest) w
  = serial rest (snd (news.pollTick env cfg w)).
Proof.
  unfold goroutines.NewsPollerTurn, news.pollTick. cbn [serial]. unfold bind at 1 2.
  destruct ((if negb (String.eqb (types.Environment cfg) "")
             then database.GetChannelsByEnvironment env (types.Environment cfg)
             else database.GetRegisteredChannels env) w) as [[channels|e] w1];
    [|reflexivity].
  destruct (Z.of_nat (List.length channels) =? 0)%Z; [reflexivity|].
  rewrite serial_workers. cbn [serial]. unfold bind.
  destruct (news.processChannels env cfg channels w1) as [u w2]. simpl.
  destruct (database.CleanOldCache env w2) as [r w3]. reflexivity.
Qed.

Lemma serial_catchUpItems env cfg cutoff C newsItems rest :
  forall w,
    serial (goroutines.catchUpItems env cfg cutoff C newsItems rest) w
    = serial rest (snd (news.catchUpItems env cfg cutoff C newsItems w)).
Proof.
  induction newsItems as [|item items IH]; intros w; [reflexivity|].
  cbn [goroutines.catchUpItems news.catchUpItems].
  destruct (types.Updated item <? cutoff)%Z; [apply IH|].
  cbn [serial]. unfold bind.
  destruct (database.IsNewsPosted env (types.ID item) C w) as [[[|]|e] w1];
    try apply IH.
  cbn [serial]. unfold bind.
  destruct (news.IsDuplicateInRecentMessages env cfg C item w1) as [[|] w2];
    [apply IH|].
  cbn [serial]. unfold bind.
  destruct (news.PostNewsToChannel env C item w2) as [[e|] w3]; [apply IH|].
  cbn [serial]. unfold bind.
  destruct (database.MarkNewsAsPosted env (types.ID item) C w3) as [r w4]. apply IH.
Qed.

Lemma serial_catchUpChannels env cfg cutoff newsItems channels rest :
  forall w,
    serial (goroutines.catchUpChannels env cfg cutoff newsItems channels rest) w
    = serial rest (snd (news.catchUpChannels env cfg cutoff newsItems channels w)).
Proof.
  induction channels as [|C channels IH]; intros w; [reflexivity|].
  cbn [goroutines.catchUpChannels news.catchUpChannels serial]. unfold bind.
  destruct (database.GetChannelPlatforms env C w) as [[platforms|e] w1];
    [|apply IH].
  rewrite serial_catchUpItems.
  destruct (news.catchUpItems env cfg cutoff C _ w1) as [u w2]. simpl. apply IH.
Qed.

Lemma serial_catchUpTags env cfg cutoff channels tags rest :
  forall w,
    serial (goroutines.catchUpTags env cfg cutoff channels tags rest) w
    = serial rest (snd (news.catchUpTags env cfg cutoff channels tags w)).
Proof.
  induction tags as [|tag tags IH]; intros w; [reflexivity|].
  cbn [goroutines.catchUpTags news.catchUpTags serial]. unfold bind.
  destruct (news.FetchNews env tag (types.PollCount cfg * 10)%Z news.BulkFetchOptions w)
    as [[newsItems|e] w1]; [|apply IH].
  rewrite serial_catchUpChannels.
  destruct (news.catchUpChannels env cfg cutoff newsItems channels w1) as [u w2].
  simpl. apply IH.
Qed.

Lemma serial_CatchUpUnpostedNews env cfg days rest w :
  serial (goroutines.CatchUpUnpostedNews env cfg days rest) w
  = serial rest (snd (news.CatchUpUnpostedNews env cfg days w)).
Proof.
  unfold goroutines.CatchUpUnpostedNews, news.CatchUpUnpostedNews.
  cbn [serial]. unfold bind at 1 2.
  destruct (database.GetRegisteredChannels env w) as [[channels|e] w1];
    [|reflexivity].
  destruct (Z.of_nat (List.length channels) =? 0)%Z; [reflexivity|].
  cbn [serial]. unfold bind at 1. apply serial_catchUpTags.
Qed.

Lemma run_unit env cfg ops w : fst (run env cfg ops w) = tt.
Proof. destruct (fst (run env cfg ops w)). reflexivity. Qed.


Lemma serial_NewsPoller env cfg ticks :
  forall w, serial (goroutines.NewsPoller env cfg ticks) w
            = run env cfg (map Tick ticks) w.
Proof.
  induction ticks as [|t ticks IH]; intros w; [reflexivity|].
  cbn [goroutines.NewsPoller serial map run runOp]. unfold bind, clock.
  rewrite serial_NewsPollerTurn.
  destruct (news.pollTick env cfg (with_now t w)) as [u w1]. simpl. apply IH.
Qed.

(** runBot without overlap is the catch-up followed by the ticks. *)
Lemma serial_runBot env cfg start ticks w :
  serial (goroutines.runBot env cfg start ticks) w
  = run env cfg (CatchUp start 7 :: map Tick ticks) w.
Proof.
  unfold goroutines.runBot. cbn [serial run runOp]. unfold bind, clock.
  rewrite serial_CatchUpUnpostedNews. cbn [serial]. unfold ret at 1.
  destruct (news.CatchUpUnpostedNews env cfg 7 (with_now start w)) as [u w1]. simpl.
  rewrite serial_NewsPoller.
  destruct (run env cfg (map Tick ticks) w1) as [[] w2]. reflexivity.
Qed.

(** ** At-most-once delivery *)




























Section AtMostOnce.

Variable env : Env.
Variable cfg : types.Config.
Hypothesis store_works : transientFaults env.













End AtMostOnce.

(** ** The properties at concrete inputs *)



(** Left alone, the same goroutines post 103 once. *)
Example without_overlap_once :
  posts 103 "CH1"
    (snd (serial (goroutines.runBot smallFeedEnv sampleConfig
                    63840960000%Z [63840960600%Z]) subscribedWorld)) = 1%nat
  /\ posts 103 "CH1"
       (snd (serial (goroutines.NewsPoller smallFeedEnv sampleConfig [2000%Z; 2600%Z])
                    subscribedWorld)) = 1%nat.
Proof. split; vm_compute; reflexivity. Qed.

(** The scenario of a transient post failure: the post refused in the first
    tick is made in the second, once, and the ledger has its row. *)
Example transient_post_failure :
  let w := snd (run flakyChatEnv sampleConfig [Tick 2000; Tick 3000] subscribedWorld) in
  posts 103 "CH1" w = 1%nat
  /\ fst (database.IsNewsPosted flakyChatEnv 103 "CH1" w) = Ok true.
Proof. vm_compute. split; reflexivity. Qed.

(** What the reliability of the store is needed for: when the four
    attempts of mark_delivered fail after a post, the next tick posts the
    article again. *)
Example ledger_write_failure_reposts :
  posts 103 "CH1"
        (snd (run lostWriteEnv sampleConfig [Tick 2000; Tick 3000] subscribedWorld))
  = 2%nat.
Proof. vm_compute. reflexivity. Qed.


(** After the registration only a new article is posted. *)
Example new_subscriber_gets_only_new_articles :
  let w1 := snd (database.AddChannel quietEnv "CH1" cachedWorld) in
  let w2 := snd (news.postUnposted quietEnv "CH1"
                   [cachedItem 104; cachedItem 103; cachedItem 102; cachedItem 101] w1) in
  sent w2 = [("CH1", 104%Z)].
Proof. vm_compute. reflexivity. Qed.

(** Three calls on the store that init leaves, the first attempt of the
    first call failing in the driver. *)
Lemma C3_witness :
  let out := markTimes (faultAt 17) 12345 "CH1" 3 readyWorld in
  List.length (fst out) = 3%nat
  /\ Forall (fun r => r = Ok tt) (fst out)
  /\ exists t', sqlite.posted_news (db (snd out)) = Some t'
                /\ sqlite.unique_pair t' = true
                /\ uniqueRows t'
                /\ pairCount 12345 "CH1" t' = 1%nat.
Proof.
  eapply (C3_ledger_idempotent (faultAt 17) 12345 "CH1" 3 readyWorld).
  - intros n. simpl. destruct (Nat.eqb n 17) eqn:E; [|reflexivity].
    apply Nat.eqb_eq in E. subst n. reflexivity.
  - vm_compute. reflexivity.
  - reflexivity.
  - intros A C. apply Nat.le_0_l.
  - apply le_S, le_S, le_n.
Defined.

(** Without the constraint the second insert would add a second row: the
    table of the backup, which has no constraint, takes the same pair twice. *)
Example no_constraint_no_idempotence :
  let bare := {| sqlite.schema_sql :=
                   "CREATE TABLE posted_news_backup(news_id INT, channel_id TEXT)";
                 sqlite.has_posted_at := false; sqlite.posted_rows := [] |} in
  let row := {| sqlite.news_id := 1; sqlite.channel_id := "A";
                sqlite.posted_at := None |} in
  pairCount 1 "A" (sqlite.insert_or_ignore_row (sqlite.insert_or_ignore_row bare row) row)
  = 2%nat.
Proof. vm_compute. reflexivity. Qed.

(** The migration of the legacy store in which the query for the
    posted_at column of the backup fails: the migration goes on, returns
    nil, and the pairs are kept. *)
Lemma C4_witness :
  let out := database.migratePostedNews (faultAt 3) legacyWorld in
  sqlite.posted_news_backup (db (snd out)) = None
  /\ exists t', sqlite.posted_news (db (snd out)) = Some t'
                /\ composite t' /\ holdsExactly (sqlite.posted_rows legacyTable) t'.
Proof.
  apply (proj1 (C4_migration_copies_rows (faultAt 3) legacyWorld legacyTable
                  eq_refl eq_refl)).
  vm_compute. reflexivity.
Defined.

(** Without failures the migration succeeds; on a store that still has
    the backup table of an earlier attempt it fails at once and changes
    nothing. *)
Example migration_runs :
  fst (database.migratePostedNews quietEnv legacyWorld) = Ok tt
  /\ fst (database.IsNewsPosted quietEnv 1 "A"
            (snd (database.migratePostedNews quietEnv legacyWorld))) = Ok true
  /\ (let w := with_db (sqlite.set_posted_news_backup (Some legacyTable)
                          (db legacyWorld)) legacyWorld in
      let out := database.migratePostedNews quietEnv w in
      is_ok (fst out) = false /\ db (snd out) = db w).
Proof. vm_compute. repeat split; reflexivity. Qed.

(** C4 as stated fails: the copy is not inside one transaction.  When the
    third statement of the migration fails, the migration returns its
    error with the old table dropped for good; the rows are left in the
    backup table only. *)
Lemma C4_not_one_transaction :
  let out := database.migratePostedNews (faultAt 2) legacyWorld in
  fst out = Err (Errorf "failed to create new posted_news table" ErrDriver)
  /\ sqlite.posted_news (db legacyWorld) = Some legacyTable
  /\ sqlite.posted_news (db (snd out)) = None
  /\ option_map sqlite.posted_rows (sqlite.posted_news_backup (db (snd out)))
     = Some (sqlite.posted_rows legacyTable).
Proof. vm_compute. repeat split; reflexivity. Qed.

(** The legacy store of the specification's scenario, through init: the
    rows are in the new table, and marking one of them again changes
    nothing. *)
Example legacy_store_init :
  let w := snd (database.initDatabase quietEnv legacyWorld) in
  fst (database.IsNewsPosted quietEnv 1 "A" w) = Ok true
  /\ db (snd (database.MarkNewsAsPosted quietEnv 1 "A" w)) = db w.
Proof. vm_compute. split; reflexivity. Qed.

(** The same failure met in init, followed by a second init: the second
    one succeeds on an empty ledger and never looks at the backup. *)
Example failed_migration_is_not_resumed :
  let w1 := snd (database.initDatabase (faultAt 13) legacyWorld) in
  let out := database.initDatabase quietEnv w1 in
  fst out = Ok tt
  /\ option_map sqlite.posted_rows (sqlite.posted_news (db (snd out))) = Some []
  /\ fst (database.IsNewsPosted quietEnv 1 "A" (snd out)) = Ok false.
Proof. vm_compute. repeat split; reflexivity. Qed.

(** The scenario of the specification: the title "Tholian Assembly
    Update" against an own message with the embed title "tholian assembly
    update coming soon". *)
Example duplicate_suppression :
  news.scanMessages sampleLib "bot"
    (strings_Fields sampleLib (strings_ToLower sampleLib "Tholian Assembly Update"))
    [ {| discordgo.AuthorID := "bot"; discordgo.Content := "";
         discordgo.Embeds :=
           [ {| discordgo.Title := "tholian assembly update coming soon";
                discordgo.Description := ""; discordgo.URL := "";
                discordgo.Color := 0; discordgo.Timestamp := "";
                discordgo.Footer := None; discordgo.Fields := [];
                discordgo.Thumbnail := None |} ] |} ]
  = true.
Proof. vm_compute. reflexivity. Qed.

(** The check on the channel in which the bot has announced the Tholian
    Assembly, with the library of the examples. *)
Lemma C5_witness :
  fst (news.IsDuplicateInRecentMessages tholianEnv sampleConfig "CH2"
         (titledItem "Tholian Assembly Update") subscribedWorld)
  = spec.isDuplicate (lib tholianEnv) (self_id tholianEnv)
      (types.Title (titledItem "Tholian Assembly Update"))
      (match ChannelMessages tholianEnv (chat_calls subscribedWorld) "CH2"
               (types.MsgCount sampleConfig) with
       | Ok messages => messages
       | Err _ => []
       end).
Proof.
  apply (C5_duplicate_check tholianEnv sampleConfig "CH2"
           (titledItem "Tholian Assembly Update") subscribedWorld).
  - exact sampleLib_lowersParts.
  - exact sampleLib_lowersWords.
Defined.

(** CH1 and CH2 are registered and article 101 is in the ledger for both:
    the removal of CH1 takes its subscription and its ledger row. *)
Lemma C6_witness :
  let out := database.RemoveChannel quietEnv "CH1" twoChannelsWorld in
  sqlite.find_channel "CH1" (db (snd out)) = None
  /\ exists t', sqlite.posted_news (db (snd out)) = Some t'
                /\ forall r, In r (sqlite.posted_rows t') -> sqlite.channel_id r <> "CH1".
Proof.
  apply (proj1 (C6_remove_cascade quietEnv "CH1" twoChannelsWorld)).
  vm_compute. reflexivity.
Defined.

Example cascade_takes_the_ledger_row :
  let out := database.RemoveChannel quietEnv "CH1" twoChannelsWorld in
  fst (database.IsNewsPosted quietEnv 101 "CH1" twoChannelsWorld) = Ok true
  /\ fst out = Ok tt
  /\ fst (database.IsNewsPosted quietEnv 101 "CH1" (snd out)) = Ok false
  /\ fst (database.IsNewsPosted quietEnv 101 "CH2" (snd out)) = Ok true
  /\ map sqlite.ch_id (sqlite.channels (db (snd out))) = ["CH2"].
Proof. vm_compute. repeat split; reflexivity. Qed.

(** Three articles upstream, pages of two, ten asked for. *)
Lemma C7_witness :
  let out := news.FetchNews smallFeedEnv "" 10 pagesOfTwo freshWorld in
  exists reqs,
    requests (snd out) = (requests freshWorld ++ reqs)%list
    /\ (List.length reqs <= Z.to_nat 10)%nat
    /\ (forall j url,
           nth_error reqs j = Some url ->
           http_Get smallFeedEnv (http_calls freshWorld + j) url = Ok emptyPage ->
           List.length reqs = S j /\ is_ok (fst out) = true)
    /\ Forall (fun r => (offsetOf r < 10)%Z) reqs.
Proof.
  exact (C7_pagination_terminates smallFeedEnv "" 10 pagesOfTwo freshWorld
           eq_refl eq_refl).
Defined.

Example pagination_stops_on_empty_page :
  let out := news.FetchNews smallFeedEnv "" 10 pagesOfTwo freshWorld in
  option_map (map types.ID) (match fst out with Ok l => Some l | Err _ => None end)
  = Some [103; 102; 101]%Z
  /\ map offsetOf (requests (snd out)) = [0; 2; 3]%Z.
Proof. vm_compute. split; reflexivity. Qed.

(** An article with the id 103.5 under the key ID and a date that the
    third of the four formats is the first to parse. *)
Lemma C9_witness :
  exists item,
    types.UnmarshalJSON sampleLib types.zeroNewsItem
      (types.JObject
         [ ("ID", types.JNumber {| types.mant := 207; types.expo := -1 |});
           ("title", types.JString "Patch notes");
           ("platforms", types.JArray [types.JString "PC"]);
           ("Updated", types.JString "2024-01-15 12:00:00") ]) = Ok item
    /\ types.ID item = 103%Z
    /\ types.Updated item = 63840873600%Z.
Proof.
  destruct (C9_flexible_decoding sampleLib
              [ ("ID", types.JNumber {| types.mant := 207; types.expo := -1 |});
                ("title", types.JString "Patch notes");
                ("platforms", types.JArray [types.JString "PC"]);
                ("Updated", types.JString "2024-01-15 12:00:00") ] eq_refl)
    as [(item & Hitem & _ & Hnum & _ & Hupd & _) _].
  exists item. split; [exact Hitem|]. split.
  - apply (Hnum _ 103%Z eq_refl); [|reflexivity].
    unfold truncated; simpl; lia.
  - apply (Hupd "2024-01-15 12:00:00" [types.RFC3339; "2006-01-02T15:04:05Z"]
             "2006-01-02 15:04:05" ["2006-01-02T15:04:05"] 63840873600%Z
             eq_refl).
    + discriminate.
    + reflexivity.
    + repeat constructor.
    + reflexivity.
Defined.

(** Keys are taken in any case of letters, also with the long s; the last
    member that names a field decides; null for a string leaves what an
    earlier member gave; and the element null makes the method panic, so
    that the response is not decoded. *)
Example decoding_of_members :
  option_map (fun item => (types.ID item, types.Title item, types.Tags item))
    (match types.UnmarshalJSON sampleLib types.zeroNewsItem
             (types.JObject
                [ ("id", types.JString "4"); ("Id", types.JString "5");
                  ("TITLE", types.JString "Patch notes");
                  ("title", types.JNull);
                  (String (ascii_of_nat 116)
                     (String (ascii_of_nat 97)
                        (String (ascii_of_nat 103)
                           (String (ascii_of_nat 197)
                              (String (ascii_of_nat 191) "")))),
                   types.JArray [types.JString "news"]) ]) with
     | Ok item => Some item
     | Err _ => None
     end)
  = Some (5%Z, "Patch notes", ["news"])
  /\ types.UnmarshalJSON sampleLib types.zeroNewsItem types.JNull
     = Err (ErrPanic "invalid memory address or nil pointer dereference")
  /\ is_ok (types.decodeNews sampleLib [article 103 "Patch notes"; types.JNull])
     = false.
Proof. vm_compute. repeat split; reflexivity. Qed.

(** C9 as stated fails: an article whose id is the string "abc" and whose
    date no format parses is not dropped.  The fetch returns it, with id 0
    and the zero time. *)
Lemma C9_malformed_article_retained :
  fst (news.FetchNews badFeedEnv "" 20 news.DefaultFetchOptions freshWorld)
  = Ok [ {| types.ID := 0; types.Title := "Patch notes"; types.Summary := "";
            types.Content := ""; types.Tags := []; types.Platforms := [];
            types.Updated := 0%Z; types.ThumbnailURL := "";
            types.Images := None |} ].
Proof. vm_compute. reflexivity. Qed.

(** A field of the wrong JSON type is not dropped either: it fails the
    decoding of the whole response. *)
Example wrong_type_fails_the_response :
  is_ok (types.decodeNews sampleLib
           [ article 103 "Patch notes";
             types.JObject [ ("id", types.JString "104");
                             ("title", types.JNumber {| types.mant := 7; types.expo := 0 |}) ] ])
  = false.
Proof. vm_compute. reflexivity. Qed.


Example resubscribe_leaves_cached_articles_unmarked :
  let out := database.AddChannel quietEnv "CH1" devWorld in
  fst (database.IsNewsPosted quietEnv 102 "CH1" (snd out)) = Ok false.
Proof. vm_compute. reflexivity. Qed.

(** ** What the engine posts, and to whom *)

Lemma quiet_refl w : quiet w w.
Proof. repeat split. Qed.

Lemma quiet_trans w1 w2 w3 : quiet w1 w2 -> quiet w2 w3 -> quiet w1 w3.
Proof. intros (H1 & H2 & H3) (H4 & H5 & H6). repeat split; congruence. Qed.

Lemma Quiet_ret {A} (a : A) : Quiet (ret a).
Proof. intros w. apply quiet_refl. Qed.

Lemma Quiet_bind {A B} (m : M A) (k : A -> M B) :
  Quiet m -> (forall a, Quiet (k a)) -> Quiet (bind m k).
Proof.
  intros Hm Hk w. unfold bind. specialize (Hm w).
  destruct (m w) as [a w1]. simpl in Hm.
  eapply quiet_trans; [exact Hm | apply Hk].
Qed.

Lemma Quiet_Query {A} env (q : sqlite.Store -> result A) : Quiet (Query env q).
Proof.
  intros w. unfold Query, bind, driver_call, ret.
  destruct (db_fault env (db_calls w)); repeat split.
Qed.

Lemma Quiet_Exec env stmt :
  (forall n s s', stmt n s = Ok s' ->
                  sqlite.channels s' = sqlite.channels s
                  /\ sqlite.posted_news s' = sqlite.posted_news s) ->
  Quiet (Exec env stmt).
Proof.
  intros Hstmt w. unfold Exec, bind, driver_call, ret, run_statement.
  destruct (db_fault env (db_calls w)); simpl; [repeat split|].
  destruct (stmt (now w) (db w)) as [s'|e] eqn:E; simpl; [|repeat split].
  destruct (Hstmt _ _ _ E) as [H1 H2]. repeat split; assumption.
Qed.

Lemma Quiet_Get env url : Quiet (news.Get env url).
Proof. intros w. repeat split. Qed.

Lemma Quiet_recentMessages env cfg C : Quiet (news.recentMessages env cfg C).
Proof. intros w. repeat split. Qed.

Ltac quiet_steps :=
  repeat first
    [ apply Quiet_ret
    | apply Quiet_Query
    | apply Quiet_Get
    | apply Quiet_recentMessages
    | assumption
    | apply Quiet_bind; [|intros]
    | match goal with
      | |- Quiet (match ?x with _ => _ end) => destruct x
      | |- Quiet (if ?b then _ else _) => destruct b
      end ].

Lemma Quiet_fetchPage env tag count itemLimit allNews offset :
  Quiet (news.fetchPage env tag count itemLimit allNews offset).
Proof. unfold news.fetchPage. quiet_steps. Qed.

Lemma Quiet_fetchPages env tag count itemLimit allNews offset :
  Quiet (news.fetchPages env tag count itemLimit allNews offset).
Proof.
  intros w.
  funelim (news.fetchPages env tag count itemLimit allNews offset w).
  - pose proof (Quiet_fetchPage env tag count itemLimit allNews offset w) as Hf.
    rewrite e in Hf. exact Hf.
  - pose proof (Quiet_fetchPage env tag count itemLimit allNews offset w) as Hf.
    rewrite Heq in Hf. eapply quiet_trans; [exact Hf | assumption].
Qed.

Lemma Quiet_FetchNews env tag count options :
  Quiet (news.FetchNews env tag count options).
Proof.
  unfold news.FetchNews.
  destruct (_ || _); [quiet_steps | apply Quiet_fetchPages].
Qed.

Lemma Quiet_cacheAttempts env item attempts err :
  Quiet (database.cacheAttempts env item attempts err).
Proof.
  revert err; induction attempts as [|k IH]; intros err; simpl; [quiet_steps|].
  apply Quiet_bind; [|intros [|e]; [quiet_steps | apply IH]].
  apply Quiet_Exec. intros n s s' H.
  unfold database.insertCache, sqlite.insert_or_replace_cache in H.
  inversion H; split; reflexivity.
Qed.

Lemma Quiet_cacheSingle env options newsItems :
  Quiet (database.cacheSingle env options newsItems).
Proof.
  induction newsItems as [|item rest IH]; cbn [database.cacheSingle]; [quiet_steps|].
  apply Quiet_bind; [apply Quiet_cacheAttempts|].
  intros [e|]; quiet_steps.
Qed.

Lemma Quiet_CacheNews env newsItems : Quiet (database.CacheNews env newsItems).
Proof.
  unfold database.CacheNews, database.CacheNewsWithOptions.
  destruct (_ =? 0)%Z; [quiet_steps|].
  cbn [types.UseBatch types.DefaultDatabaseOptions negb].
  apply Quiet_cacheSingle.
Qed.

Lemma Quiet_CleanOldCache env : Quiet (database.CleanOldCache env).
Proof.
  unfold database.CleanOldCache.
  apply Quiet_bind; [|intros; quiet_steps].
  apply Quiet_Exec. intros n s s' H.
  unfold sqlite.delete_old_cache in H. inversion H; split; reflexivity.
Qed.

Lemma Quiet_GetRegisteredChannels env : Quiet (database.GetRegisteredChannels env).
Proof. unfold database.GetRegisteredChannels. quiet_steps. Qed.

Lemma Quiet_GetChannelsByEnvironment env e :
  Quiet (database.GetChannelsByEnvironment env e).
Proof. unfold database.GetChannelsByEnvironment. quiet_steps. Qed.

Lemma Quiet_IsDuplicate env cfg C item :
  Quiet (news.IsDuplicateInRecentMessages env cfg C item).
Proof. unfold news.IsDuplicateInRecentMessages. quiet_steps. Qed.

(** *** Steps of the engine *)

Lemma subscribed_channels e s s' C :
  sqlite.channels s' = sqlite.channels s -> subscribed e s C -> subscribed e s' C.
Proof.
  intros H (r & Hr & He). exists r. split; [|exact He].
  unfold sqlite.find_channel in *. rewrite H. exact Hr.
Qed.

Lemma subscribed_any e s C : subscribed e s C -> subscribed "" s C.
Proof. intros (r & Hr & _). exists r. split; [exact Hr | left; reflexivity]. Qed.

Lemma advances_refl e w : advances e w w.
Proof.
  split; [reflexivity|]. split; [auto|].
  exists []. split; [symmetry; apply app_nil_r | constructor].
Qed.

Lemma advances_trans e w1 w2 w3 :
  advances e w1 w2 -> advances e w2 w3 -> advances e w1 w3.
Proof.
  intros (Hc1 & Hm1 & new1 & Hs1 & Hn1) (Hc2 & Hm2 & new2 & Hs2 & Hn2).
  split; [congruence|]. split; [auto|].
  exists (new1 ++ new2)%list. split; [rewrite Hs2, Hs1, app_assoc; reflexivity|].
  apply Forall_app. split; [exact Hn1|].
  eapply Forall_impl; [|exact Hn2].
  intros p [Hp Hsub]. split.
  - destruct (marked (db w1) (snd p) (fst p)) eqn:E; [|reflexivity].
    apply Hm1 in E. congruence.
  - apply (subscribed_channels e (db w2)); [symmetry; exact Hc1 | exact Hsub].
Qed.

Lemma marking_advances e w w' : marking w w' -> advances e w w'.
Proof.
  intros (Hc & Hm & Hs). split; [exact Hc|]. split; [exact Hm|].
  exists []. split; [rewrite Hs; symmetry; apply app_nil_r | constructor].
Qed.

Lemma quiet_marking w w' : quiet w w' -> marking w w'.
Proof.
  intros (Hc & Hp & Hs). split; [exact Hc|]. split; [|exact Hs].
  intros A C. unfold marked. rewrite Hp. auto.
Qed.

Lemma quiet_advances e w w' : quiet w w' -> advances e w w'.
Proof. intros H. apply marking_advances, quiet_marking, H. Qed.

Lemma advances_any e w w' : advances e w w' -> advances "" w w'.
Proof.
  intros (Hc & Hm & new & Hs & Hn). split; [exact Hc|]. split; [exact Hm|].
  exists new. split; [exact Hs|].
  eapply Forall_impl; [|exact Hn].
  intros p [Hp Hsub]. split; [exact Hp | eapply subscribed_any; exact Hsub].
Qed.

Lemma Advances_bind {A B} e (m : M A) (k : A -> M B) :
  Advances e m -> (forall a, Advances e (k a)) -> Advances e (bind m k).
Proof.
  intros Hm Hk w. unfold bind. specialize (Hm w).
  destruct (m w) as [a w1]. simpl in Hm.
  eapply advances_trans; [exact Hm | apply Hk].
Qed.

Lemma Quiet_Advances {A} e (m : M A) : Quiet m -> Advances e m.
Proof. intros H w. apply quiet_advances, H. Qed.

(** An insert into the ledger keeps the rows that are there. *)
Lemma insert_or_ignore_keeps t r A C :
  existsb (sqlite.same_pair A C) (sqlite.posted_rows t) = true ->
  existsb (sqlite.same_pair A C)
          (sqlite.posted_rows (sqlite.insert_or_ignore_row t r)) = true.
Proof.
  intros H. unfold sqlite.insert_or_ignore_row.
  destruct (sqlite.conflicts _ _ _); [exact H|].
  simpl. rewrite existsb_app, H. reflexivity.
Qed.

Lemma insert_or_ignore_posted_marking A C w :
  forall s', sqlite.insert_or_ignore_posted A C (now w) (db w) = Ok s' ->
             marking w (with_db s' (tick w)).
Proof.
  intros s' H. unfold sqlite.insert_or_ignore_posted in H.
  destruct (sqlite.posted_news (db w)) as [t|] eqn:Et; [|discriminate].
  inversion H; subst s'; clear H.
  split; [reflexivity|]. split; [|reflexivity].
  intros A' C'. unfold marked; simpl. rewrite Et.
  apply insert_or_ignore_keeps.
Qed.

Lemma marking_refl w : marking w w.
Proof. repeat split; auto. Qed.

Lemma marking_trans w1 w2 w3 : marking w1 w2 -> marking w2 w3 -> marking w1 w3.
Proof.
  intros (H1 & H2 & H3) (H4 & H5 & H6). split; [congruence|].
  split; [auto | congruence].
Qed.

(** mark_delivered, whatever the driver does. *)
Lemma markAttempts_marking env A C attempts :
  forall err w, marking w (snd (database.markAttempts env A C attempts err w)).
Proof.
  induction attempts as [|k IH]; intros err w; cbn [database.markAttempts].
  - apply marking_refl.
  - unfold bind.
    destruct (db_fault env (db_calls w)) eqn:F.
    + rewrite (Exec_fault env _ w F).
      eapply marking_trans; [|apply IH]. apply quiet_marking. repeat split.
    + rewrite (Exec_ok env _ w F). unfold run_statement. simpl.
      destruct (sqlite.insert_or_ignore_posted A C (now w) (db w)) as [s'|e] eqn:E.
      * apply (insert_or_ignore_posted_marking A C w s' E).
      * eapply marking_trans; [|apply IH]. apply quiet_marking. repeat split.
Qed.

Lemma MarkNewsAsPosted_marking env A C w :
  marking w (snd (database.MarkNewsAsPosted env A C w)).
Proof. apply markAttempts_marking. Qed.

(** is_delivered answers what the ledger says, or fails. *)
Lemma IsNewsPosted_marked env A C w :
  database.IsNewsPosted env A C w = (Ok (marked (db w) A C), tick w)
  \/ exists e, database.IsNewsPosted env A C w = (Err e, tick w).
Proof.
  unfold database.IsNewsPosted, bind.
  destruct (db_fault env (db_calls w)) eqn:F.
  - rewrite (Query_fault env _ w F). right. eexists. reflexivity.
  - rewrite (Query_ok env _ w F). unfold sqlite.select_posted, marked.
    destruct (sqlite.posted_news (db w)) as [t|].
    + left. destruct (existsb _ _); reflexivity.
    + right. eexists. reflexivity.
Qed.

Lemma quiet_tick w : quiet w (tick w).
Proof. repeat split. Qed.

(** The post of an article, followed by the ledger write. *)
Lemma post_and_mark_advances env e C item w :
  marked (db w) (types.ID item) C = false ->
  subscribed e (db w) C ->
  forall w1, news.PostNewsToChannel env C item w = (None, w1) ->
  advances e w (snd (database.MarkNewsAsPosted env (types.ID item) C w1)).
Proof.
  intros Hm Hsub w1 Hpost.
  unfold news.PostNewsToChannel in Hpost.
  destruct (ChannelMessageSendEmbed env _ C _) as [err|]; [discriminate|].
  inversion Hpost; subst w1; clear Hpost.
  eapply advances_trans; [|apply marking_advances, MarkNewsAsPosted_marking].
  split; [reflexivity|]. split; [auto|].
  exists [(C, types.ID item)]. split; [reflexivity|].
  constructor; [|constructor]. split; assumption.
Qed.

Lemma post_refused_quiet env C item w e w1 :
  news.PostNewsToChannel env C item w = (Some e, w1) -> quiet w w1.
Proof.
  unfold news.PostNewsToChannel.
  destruct (ChannelMessageSendEmbed env _ C _) as [err|]; [|discriminate].
  intros H; inversion H; subst. repeat split.
Qed.

(** The loop of the poller over the fetched articles. *)
Lemma postUnposted_advances env e C newsItems :
  forall w, subscribed e (db w) C ->
            advances e w (snd (news.postUnposted env C newsItems w)).
Proof.
  induction newsItems as [|item rest IH]; intros w Hsub;
    cbn [news.postUnposted]; [apply advances_refl|].
  unfold bind at 1.
  assert (Hskip : advances e w (snd (news.postUnposted env C rest (tick w)))).
  { eapply advances_trans; [apply quiet_advances, quiet_tick|].
    apply IH. exact Hsub. }
  destruct (IsNewsPosted_marked env (types.ID item) C w) as [-> | (err & ->)];
    [|exact Hskip].
  destruct (marked (db w) (types.ID item) C) eqn:Em; [exact Hskip|].
  unfold bind at 1.
  destruct (news.PostNewsToChannel env C item (tick w)) as [[err|] w1] eqn:Epost.
  - pose proof (post_refused_quiet _ _ _ _ _ _ Epost) as Hq.
    eapply advances_trans; [apply quiet_advances, Hq|].
    apply IH. apply (subscribed_channels e (db w)); [apply Hq | exact Hsub].
  - unfold bind at 1.
    pose proof (post_and_mark_advances env e C item (tick w) Em Hsub w1 Epost) as Hadv.
    destruct (database.MarkNewsAsPosted env (types.ID item) C w1) as [r w2].
    simpl in Hadv.
    eapply advances_trans; [exact Hadv|].
    apply IH. apply (subscribed_channels e (db w)); [apply Hadv | exact Hsub].
Qed.

(** The loop of the catch-up over the articles of one channel. *)
Lemma catchUpItems_advances env cfg cutoff C newsItems :
  forall w, subscribed "" (db w) C ->
            advances "" w (snd (news.catchUpItems env cfg cutoff C newsItems w)).
Proof.
  induction newsItems as [|item rest IH]; intros w Hsub;
    cbn [news.catchUpItems]; [apply advances_refl|].
  destruct (types.Updated item <? cutoff)%Z; [apply IH; exact Hsub|].
  unfold bind at 1.
  assert (Hskip : advances "" w (snd (news.catchUpItems env cfg cutoff C rest (tick w)))).
  { eapply advances_trans; [apply quiet_advances, quiet_tick|].
    apply IH. exact Hsub. }
  destruct (IsNewsPosted_marked env (types.ID item) C w) as [-> | (err & ->)];
    [|exact Hskip].
  destruct (marked (db w) (types.ID item) C) eqn:Em; [exact Hskip|].
  unfold bind at 1.
  pose proof (Quiet_IsDuplicate env cfg C item (tick w)) as Hq.
  destruct (news.IsDuplicateInRecentMessages env cfg C item (tick w)) as [dup w0].
  simpl in Hq.
  assert (Hsub0 : subscribed "" (db w0) C)
    by (apply (subscribed_channels "" (db w)); [apply Hq | exact Hsub]).
  assert (Em0 : marked (db w0) (types.ID item) C = false).
  { destruct Hq as (_ & Hp & _). unfold marked in *. simpl in Hp.
    rewrite Hp. exact Em. }
  assert (H0 : advances "" w w0) by (apply quiet_advances; exact Hq).
  destruct dup; [eapply advances_trans; [exact H0 | apply IH; exact Hsub0]|].
  unfold bind at 1.
  destruct (news.PostNewsToChannel env C item w0) as [[err|] w1] eqn:Epost.
  - pose proof (post_refused_quiet _ _ _ _ _ _ Epost) as Hq1.
    eapply advances_trans; [exact H0|].
    eapply advances_trans; [apply quiet_advances, Hq1|].
    apply IH. apply (subscribed_channels "" (db w0)); [apply Hq1 | exact Hsub0].
  - unfold bind at 1.
    pose proof (post_and_mark_advances env "" C item w0 Em0 Hsub0 w1 Epost) as Hadv.
    destruct (database.MarkNewsAsPosted env (types.ID item) C w1) as [r w2].
    simpl in Hadv.
    eapply advances_trans; [exact H0|].
    eapply advances_trans; [exact Hadv|].
    apply IH. apply (subscribed_channels "" (db w0)); [apply Hadv | exact Hsub0].
Qed.

(** The two reads of a subscription: they answer what the row says, the
    defaults when there is no row, or fail. *)
Lemma GetChannelEnvironment_cases env C w :
  database.GetChannelEnvironment env C w
  = (Ok (match sqlite.find_channel C (db w) with
         | Some r => sqlite.ch_environment r
         | None => "PROD"
         end), tick w)
  \/ exists e, database.GetChannelEnvironment env C w = (Err e, tick w).
Proof.
  unfold database.GetChannelEnvironment, bind.
  destruct (db_fault env (db_calls w)) eqn:F.
  - rewrite (Query_fault env _ w F). right. eexists. reflexivity.
  - rewrite (Query_ok env _ w F). unfold sqlite.select_environment.
    left. destruct (sqlite.find_channel C (db w)); reflexivity.
Qed.

Lemma GetChannelPlatforms_cases env C w :
  database.GetChannelPlatforms env C w
  = (Ok (match sqlite.find_channel C (db w) with
         | Some r => strings.Split (sqlite.ch_platforms r) ","
         | None => []
         end), tick w)
  \/ exists e, database.GetChannelPlatforms env C w = (Err e, tick w).
Proof.
  unfold database.GetChannelPlatforms, bind.
  destruct (db_fault env (db_calls w)) eqn:F.
  - rewrite (Query_fault env _ w F). right. eexists. reflexivity.
  - rewrite (Query_ok env _ w F). unfold sqlite.select_platforms.
    left. destruct (sqlite.find_channel C (db w)); reflexivity.
Qed.

(** What ProcessChannelNews does once the subscription has been read. *)
Lemma fetch_and_post_advances env cfg e C :
  forall w, subscribed e (db w) C ->
    advances e w
      (snd ((r <- news.FetchNews env "" (types.PollCount cfg) news.DefaultFetchOptions ;;
             match r with
             | Err _ => ret tt
             | Ok newsItems =>
                 _ <- database.CacheNews env newsItems ;;
                 news.postUnposted env C newsItems
             end) w)).
Proof.
  intros w Hsub. unfold bind at 1.
  pose proof (Quiet_FetchNews env "" (types.PollCount cfg) news.DefaultFetchOptions w) as Hq.
  destruct (news.FetchNews env "" (types.PollCount cfg) news.DefaultFetchOptions w)
    as [[newsItems|err] w1]; simpl in Hq; [|apply quiet_advances; exact Hq].
  unfold bind at 1.
  pose proof (Quiet_CacheNews env newsItems w1) as Hq1.
  destruct (database.CacheNews env newsItems w1) as [r w2]. simpl in Hq1.
  pose proof (quiet_trans _ _ _ Hq Hq1) as Hq2.
  eapply advances_trans; [apply quiet_advances, Hq2|].
  apply postUnposted_advances.
  apply (subscribed_channels e (db w)); [apply Hq2 | exact Hsub].
Qed.

Lemma ProcessChannelNews_advances env cfg C :
  Advances (types.Environment cfg) (news.ProcessChannelNews env cfg C).
Proof.
  intros w. unfold news.ProcessChannelNews.
  unfold bind at 1.
  destruct (negb (String.eqb (types.Environment cfg) "")) eqn:Eenv.
  - unfold bind at 1.
    destruct (GetChannelEnvironment_cases env C w) as [-> | (err & ->)];
      [|apply quiet_advances, quiet_tick].
    unfold ret at 1.
    destruct (String.eqb _ (types.Environment cfg)) eqn:Ematch;
      cbn [negb]; cbv beta iota; [|apply quiet_advances, quiet_tick].
    apply String.eqb_eq in Ematch.
    unfold bind at 1.
    destruct (GetChannelPlatforms_cases env C (tick w)) as [-> | (err & ->)];
      [|apply quiet_advances; repeat split].
    change (db (tick w)) with (db w).
    destruct (sqlite.find_channel C (db w)) as [r|] eqn:Efind;
      [|apply quiet_advances; repeat split].
    destruct (_ =? 0)%Z; [apply quiet_advances; repeat split|].
    eapply advances_trans; [apply (quiet_advances _ w (tick (tick w))); repeat split|].
    apply fetch_and_post_advances.
    exists r. split; [exact Efind | right; exact Ematch].
  - unfold ret at 1. cbn [negb]. cbv beta iota.
    apply negb_false_iff, String.eqb_eq in Eenv.
    unfold bind at 1.
    destruct (GetChannelPlatforms_cases env C w) as [-> | (err & ->)];
      [|apply quiet_advances, quiet_tick].
    destruct (sqlite.find_channel C (db w)) as [r|] eqn:Efind;
      [|apply quiet_advances, quiet_tick].
    destruct (_ =? 0)%Z; [apply quiet_advances, quiet_tick|].
    eapply advances_trans; [apply quiet_advances, quiet_tick|].
    apply fetch_and_post_advances.
    exists r. split; [exact Efind | left; exact Eenv].
Qed.

Lemma processChannels_advances env cfg channels :
  Advances (types.Environment cfg) (news.processChannels env cfg channels).
Proof.
  induction channels as [|C rest IH]; cbn [news.processChannels].
  - intros w. apply advances_refl.
  - apply Advances_bind; [apply ProcessChannelNews_advances | intros; exact IH].
Qed.

Lemma pollTick_advances env cfg :
  Advances (types.Environment cfg) (news.pollTick env cfg).
Proof.
  unfold news.pollTick.
  apply Advances_bind.
  - apply Quiet_Advances.
    destruct (negb _);
      [apply Quiet_GetChannelsByEnvironment | apply Quiet_GetRegisteredChannels].
  - intros [channels|err]; [|intros w; apply advances_refl].
    destruct (_ =? 0)%Z; [intros w; apply advances_refl|].
    apply Advances_bind; [apply processChannels_advances|]. intros _.
    apply Advances_bind; [apply Quiet_Advances, Quiet_CleanOldCache|].
    intros _ w. apply advances_refl.
Qed.

Lemma find_channel_listed C s :
  In C (map sqlite.ch_id (sqlite.channels s)) ->
  exists r, sqlite.find_channel C s = Some r.
Proof.
  unfold sqlite.find_channel. induction (sqlite.channels s) as [|r l IH]; simpl.
  - intros [].
  - destruct (String.eqb (sqlite.ch_id r) C) eqn:E; [eexists; reflexivity|].
    intros [H|H]; [apply String.eqb_neq in E; congruence | apply IH; exact H].
Qed.

Lemma catchUpChannels_advances env cfg cutoff newsItems channels :
  forall w, (forall C, In C channels -> subscribed "" (db w) C) ->
            advances "" w (snd (news.catchUpChannels env cfg cutoff newsItems channels w)).
Proof.
  induction channels as [|C rest IH]; intros w Hsub;
    cbn [news.catchUpChannels]; [apply advances_refl|].
  unfold bind at 1.
  assert (Hrest : forall w', sqlite.channels (db w') = sqlite.channels (db w) ->
                             forall C', In C' rest -> subscribed "" (db w') C').
  { intros w' Hc C' HC'. apply (subscribed_channels "" (db w)); [exact Hc|].
    apply Hsub. right. exact HC'. }
  destruct (GetChannelPlatforms_cases env C w) as [-> | (err & ->)].
  - unfold bind at 1.
    pose proof (catchUpItems_advances env cfg cutoff C
                  (news.filterNewsByPlatforms (lib env) newsItems
                     match sqlite.find_channel C (db w) with
                     | Some r => strings.Split (sqlite.ch_platforms r) ","
                     | None => []
                     end) (tick w) (Hsub C (or_introl eq_refl))) as Hadv.
    destruct (news.catchUpItems env cfg cutoff C _ (tick w)) as [u w1].
    simpl in Hadv.
    eapply advances_trans; [apply quiet_advances, quiet_tick|].
    eapply advances_trans; [exact Hadv|].
    apply IH. apply Hrest. apply Hadv.
  - eapply advances_trans; [apply quiet_advances, quiet_tick|].
    apply IH. apply Hrest. reflexivity.
Qed.

Lemma catchUpTags_advances env cfg cutoff channels tags :
  forall w, (forall C, In C channels -> subscribed "" (db w) C) ->
            advances "" w (snd (news.catchUpTags env cfg cutoff channels tags w)).
Proof.
  induction tags as [|tag rest IH]; intros w Hsub;
    cbn [news.catchUpTags]; [apply advances_refl|].
  unfold bind at 1.
  pose proof (Quiet_FetchNews env tag (types.PollCount cfg * 10)%Z
                news.BulkFetchOptions w) as Hq.
  destruct (news.FetchNews env tag (types.PollCount cfg * 10)%Z
              news.BulkFetchOptions w) as [[newsItems|err] w1]; simpl in Hq.
  - unfold bind at 1.
    assert (Hsub1 : forall C, In C channels -> subscribed "" (db w1) C).
    { intros C HC. apply (subscribed_channels "" (db w)); [apply Hq | auto]. }
    pose proof (catchUpChannels_advances env cfg cutoff newsItems channels w1 Hsub1)
      as Hadv.
    destruct (news.catchUpChannels env cfg cutoff newsItems channels w1) as [u w2].
    simpl in Hadv.
    eapply advances_trans; [apply quiet_advances, Hq|].
    eapply advances_trans; [exact Hadv|].
    apply IH. intros C HC.
    apply (subscribed_channels "" (db w1)); [apply Hadv | auto].
  - eapply advances_trans; [apply quiet_advances, Hq|].
    apply IH. intros C HC.
    apply (subscribed_channels "" (db w)); [apply Hq | auto].
Qed.

Lemma CatchUpUnpostedNews_advances env cfg days :
  Advances "" (news.CatchUpUnpostedNews env cfg days).
Proof.
  intros w. unfold news.CatchUpUnpostedNews, database.GetRegisteredChannels.
  unfold bind at 1. unfold bind at 1.
  destruct (db_fault env (db_calls w)) eqn:F.
  - rewrite (Query_fault env _ w F). apply quiet_advances, quiet_tick.
  - rewrite (Query_ok env _ w F). unfold sqlite.select_channel_ids, ret at 1.
    destruct (_ =? 0)%Z; [apply quiet_advances, quiet_tick|].
    eapply advances_trans; [apply quiet_advances, quiet_tick|].
    apply catchUpTags_advances.
    intros C HC. apply (proj1 (In_order_by_id _ _)) in HC.
    destruct (find_channel_listed C (db w) HC) as (r & Hr).
    exists r. split; [exact Hr | left; reflexivity].
Qed.

Lemma run_advances env cfg ops : Advances "" (run env cfg ops).
Proof.
  induction ops as [|op rest IH]; cbn [run]; [intros w; apply advances_refl|].
  apply Advances_bind; [|intros; exact IH].
  intros w. destruct op as [t|t days]; cbn [runOp].
  - apply advances_any with (e := types.Environment cfg).
    exact (pollTick_advances env cfg (with_now t w)).
  - exact (CatchUpUnpostedNews_advances env cfg days (with_now t w)).
Qed.

Lemma ticks_advance env cfg ops :
  forallb isTick ops = true ->
  Advances (types.Environment cfg) (run env cfg ops).
Proof.
  induction ops as [|op rest IH]; cbn [run forallb];
    [intros _ w; apply advances_refl|].
  intros H. apply andb_true_iff in H as [Hop Hrest].
  apply Advances_bind; [|intros; apply IH; exact Hrest].
  intros w. destruct op as [t|t days]; [|discriminate]. cbn [runOp].
  exact (pollTick_advances env cfg (with_now t w)).
Qed.

(** Posts that are not of the pair leave its count alone. *)
Lemma posts_unchanged A C w w' new :
  sent w' = (sent w ++ new)%list ->
  Forall (fun p => ~ (fst p = C /\ snd p = A)) new ->
  posts A C w' = posts A C w.
Proof.
  intros Hs Hn. unfold posts. rewrite Hs, filter_app, length_app.
  replace (filter _ new) with (@nil (string * Z)); [simpl; lia|].
  symmetry. clear Hs. induction Hn as [|p l Hp _ IH]; simpl; [reflexivity|].
  destruct (String.eqb (fst p) C && (snd p =? A)%Z) eqn:E; [|exact IH].
  apply andb_true_iff in E as [E1 E2].
  apply String.eqb_eq in E1. apply Z.eqb_eq in E2. tauto.
Qed.

(** X1.  An article that the ledger has for a channel is never posted to
    that channel: whatever the driver, the upstream and the chat service
    do during a run of ticks and catch-ups, the number of posts of the pair
    stays what it was. *)
Theorem delivered_article_is_not_posted env cfg ops w A C :
  marked (db w) A C = true ->
  posts A C (snd (run env cfg ops w)) = posts A C w.
Proof.
  intros Hm.
  destruct (run_advances env cfg ops w) as (_ & _ & new & Hs & Hn).
  apply (posts_unchanged A C _ _ new Hs).
  eapply Forall_impl; [|exact Hn].
  intros p [Hp _] [E1 E2]. subst. congruence.
Qed.

(** X2.  A run never posts to a channel that has no row in the
    subscription table. *)
Theorem unsubscribed_channel_gets_no_post env cfg ops w A C :
  sqlite.find_channel C (db w) = None ->
  posts A C (snd (run env cfg ops w)) = posts A C w.
Proof.
  intros Hnone.
  destruct (run_advances env cfg ops w) as (_ & _ & new & Hs & Hn).
  apply (posts_unchanged A C _ _ new Hs).
  eapply Forall_impl; [|exact Hn].
  intros p [_ (r & Hr & _)] [E1 E2]. subst. congruence.
Qed.

(** X3.  A poller that is configured for an environment posts to the
    channels of that environment only: over any number of ticks, a channel
    whose row names another environment gets no post. *)
Theorem ticks_keep_to_the_environment env cfg ops w A C r :
  forallb isTick ops = true ->
  types.Environment cfg <> "" ->
  sqlite.find_channel C (db w) = Some r ->
  sqlite.ch_environment r <> types.Environment cfg ->
  posts A C (snd (run env cfg ops w)) = posts A C w.
Proof.
  intros Hticks Hcfg Hr Hother.
  destruct (ticks_advance env cfg ops Hticks w) as (_ & _ & new & Hs & Hn).
  apply (posts_unchanged A C _ _ new Hs).
  eapply Forall_impl; [|exact Hn].
  intros p [_ (r' & Hr' & He)] [E1 E2]. subst.
  rewrite Hr in Hr'. inversion Hr'; subst r'.
  destruct He as [He|He]; [exact (Hcfg He) | exact (Hother He)].
Qed.

Lemma X1_witness :
  posts 102 "CH1"
        (snd (run smallFeedEnv sampleConfig [Tick 2000; CatchUp 3000 7] backfilledWorld))
  = posts 102 "CH1" backfilledWorld.
Proof.
  apply (delivered_article_is_not_posted smallFeedEnv sampleConfig
           [Tick 2000; CatchUp 3000 7] backfilledWorld 102 "CH1").
  vm_compute. reflexivity.
Defined.

Lemma X2_witness :
  posts 103 "CH2"
        (snd (run smallFeedEnv sampleConfig [Tick 2000; CatchUp 3000 7] subscribedWorld))
  = posts 103 "CH2" subscribedWorld.
Proof.
  apply (unsubscribed_channel_gets_no_post smallFeedEnv sampleConfig
           [Tick 2000; CatchUp 3000 7] subscribedWorld 103 "CH2").
  vm_compute. reflexivity.
Defined.

Lemma X3_witness :
  posts 103 "CH1" (snd (run smallFeedEnv prodConfig [Tick 2000; Tick 3000] devWorld))
  = posts 103 "CH1" devWorld.
Proof.
  apply (ticks_keep_to_the_environment smallFeedEnv prodConfig [Tick 2000; Tick 3000]
           devWorld 103 "CH1"
           {| sqlite.ch_id := "CH1"; sqlite.ch_platforms := "pc";
              sqlite.ch_environment := "DEV";
              sqlite.ch_created_at := 500; sqlite.ch_updated_at := 600 |}).
  - reflexivity.
  - discriminate.
  - vm_compute. reflexivity.
  - discriminate.
Defined.

(** The catch-up does not look at the environment: started by a bot that
    is configured for PROD, it posts to the DEV channel what the ticks of
    the same bot leave out. *)
Example catch_up_ignores_the_environment :
  sent (snd (run smallFeedEnv prodConfig [Tick 2000] devWorld)) = []
  /\ sent (snd (run smallFeedEnv prodConfig [CatchUp 2000 7] devWorld))
     = [("CH1", 103%Z); ("CH1", 102%Z)].
Proof. vm_compute. split; reflexivity. Qed.

(** ** What a tick delivers *)

Lemma Split_not_empty s sep : strings.Split s sep <> [].
Proof.
  unfold strings.Split. generalize "". induction s as [|c r IH]; intros cur; simpl.
  - discriminate.
  - destruct (Ascii.eqb c sep); [discriminate | apply IH].
Qed.










(** The platforms of the channel play no part in a tick: a channel that is
    registered for xbox only gets the article that is for PC only. *)
Example tick_ignores_the_platforms :
  let w := snd (database.UpdateChannelPlatforms quietEnv "CH1" ["xbox"] subscribedWorld) in
  fst (database.GetChannelPlatforms quietEnv "CH1" w) = Ok ["xbox"]
  /\ map types.Platforms fetchedArticles = [["PC"]; ["PC"]; ["PC"]]
  /\ sent (snd (news.ProcessChannelNews smallFeedEnv sampleConfig "CH1" w))
     = [("CH1", 103%Z); ("CH1", 102%Z); ("CH1", 101%Z)]
  /\ sent (snd (news.CatchUpUnpostedNews smallFeedEnv sampleConfig 7 w)) = [].
Proof. vm_compute. repeat split; reflexivity. Qed.

(** ** Subscriptions: platforms and environment *)


Lemma Exec_reliable env stmt w :
  reliable env ->
  Exec env stmt w
  = match stmt (now w) (db w) with
    | Ok s => (Ok tt, with_db s (tick w))
    | Err e => (Err e, tick w)
    end.
Proof.
  intros Hrel. rewrite (Exec_ok env stmt w (Hrel _)). unfold run_statement.
  cbn [now db tick]. destruct (stmt (now w) (db w)); reflexivity.
Qed.







(** *** Lists in one column *)

Lemma split_from_without sep p :
  without_byte sep p = true ->
  forall s cur, strings.split_from (p ++ s) sep cur = strings.split_from s sep (cur ++ p).
Proof.
  induction p as [|c p IH]; simpl; intros H s cur.
  - rewrite append_empty_r. reflexivity.
  - apply andb_true_iff in H as [Hc Hp]. apply negb_true_iff in Hc. rewrite Hc.
    rewrite (IH Hp), append_assoc. reflexivity.
Qed.

Lemma split_from_concat sep rest :
  forall p cur,
    Forall (fun q => without_byte sep q = true) (p :: rest) ->
    strings.split_from (String.concat (String sep "") (p :: rest)) sep cur
    = (cur ++ p) :: rest.
Proof.
  induction rest as [|q rest IH]; intros p cur H.
  - simpl. inversion H; subst.
    rewrite <- (append_empty_r p) at 1.
    rewrite (split_from_without sep p H2). reflexivity.
  - inversion H; subst. cbn [String.concat].
    rewrite (split_from_without sep p H2). simpl.
    rewrite Ascii.eqb_refl. f_equal.
    exact (IH q "" H3).
Qed.

Lemma Split_Join names :
  storable names -> strings.Split (strings.Join names ",") "," = names.
Proof.
  intros [Hne Hall]. destruct names as [|p rest]; [congruence|].
  unfold strings.Split, strings.Join.
  exact (split_from_concat "," rest p "" Hall).
Qed.



(** The empty list does not come back: it is stored as the empty string,
    which is read as a list of one empty name, and a channel with that list
    passes the registration test of the poller. *)
Example empty_platforms_read_back :
  let w := snd (database.UpdateChannelPlatforms quietEnv "CH1" [] subscribedWorld) in
  fst (database.GetChannelPlatforms quietEnv "CH1" w) = Ok [""].
Proof. vm_compute. reflexivity. Qed.



(** ** Steps within a relation on stores *)

Section StoreRelation.

Variable R : sqlite.Store -> sqlite.Store -> Prop.
Hypothesis R_refl : forall s, R s s.
Hypothesis R_trans : forall s1 s2 s3, R s1 s2 -> R s2 s3 -> R s1 s3.

Lemma Respects_ret {A} (a : A) : Respects R (ret a).
Proof. intros w. apply R_refl. Qed.

Lemma Respects_bind {A B} (m : M A) (k : A -> M B) :
  Respects R m -> (forall a, Respects R (k a)) -> Respects R (bind m k).
Proof.
  intros Hm Hk w. unfold bind. specialize (Hm w).
  destruct (m w) as [a w1]. simpl in Hm.
  eapply R_trans; [exact Hm | apply Hk].
Qed.

Lemma Respects_Query {A} env (q : sqlite.Store -> result A) : Respects R (Query env q).
Proof.
  intros w. unfold Query, bind, driver_call, ret.
  destruct (db_fault env (db_calls w)); apply R_refl.
Qed.

Lemma Respects_Exec env stmt :
  (forall n s s', stmt n s = Ok s' -> R s s') -> Respects R (Exec env stmt).
Proof.
  intros Hstmt w. unfold Exec, bind, driver_call, ret, run_statement.
  destruct (db_fault env (db_calls w)); simpl; [apply R_refl|].
  destruct (stmt (now w) (db w)) as [s'|e] eqn:E; simpl; [|apply R_refl].
  eapply Hstmt. exact E.
Qed.

End StoreRelation.


(** ** The ledger: retries, batches, other channels *)

Lemma onlyLedger_refl s : onlyLedger s s.
Proof. destruct s; reflexivity. Qed.

Lemma onlyLedger_trans s1 s2 s3 :
  onlyLedger s1 s2 -> onlyLedger s2 s3 -> onlyLedger s1 s3.
Proof.
  unfold onlyLedger. intros H1 H2. rewrite H2 at 1. rewrite H1. reflexivity.
Qed.

Lemma onlyLedger_set t s : onlyLedger s (sqlite.set_posted_news t s).
Proof. destruct s; reflexivity. Qed.


Lemma onlyLedger_cache s s' :
  onlyLedger s s' -> sqlite.news_cache s' = sqlite.news_cache s.
Proof. intros ->. reflexivity. Qed.

(** An insert adds a row for its pair, unless the pair is there or the
    legacy primary key rejects it; it never adds a row for another pair. *)
Lemma existsb_insert_row t A C r :
  sqlite.pk_news_id t = false ->
  existsb (sqlite.same_pair A C)
          (sqlite.posted_rows (sqlite.insert_or_ignore_row t r))
  = existsb (sqlite.same_pair A C) (sqlite.posted_rows t) || sqlite.same_pair A C r.
Proof.
  intros Hpk. unfold sqlite.insert_or_ignore_row, sqlite.conflicts. rewrite Hpk.
  cbn [andb orb].
  destruct (existsb _ (sqlite.posted_rows t)) eqn:E at 1.
  - destruct (sqlite.same_pair A C r) eqn:Er; [|rewrite orb_false_r; reflexivity].
    apply same_pair_eq in Er as [<- <-]. rewrite orb_true_r.
    apply existsb_exists in E as (x & Hx & Hxp).
    apply andb_true_iff in Hxp as [_ Hxp].
    apply existsb_exists. exists x. split; assumption.
  - simpl. rewrite existsb_app. simpl. rewrite orb_false_r. reflexivity.
Qed.

Lemma existsb_insert_other t A C r :
  sqlite.same_pair A C r = false ->
  existsb (sqlite.same_pair A C)
          (sqlite.posted_rows (sqlite.insert_or_ignore_row t r))
  = existsb (sqlite.same_pair A C) (sqlite.posted_rows t).
Proof.
  intros Hr. unfold sqlite.insert_or_ignore_row.
  destruct (sqlite.conflicts _ _ _); [reflexivity|].
  simpl. rewrite existsb_app. simpl. rewrite Hr, !orb_false_r. reflexivity.
Qed.

(** The retry loop of mark_delivered. *)
Lemma markAttempts_cases env A C attempts :
  forall err w,
    let out := database.markAttempts env A C attempts err w in
    (db_calls (snd out) <= db_calls w + attempts)%nat
    /\ (forall e, fst out = Err e ->
                  db (snd out) = db w
                  /\ db_calls (snd out) = (db_calls w + attempts)%nat)
    /\ (fst out = Ok tt ->
        exists t p,
          sqlite.posted_news (db w) = Some t
          /\ db (snd out)
             = sqlite.set_posted_news
                 (Some (sqlite.insert_or_ignore_row t
                          {| sqlite.news_id := A; sqlite.channel_id := C;
                             sqlite.posted_at := p |})) (db w)).
Proof.
  induction attempts as [|k IH]; intros err w; cbn [database.markAttempts].
  - simpl. split; [lia|]. split; [intros; split; [reflexivity | lia] | discriminate].
  - unfold bind.
    destruct (db_fault env (db_calls w)) eqn:F.
    + rewrite (Exec_fault env _ w F).
      specialize (IH (Some ErrDriver) (tick w)). simpl in IH.
      destruct IH as (H1 & H2 & H3). split; [simpl in *; lia|]. split.
      * intros e He. destruct (H2 e He) as [Hd Hc]. split; [exact Hd | simpl in *; lia].
      * exact H3.
    + rewrite (Exec_ok env _ w F). unfold run_statement.
      unfold sqlite.insert_or_ignore_posted. cbn [db now tick].
      destruct (sqlite.posted_news (db w)) as [t|] eqn:Et.
      * simpl. split; [lia|]. split; [discriminate|]. intros _.
        eexists t, _. split; reflexivity.
      * specialize (IH (Some (ErrSQL "no such table: posted_news")) (tick w)).
        simpl in IH. destruct IH as (H1 & H2 & H3).
        split; [simpl in *; lia|]. split.
        -- intros e He. destruct (H2 e He) as [Hd Hc].
           split; [exact Hd | simpl in *; lia].
        -- intros Hok. destruct (H3 Hok) as (t & p & Ht & _). simpl in Ht. congruence.
Qed.

(** X7.  mark_delivered with its options: the insert is tried at most
    RetryCount + 1 times; an error is returned only after all of them have
    failed, the store unchanged; with a negative RetryCount the driver is
    never called; when nil is returned on a ledger without the legacy
    primary key the pair is in the ledger; and no other pair is added or
    removed. *)
Theorem mark_delivered_retries env A C options w :
  let out := database.MarkNewsAsPostedWithOptions env A C options w in
  let attempts := Z.to_nat (types.RetryCount options + 1) in
  (db_calls (snd out) <= db_calls w + attempts)%nat
  /\ (forall e, fst out = Err e ->
                db (snd out) = db w
                /\ db_calls (snd out) = (db_calls w + attempts)%nat)
  /\ (fst out = Ok tt ->
      forall t, sqlite.posted_news (db w) = Some t -> sqlite.pk_news_id t = false ->
                marked (db (snd out)) A C = true)
  /\ (forall A' C', A' <> A \/ C' <> C ->
                    marked (db (snd out)) A' C' = marked (db w) A' C').
Proof.
  intros out attempts.
  destruct (markAttempts_cases env A C attempts None w) as (H1 & H2 & H3).
  unfold database.MarkNewsAsPostedWithOptions in out. fold attempts in out.
  change (database.markAttempts env A C attempts None w) with out in H1, H2, H3.
  split; [exact H1|]. split; [exact H2|]. split.
  - intros Hok t Ht Hpk. destruct (H3 Hok) as (t0 & p & Ht0 & Hdb).
    assert (t0 = t) by congruence. subst t0.
    unfold marked. rewrite Hdb. simpl.
    rewrite (existsb_insert_row _ _ _ _ Hpk).
    replace (sqlite.same_pair A C _) with true
      by (symmetry; apply same_pair_eq; auto).
    apply orb_true_r.
  - intros A' C' Hother.
    destruct (fst out) as [[]|e] eqn:Eout.
    + destruct (H3 eq_refl) as (t & p & Ht & Hdb).
      unfold marked. rewrite Hdb, Ht. simpl.
      apply existsb_insert_other.
      apply not_true_is_false. rewrite same_pair_eq. simpl.
      intros [E1 E2]. destruct Hother as [Hn|Hn]; apply Hn; congruence.
    + destruct (H2 e eq_refl) as [Hdb _]. rewrite Hdb. reflexivity.
Qed.

Lemma X7_witness :
  marked (db (snd (database.MarkNewsAsPostedWithOptions (faultAt 17) 12345 "CH1"
                     types.DefaultDatabaseOptions readyWorld))) 12345 "CH1" = true.
Proof.
  apply (proj1 (proj2 (proj2 (mark_delivered_retries (faultAt 17) 12345 "CH1"
                                types.DefaultDatabaseOptions readyWorld)))
               eq_refl
               {| sqlite.schema_sql := sqlite.posted_news_sql;
                  sqlite.has_posted_at := true; sqlite.posted_rows := [] |}).
  - vm_compute. reflexivity.
  - vm_compute. reflexivity.
Defined.

(** With a negative RetryCount the insert is not tried at all; and on a
    ledger with the legacy primary key the insert of a second channel for
    the same article is ignored without an error. *)
Example no_attempt_without_retries :
  let options := {| types.UseBatch := false; types.IgnoreErrors := false;
                    types.RetryCount := -1; types.LogProgress := false |} in
  let out := database.MarkNewsAsPostedWithOptions quietEnv 7 "CH1" options readyWorld in
  is_ok (fst out) = false /\ db_calls (snd out) = db_calls readyWorld.
Proof. vm_compute. split; reflexivity. Qed.

Example legacy_key_drops_the_second_channel :
  let out := database.MarkNewsAsPosted quietEnv 1 "B" legacyWorld in
  fst out = Ok tt /\ marked (db (snd out)) 1 "B" = false.
Proof. vm_compute. split; reflexivity. Qed.

(** *** Batches *)

Lemma Exec_tx env stmt w : tx (snd (Exec env stmt w)) = tx w.
Proof.
  unfold Exec, bind, driver_call, ret, run_statement. simpl.
  destruct (db_fault env (db_calls w)); [reflexivity|]. simpl.
  destruct (stmt (now w) (db w)); reflexivity.
Qed.

Lemma markBatchChannels_tx env options item channelIDs :
  forall w, tx (snd (database.markBatchChannels env options item channelIDs w)) = tx w.
Proof.
  induction channelIDs as [|C rest IH]; intros w; cbn [database.markBatchChannels];
    [reflexivity|].
  unfold bind.
  pose proof (Exec_tx env (sqlite.insert_or_ignore_posted (types.ID item) C) w) as Htx.
  destruct (Exec env _ w) as [[u|e] w1]; simpl in Htx.
  - rewrite IH. exact Htx.
  - destruct (negb (types.IgnoreErrors options)); [exact Htx | rewrite IH; exact Htx].
Qed.

Lemma markBatch_tx env options newsItems channelIDs :
  forall w, tx (snd (database.markBatch env options newsItems channelIDs w)) = tx w.
Proof.
  induction newsItems as [|item rest IH]; intros w; cbn [database.markBatch];
    [reflexivity|].
  unfold bind.
  pose proof (markBatchChannels_tx env options item channelIDs w) as Htx.
  destruct (database.markBatchChannels env options item channelIDs w) as [[u|e] w1];
    simpl in Htx; [rewrite IH; exact Htx | exact Htx].
Qed.

Lemma cacheBatch_tx env options newsItems :
  forall w, tx (snd (database.cacheBatch env options newsItems w)) = tx w.
Proof.
  induction newsItems as [|item rest IH]; intros w; cbn [database.cacheBatch];
    [reflexivity|].
  unfold bind.
  pose proof (Exec_tx env (database.insertCache item) w) as Htx.
  destruct (Exec env _ w) as [[u|e] w1]; simpl in Htx.
  - rewrite IH. exact Htx.
  - destruct (negb (types.IgnoreErrors options)); [exact Htx | rewrite IH; exact Htx].
Qed.

Lemma Begin_cases env w :
  Begin env w
  = if db_fault env (db_calls w) then (Err ErrDriver, tick w)
    else (Ok tt, with_tx (Some (db w)) (tick w)).
Proof.
  unfold Begin, bind, driver_call, ret. destruct (db_fault env (db_calls w)); reflexivity.
Qed.

Lemma Commit_cases env w :
  Commit env w
  = if db_fault env (db_calls w)
    then (Err ErrDriver,
          match tx w with
          | Some s => with_tx None (with_db s (tick w))
          | None => tick w
          end)
    else (Ok tt, with_tx None (tick w)).
Proof.
  unfold Commit, bind, driver_call, ret.
  destruct (db_fault env (db_calls w)); [|reflexivity].
  simpl. destruct w as [d [s|] n rq c sn nw]; reflexivity.
Qed.

(** What a batch does between Begin and the deferred Rollback: an error
    leaves the store as it was at Begin. *)
Lemma transaction_atomic env (body : M (result unit)) w :
  (forall w1, tx (snd (body w1)) = tx w1) ->
  let out := (r <- Begin env ;;
              match r with
              | Err e => ret (Err (Errorf "failed to begin transaction" e))
              | Ok _ =>
                  deferRollback
                    (r <- body ;;
                     match r with
                     | Err e => ret (Err e)
                     | Ok _ => Commit env
                     end)
              end) w in
  forall e, fst out = Err e -> db (snd out) = db w.
Proof.
  intros Hbody out e. subst out.
  match goal with
  | |- fst ?x = _ -> _ =>
      assert (H : exists r w', x = (r, w') /\ (forall e, r = Err e -> db w' = db w))
  end.
  { unfold bind at 1. rewrite Begin_cases.
    destruct (db_fault env (db_calls w));
      [eexists _, _; split; [reflexivity | intros; reflexivity]|].
    unfold deferRollback. unfold bind at 1. unfold bind at 1.
    set (w1 := with_tx (Some (db w)) _).
    specialize (Hbody w1).
    destruct (body w1) as [[u|e1] w2]; simpl in Hbody.
    - rewrite Commit_cases, Hbody.
      destruct (db_fault env (db_calls w2)); unfold bind, Rollback, ret; simpl;
        eexists _, _; (split; [reflexivity|]); [intros; reflexivity | discriminate].
    - unfold ret at 1. unfold bind, Rollback, ret. rewrite Hbody. simpl.
      eexists _, _; split; [reflexivity | intros; reflexivity]. }
  destruct H as (r & w' & -> & H). simpl. apply H.
Qed.

(** X8.  The batch mode of mark_many_delivered and of the cache write is
    all or nothing: when the call returns an error, the store is as it was
    before the call. *)
Theorem batches_are_atomic env options w :
  types.UseBatch options = true ->
  (forall newsItems channelIDs e,
      fst (database.MarkMultipleNewsAsPosted env newsItems channelIDs options w) = Err e ->
      db (snd (database.MarkMultipleNewsAsPosted env newsItems channelIDs options w))
      = db w)
  /\ (forall newsItems e,
         fst (database.CacheNewsWithOptions env newsItems options w) = Err e ->
         db (snd (database.CacheNewsWithOptions env newsItems options w)) = db w).
Proof.
  intros Hbatch. split.
  - intros newsItems channelIDs e.
    unfold database.MarkMultipleNewsAsPosted. rewrite Hbatch. cbn [negb].
    apply (transaction_atomic env (database.markBatch env options newsItems channelIDs)).
    apply markBatch_tx.
  - intros newsItems e.
    unfold database.CacheNewsWithOptions. rewrite Hbatch. cbn [negb].
    destruct (_ =? 0)%Z; [discriminate|].
    apply (transaction_atomic env (database.cacheBatch env options newsItems)).
    apply cacheBatch_tx.
Qed.

(** The commit of a batch of two inserts fails: nothing is marked. *)
Lemma X8_witness :
  db (snd (database.MarkMultipleNewsAsPosted (faultAt 23)
             [cachedItem 101; cachedItem 102] ["CH1"]
             database.BulkDatabaseOptions cachedWorld))
  = db cachedWorld.
Proof.
  apply (proj1 (batches_are_atomic (faultAt 23) database.BulkDatabaseOptions
                  cachedWorld eq_refl)
               [cachedItem 101; cachedItem 102] ["CH1"] ErrDriver).
  vm_compute. reflexivity.
Defined.

(** What the property does not say.  With IgnoreErrors a batch whose
    second insert fails is committed without it and nil is returned; and
    the single statements of the other mode are not undone by a later
    error. *)
Example batch_ignores_a_failed_insert :
  let out := database.MarkMultipleNewsAsPosted (faultAt 22)
               [cachedItem 101; cachedItem 102] ["CH1"]
               database.BulkDatabaseOptions cachedWorld in
  fst out = Ok tt
  /\ marked (db (snd out)) 101 "CH1" = true
  /\ marked (db (snd out)) 102 "CH1" = false.
Proof. vm_compute. repeat split; reflexivity. Qed.

Example single_statements_are_not_undone :
  let out := database.MarkMultipleNewsAsPosted (faultAt 21)
               [cachedItem 101; cachedItem 102] ["CH1"] strictSingle cachedWorld in
  is_ok (fst out) = false
  /\ marked (db (snd out)) 101 "CH1" = true
  /\ marked (db (snd out)) 102 "CH1" = false.
Proof. vm_compute. repeat split; reflexivity. Qed.

(** The inserts of a batch on a working store. *)
Lemma markBatchChannels_marks env options item channelIDs :
  reliable env ->
  forall w t,
    sqlite.posted_news (db w) = Some t -> sqlite.pk_news_id t = false ->
    exists w' t',
      database.markBatchChannels env options item channelIDs w = (Ok tt, w')
      /\ sqlite.posted_news (db w') = Some t' /\ sqlite.pk_news_id t' = false
      /\ onlyLedger (db w) (db w') /\ sent w' = sent w
      /\ forall A C,
           existsb (sqlite.same_pair A C) (sqlite.posted_rows t')
           = existsb (sqlite.same_pair A C) (sqlite.posted_rows t)
             || ((types.ID item =? A)%Z && existsb (String.eqb C) channelIDs).
Proof.
  intros Hrel. induction channelIDs as [|C0 rest IH]; intros w t Ht Hpk;
    cbn [database.markBatchChannels].
  - exists w, t. split; [reflexivity|]. split; [exact Ht|]. split; [exact Hpk|].
    split; [apply onlyLedger_refl|]. split; [reflexivity|].
    intros A C. simpl. rewrite andb_false_r, orb_false_r. reflexivity.
  - unfold bind. rewrite (Exec_ok env _ w (Hrel _)).
    unfold run_statement, sqlite.insert_or_ignore_posted. cbn [db now tick].
    rewrite Ht.
    set (row := {| sqlite.news_id := types.ID item |}).
    set (t1 := sqlite.insert_or_ignore_row t row).
    set (w1 := with_db _ _).
    assert (Hpk1 : sqlite.pk_news_id t1 = false).
    { unfold t1, sqlite.insert_or_ignore_row, sqlite.pk_news_id.
      destruct (sqlite.conflicts _ _ _); exact Hpk. }
    destruct (IH w1 t1 eq_refl Hpk1) as (w' & t' & Hrun & Ht' & Hpk' & Hdb & Hs & Hex).
    exists w', t'. split; [exact Hrun|]. split; [exact Ht'|]. split; [exact Hpk'|].
    split; [|split; [exact Hs|]].
    + eapply onlyLedger_trans; [|exact Hdb]. apply onlyLedger_set.
    + intros A C. rewrite Hex. unfold t1.
      rewrite (existsb_insert_row _ _ _ _ Hpk).
      unfold sqlite.same_pair, row. cbn [sqlite.news_id sqlite.channel_id existsb].
      rewrite (String.eqb_sym C0 C).
      destruct (existsb _ (sqlite.posted_rows t)), (types.ID item =? A)%Z,
               (String.eqb C C0), (existsb (String.eqb C) rest); reflexivity.
Qed.

Lemma markBatch_marks env options newsItems channelIDs :
  reliable env ->
  forall w t,
    sqlite.posted_news (db w) = Some t -> sqlite.pk_news_id t = false ->
    exists w' t',
      database.markBatch env options newsItems channelIDs w = (Ok tt, w')
      /\ sqlite.posted_news (db w') = Some t'
      /\ onlyLedger (db w) (db w') /\ sent w' = sent w
      /\ forall A C,
           existsb (sqlite.same_pair A C) (sqlite.posted_rows t')
           = existsb (sqlite.same_pair A C) (sqlite.posted_rows t)
             || (hasID A newsItems && existsb (String.eqb C) channelIDs).
Proof.
  intros Hrel. induction newsItems as [|item rest IH]; intros w t Ht Hpk;
    cbn [database.markBatch].
  - exists w, t. split; [reflexivity|]. split; [exact Ht|].
    split; [apply onlyLedger_refl|]. split; [reflexivity|].
    intros A C. simpl. rewrite orb_false_r. reflexivity.
  - unfold bind.
    destruct (markBatchChannels_marks env options item channelIDs Hrel w t Ht Hpk)
      as (w1 & t1 & -> & Ht1 & Hpk1 & Hdb1 & Hs1 & Hex1).
    destruct (IH w1 t1 Ht1 Hpk1) as (w' & t' & Hrun & Ht' & Hdb & Hs & Hex).
    exists w', t'. split; [exact Hrun|]. split; [exact Ht'|].
    split; [eapply onlyLedger_trans; eassumption|]. split; [congruence|].
    intros A C. rewrite Hex, Hex1. cbn [hasID existsb]. fold (hasID A rest).
    destruct (existsb _ (sqlite.posted_rows t)), (types.ID item =? A)%Z,
             (existsb (String.eqb C) channelIDs), (hasID A rest); reflexivity.
Qed.

Lemma MarkMultipleNewsAsPosted_batch env newsItems channelIDs options w t :
  reliable env ->
  types.UseBatch options = true ->
  sqlite.posted_news (db w) = Some t ->
  sqlite.pk_news_id t = false ->
  exists w' t',
    database.MarkMultipleNewsAsPosted env newsItems channelIDs options w = (Ok tt, w')
    /\ sqlite.posted_news (db w') = Some t'
    /\ onlyLedger (db w) (db w')
    /\ sent w' = sent w
    /\ forall A C,
         existsb (sqlite.same_pair A C) (sqlite.posted_rows t')
         = existsb (sqlite.same_pair A C) (sqlite.posted_rows t)
           || (hasID A newsItems && existsb (String.eqb C) channelIDs).
Proof.
  intros Hrel Hbatch Ht Hpk.
  unfold database.MarkMultipleNewsAsPosted. rewrite Hbatch. cbn [negb].
  unfold bind at 1. rewrite Begin_cases, (Hrel _).
  unfold deferRollback. unfold bind at 1. unfold bind at 1.
  set (w1 := with_tx (Some (db w)) _).
  destruct (markBatch_marks env options newsItems channelIDs Hrel w1 t Ht Hpk)
    as (w2 & t2 & -> & Ht2 & Hdb2 & Hs2 & Hex2).
  rewrite Commit_cases, (Hrel _). unfold bind, Rollback, ret. simpl.
  exists (with_tx None (tick w2)), t2. split; [reflexivity|].
  split; [exact Ht2|]. split; [exact Hdb2|]. split; [exact Hs2 | exact Hex2].
Qed.

(** X9.  mark_many_delivered in batch mode on a working store whose ledger
    does not have the legacy primary key: nil is returned, the pairs of the
    ledger afterwards are the ones of before and every pair of one of the
    articles with one of the channels, and nothing but the ledger has
    changed. *)
Theorem batch_marks_the_product env newsItems channelIDs options w t :
  reliable env ->
  types.UseBatch options = true ->
  sqlite.posted_news (db w) = Some t ->
  sqlite.pk_news_id t = false ->
  let out := database.MarkMultipleNewsAsPosted env newsItems channelIDs options w in
  fst out = Ok tt
  /\ onlyLedger (db w) (db (snd out))
  /\ forall A C,
       marked (db (snd out)) A C
       = marked (db w) A C || (hasID A newsItems && existsb (String.eqb C) channelIDs).
Proof.
  intros Hrel Hbatch Ht Hpk out. subst out.
  destruct (MarkMultipleNewsAsPosted_batch env newsItems channelIDs options w t
              Hrel Hbatch Ht Hpk) as (w' & t' & -> & Ht' & Hdb & _ & Hex).
  simpl. split; [reflexivity|]. split; [exact Hdb|].
  intros A C. unfold marked. rewrite Ht', Ht. apply Hex.
Qed.

Lemma X9_witness :
  let out := database.MarkMultipleNewsAsPosted quietEnv
               [cachedItem 102; cachedItem 103] ["CH1"; "CH2"]
               database.BulkDatabaseOptions twoChannelsWorld in
  fst out = Ok tt
  /\ onlyLedger (db twoChannelsWorld) (db (snd out))
  /\ forall A C,
       marked (db (snd out)) A C
       = marked (db twoChannelsWorld) A C
         || (hasID A [cachedItem 102; cachedItem 103]
             && existsb (String.eqb C) ["CH1"; "CH2"]).
Proof.
  eapply (batch_marks_the_product quietEnv [cachedItem 102; cachedItem 103]
            ["CH1"; "CH2"] database.BulkDatabaseOptions twoChannelsWorld).
  - intros n. reflexivity.
  - reflexivity.
  - vm_compute. reflexivity.
  - vm_compute. reflexivity.
Defined.

(** *** Marking touches the ledger only *)








Lemma hasID_cache A rows :
  hasID A (map database.parseNewsRow (sqlite.order_by_id_desc rows))
  = existsb (fun r => (sqlite.c_id r =? A)%Z) rows.
Proof.
  apply eq_true_iff_eq. unfold hasID. rewrite !existsb_exists. split.
  - intros (item & Hin & Hid). apply in_map_iff in Hin as (r & <- & Hr).
    exists r. split; [apply In_order_by_id_desc; exact Hr | exact Hid].
  - intros (r & Hr & Hid). exists (database.parseNewsRow r).
    split; [apply in_map, In_order_by_id_desc; exact Hr | exact Hid].
Qed.

Lemma existsb_channel_ids C l :
  existsb (String.eqb C) (map sqlite.ch_id l)
  = existsb (fun r => String.eqb (sqlite.ch_id r) C) l.
Proof.
  induction l as [|r l IH]; simpl; [reflexivity|].
  rewrite IH, (String.eqb_sym C). reflexivity.
Qed.


(** ** Subscriptions: the other channels, and registration for an environment *)

Lemma find_without_other C C' l :
  C' <> C ->
  find (fun r => String.eqb (sqlite.ch_id r) C') (sqlite.without_channel C l)
  = find (fun r => String.eqb (sqlite.ch_id r) C') l.
Proof.
  intros Hne. induction l as [|r l IH]; simpl; [reflexivity|].
  destruct (String.eqb (sqlite.ch_id r) C) eqn:E; simpl.
  - apply String.eqb_eq in E.
    replace (String.eqb (sqlite.ch_id r) C') with false
      by (symmetry; apply String.eqb_neq; congruence).
    exact IH.
  - destruct (String.eqb (sqlite.ch_id r) C'); [reflexivity | exact IH].
Qed.

Lemma existsb_rows_of_others A C C' rows :
  C' <> C ->
  existsb (sqlite.same_pair A C')
          (filter (fun r => negb (String.eqb (sqlite.channel_id r) C)) rows)
  = existsb (sqlite.same_pair A C') rows.
Proof.
  intros Hne. induction rows as [|r rows IH]; simpl; [reflexivity|].
  destruct (String.eqb (sqlite.channel_id r) C) eqn:E; simpl.
  - apply String.eqb_eq in E.
    replace (sqlite.same_pair A C' r) with false; [exact IH|].
    symmetry. apply not_true_is_false. rewrite same_pair_eq. intros [_ H]. congruence.
  - rewrite IH. reflexivity.
Qed.

Lemma sameElsewhere_refl C s : sameElsewhere C s s.
Proof. repeat split. Qed.

(** X12.  remove_subscription(C) changes nothing for the others: whether
    it succeeds or fails, the subscription of every other channel, the
    ledger rows of every other channel and the cache are as before. *)
Theorem unsubscribe_leaves_the_others env C w :
  sameElsewhere C (db w) (db (snd (database.RemoveChannel env C w))).
Proof.
  unfold database.RemoveChannel.
  unfold bind at 1. rewrite Begin_cases.
  destruct (db_fault env (db_calls w)); [apply sameElsewhere_refl|].
  unfold deferRollback. unfold bind at 1. unfold bind at 1.
  destruct (db_fault env (db_calls (with_tx (Some (db w)) (tick w)))) eqn:F1.
  { rewrite (Exec_fault env _ _ F1). unfold ret at 1. unfold bind, Rollback, ret.
    simpl. apply sameElsewhere_refl. }
  rewrite (Exec_ok env _ _ F1). unfold run_statement, sqlite.delete_channel.
  unfold bind at 1.
  match goal with
  | |- context [Exec env ?stmt ?w1] =>
      destruct (db_fault env (db_calls w1)) eqn:F2;
      [rewrite (Exec_fault env stmt w1 F2) | rewrite (Exec_ok env stmt w1 F2)]
  end.
  { unfold ret at 1. unfold bind, Rollback, ret. simpl. apply sameElsewhere_refl. }
  unfold run_statement, sqlite.delete_posted_of_channel.
  cbn [db now with_db with_tx tick sqlite.posted_news sqlite.set_channels].
  destruct (sqlite.posted_news (db w)) as [t|] eqn:Et.
  2:{ unfold ret at 1. unfold bind, Rollback, ret. simpl. apply sameElsewhere_refl. }
  rewrite Commit_cases.
  match goal with
  | |- context [db_fault env ?n] => destruct (db_fault env n)
  end; unfold bind, Rollback, ret; simpl; [apply sameElsewhere_refl|].
  split; [|split; [|reflexivity]].
  - intros C' Hne. unfold sqlite.find_channel. simpl.
    apply find_without_other. exact Hne.
  - intros A C' Hne. unfold marked. simpl. rewrite Et.
    apply existsb_rows_of_others. exact Hne.
Qed.




(** ** Init on a store that is already initialised *)

Lemma Exec_same env stmt w :
  db_fault env (db_calls w) = false ->
  stmt (now w) (db w) = Ok (db w) ->
  Exec env stmt w = (Ok tt, tick w).
Proof.
  intros F H. rewrite (Exec_ok env stmt w F). unfold run_statement.
  cbn [now db tick]. rewrite H. reflexivity.
Qed.

Lemma has_column_not_empty cols name :
  sqlite.has_column cols name = true -> cols <> [].
Proof. intros H E. subst cols. discriminate. Qed.

Lemma initialised_parts s :
  initialised s = true ->
  sqlite.has_column (sqlite.channels_columns s) "environment" = true
  /\ (exists t, sqlite.posted_news s = Some t /\ sqlite.pk_news_id t = false)
  /\ sqlite.has_column (sqlite.news_cache_columns s) "tags" = true
  /\ sqlite.has_column (sqlite.news_cache_columns s) "updated_at" = true
  /\ sqlite.has_column (sqlite.news_cache_columns s) "content" = true.
Proof.
  unfold initialised. intros H.
  apply andb_true_iff in H as [H H5]. apply andb_true_iff in H as [H H4].
  apply andb_true_iff in H as [H H3]. apply andb_true_iff in H as [H1 H2].
  repeat split; try assumption.
  destruct (sqlite.posted_news s) as [t|]; [|discriminate].
  exists t. split; [reflexivity|]. apply negb_true_iff. exact H2.
Qed.

Lemma migrateDatabase_initialised env w :
  reliable env -> initialised (db w) = true ->
  exists w', database.migrateDatabase env w = (Ok tt, w')
             /\ db w' = db w /\ sent w' = sent w /\ tx w' = tx w
             /\ requests w' = requests w.
Proof.
  intros Hrel Hinit.
  destruct (initialised_parts _ Hinit) as (Henv & (t & Ht & Hpk) & Htags & Hupd & Hcont).
  unfold database.migrateDatabase.
  unfold bind at 1. rewrite (Query_ok env _ w (Hrel _)).
  unfold sqlite.count_news_cache_column at 1. rewrite Htags.
  unfold bind at 1. unfold ret at 1. cbv beta iota.
  unfold bind at 1. rewrite (Query_ok env _ _ (Hrel _)).
  unfold sqlite.count_news_cache_column at 1. cbn [db tick]. rewrite Hcont.
  unfold bind at 1. unfold ret at 1. cbv beta iota.
  unfold bind at 1. rewrite (Query_ok env _ _ (Hrel _)).
  unfold sqlite.count_news_cache_column at 1. cbv beta iota.
  unfold bind at 1. rewrite (Query_ok env _ _ (Hrel _)).
  unfold sqlite.select_posted_news_sql. cbn [db tick]. rewrite Ht. cbv beta iota.
  change (strings.Contains (sqlite.schema_sql t) "news_id INTEGER PRIMARY KEY")
    with (sqlite.pk_news_id t).
  rewrite Hpk.
  unfold bind at 1. unfold ret at 1. cbv beta iota.
  unfold bind at 1. rewrite (Query_ok env _ _ (Hrel _)).
  unfold sqlite.count_channels_column. cbn [db tick]. rewrite Henv.
  unfold ret. eexists. split; [reflexivity|]. repeat split.
Qed.

(** The statements of createTables on a store that has the tables. *)
Lemma createTables_initialised env w :
  reliable env -> initialised (db w) = true ->
  exists w', database.createTables env w = (Ok tt, w')
             /\ db w' = db w /\ sent w' = sent w /\ tx w' = tx w
             /\ requests w' = requests w.
Proof.
  intros Hrel Hinit.
  destruct (initialised_parts _ Hinit) as (Henv & (t & Ht & Hpk) & Htags & Hupd & Hcont).
  pose proof (has_column_not_empty _ _ Henv) as Hch.
  pose proof (has_column_not_empty _ _ Htags) as Hca.
  assert (S1 : sqlite.create_channels (db w) = Ok (db w))
    by (unfold sqlite.create_channels;
        destruct (sqlite.channels_columns (db w)); [congruence | reflexivity]).
  assert (S2 : sqlite.create_posted_news_if_not_exists (db w) = Ok (db w))
    by (unfold sqlite.create_posted_news_if_not_exists; rewrite Ht; reflexivity).
  assert (S3 : sqlite.create_news_cache (db w) = Ok (db w))
    by (unfold sqlite.create_news_cache;
        destruct (sqlite.news_cache_columns (db w)); [congruence | reflexivity]).
  assert (S4 : sqlite.create_posted_news_index (db w) = Ok (db w))
    by (unfold sqlite.create_posted_news_index; rewrite Ht; reflexivity).
  assert (S5 : sqlite.create_news_cache_index "tags" (db w) = Ok (db w)).
  { unfold sqlite.create_news_cache_index.
    destruct (sqlite.news_cache_columns (db w)) eqn:E; [congruence|].
    rewrite Htags. reflexivity. }
  assert (S6 : sqlite.create_news_cache_index "updated_at" (db w) = Ok (db w)).
  { unfold sqlite.create_news_cache_index.
    destruct (sqlite.news_cache_columns (db w)) eqn:E; [congruence|].
    rewrite Hupd. reflexivity. }
  unfold database.createTables. cbn [database.execAll].
  unfold bind at 1.
  unfold bind at 1. rewrite (Exec_same env _ w (Hrel _) S1).
  unfold bind at 1. rewrite (Exec_same env _ (tick w) (Hrel _) S2).
  unfold bind at 1. rewrite (Exec_same env _ (tick (tick w)) (Hrel _) S3).
  unfold bind at 1. rewrite (Exec_same env _ (tick (tick (tick w))) (Hrel _) S4).
  unfold bind at 1. rewrite (Exec_same env _ (tick (tick (tick (tick w)))) (Hrel _) S4).
  unfold bind at 1.
  rewrite (Exec_same env _ (tick (tick (tick (tick (tick w))))) (Hrel _) S5).
  unfold bind at 1.
  rewrite (Exec_same env _ (tick (tick (tick (tick (tick (tick w)))))) (Hrel _) S6).
  unfold ret at 1. unfold bind at 1.
  destruct (migrateDatabase_initialised env
              (tick (tick (tick (tick (tick (tick (tick w))))))) Hrel Hinit)
    as (w' & -> & Hdb & Hs & Htx & Hrq).
  exists w'. split; [reflexivity|]. repeat split; assumption.
Qed.

Lemma initDatabase_initialised env w :
  reliable env -> initialised (db w) = true ->
  exists w', database.initDatabase env w = (Ok tt, w')
             /\ db w' = db w /\ sent w' = sent w /\ tx w' = tx w
             /\ requests w' = requests w.
Proof.
  intros Hrel Hinit. unfold database.initDatabase. unfold bind at 1.
  destruct (createTables_initialised env w Hrel Hinit)
    as (w1 & -> & Hdb1 & Hs1 & Htx1 & Hrq1).
  unfold bind at 1.
  assert (Hinit1 : initialised (db w1) = true) by (rewrite Hdb1; exact Hinit).
  destruct (migrateDatabase_initialised env w1 Hrel Hinit1)
    as (w2 & -> & Hdb2 & Hs2 & Htx2 & Hrq2).
  exists w2. split; [reflexivity|]. repeat split; congruence.
Qed.

(** *** What init leaves alone *)









(** *** What a successful init establishes *)










(** ** The command that marks the whole cache as delivered *)

Lemma initialised_ledger s :
  initialised s = true ->
  exists t, sqlite.posted_news s = Some t /\ sqlite.pk_news_id t = false.
Proof. intros H. apply (initialised_parts s H). Qed.

Lemma markAllPosted_marks env dryRun w :
  reliable env -> initialised (db w) = true ->
  exists w',
    main.markAllPosted env dryRun w = (Ok tt, w')
    /\ onlyLedger (db w) (db w')
    /\ sent w' = sent w
    /\ forall A C,
         marked (db w') A C
         = marked (db w) A C
           || (negb dryRun && cached (db w) A && registered (db w) C).
Proof.
  intros Hrel Hinit. unfold main.markAllPosted.
  unfold bind at 1.
  destruct (initDatabase_initialised env w Hrel Hinit) as (w1 & -> & Hdb1 & Hs1 & _).
  unfold bind at 1. unfold database.GetRegisteredChannels. unfold bind at 1.
  rewrite (Query_ok env _ _ (Hrel _)). unfold sqlite.select_channel_ids, ret at 1.
  rewrite Hdb1.
  assert (Hnone : forall w2, db w2 = db w -> sent w2 = sent w ->
                    exists w', (Ok tt, w2) = (Ok tt, w')
                      /\ onlyLedger (db w) (db w') /\ sent w' = sent w
                      /\ forall A C, marked (db w') A C = marked (db w) A C || false).
  { intros w2 H2 H3. exists w2. split; [reflexivity|]. rewrite H2.
    split; [apply onlyLedger_refl|]. split; [exact H3|].
    intros; rewrite orb_false_r; reflexivity. }
  destruct (Z.of_nat (List.length (sqlite.order_by_id
                                     (map sqlite.ch_id (sqlite.channels (db w))))) =? 0)%Z
    eqn:Ech.
  { unfold ret. destruct (Hnone (tick w1) Hdb1 Hs1) as (w' & Heq & H1 & H2 & H3).
    exists w'. split; [exact Heq|]. split; [exact H1|]. split; [exact H2|].
    intros A C. rewrite H3. f_equal.
    assert (Hreg : registered (db w) C = false).
    { rewrite length_order_by_id in Ech.
      unfold registered. destruct (sqlite.channels (db w)); [reflexivity|].
      simpl in Ech. discriminate Ech. }
    rewrite Hreg, andb_false_r. reflexivity. }
  unfold bind at 1. unfold database.GetAllCachedNews. unfold bind at 1.
  rewrite (Query_ok env _ _ (Hrel _)).
  unfold sqlite.select_all_cache, database.parseNewsRows, ret at 1. cbn [db tick].
  rewrite Hdb1.
  set (newsItems := map database.parseNewsRow _).
  destruct (Z.of_nat (List.length newsItems) =? 0)%Z eqn:Enews.
  { unfold ret. destruct (Hnone (tick (tick w1)) Hdb1 Hs1) as (w' & Heq & H1 & H2 & H3).
    exists w'. split; [exact Heq|]. split; [exact H1|]. split; [exact H2|].
    intros A C. rewrite H3. f_equal.
    assert (Hc : cached (db w) A = false).
    { unfold cached. rewrite <- hasID_cache. fold newsItems.
      destruct newsItems; [reflexivity|]. simpl in Enews. discriminate Enews. }
    rewrite Hc, andb_false_r. reflexivity. }
  destruct dryRun.
  { unfold ret. destruct (Hnone (tick (tick w1)) Hdb1 Hs1) as (w' & Heq & H1 & H2 & H3).
    exists w'. split; [exact Heq|]. split; [exact H1|]. split; [exact H2|].
    intros A C. rewrite H3. reflexivity. }
  destruct (initialised_ledger _ Hinit) as (t & Ht & Hpk).
  unfold bind at 1.
  assert (Ht2 : sqlite.posted_news (db (tick (tick w1))) = Some t)
    by (cbn [db tick]; rewrite Hdb1; exact Ht).
  assert (Hmarks : exists w3 t3,
             database.MarkMultipleNewsAsPosted env newsItems
               (sqlite.order_by_id (map sqlite.ch_id (sqlite.channels (db w))))
               database.BulkDatabaseOptions
               (tick (tick w1)) = (Ok tt, w3)
             /\ sqlite.posted_news (db w3) = Some t3
             /\ onlyLedger (db w) (db w3) /\ sent w3 = sent w
             /\ forall A C,
                  existsb (sqlite.same_pair A C) (sqlite.posted_rows t3)
                  = existsb (sqlite.same_pair A C) (sqlite.posted_rows t)
                    || (hasID A newsItems
                        && existsb (String.eqb C)
                                   (sqlite.order_by_id
                                      (map sqlite.ch_id (sqlite.channels (db w)))))).
  { destruct (MarkMultipleNewsAsPosted_batch env newsItems
                (sqlite.order_by_id (map sqlite.ch_id (sqlite.channels (db w))))
                database.BulkDatabaseOptions
                (tick (tick w1)) t Hrel eq_refl Ht2 Hpk)
      as (w3 & t3 & Hrun & Ht3 & Hdb3 & Hs3 & Hex3).
    exists w3, t3. split; [exact Hrun|]. split; [exact Ht3|].
    cbn [db tick sent] in Hdb3, Hs3. rewrite Hdb1 in Hdb3.
    split; [exact Hdb3|]. split; [congruence | exact Hex3]. }
  destruct Hmarks as (w3 & t3 & -> & Ht3 & Hdb3 & Hs3 & Hex3).
  unfold ret. exists w3. split; [reflexivity|]. split; [exact Hdb3|].
  split; [exact Hs3|].
  intros A C. unfold marked at 1 2. rewrite Ht3, Ht, Hex3.
  unfold newsItems.
  rewrite hasID_cache, existsb_order_by_id, existsb_channel_ids. reflexivity.
Qed.

(** X11.  The command markAllPosted on an initialised, working store:
    unless it is a dry run, afterwards every article of the cache is in the
    ledger for every registered channel, nothing but the ledger has changed
    and no pair was taken out; so no later run of ticks and catch-ups posts
    an article that was in the cache to a channel that was registered.  A
    dry run changes nothing. *)
Theorem markAllPosted_silences_the_cache env dryRun w :
  reliable env ->
  initialised (db w) = true ->
  let out := main.markAllPosted env dryRun w in
  fst out = Ok tt
  /\ onlyLedger (db w) (db (snd out))
  /\ (forall A C,
         marked (db (snd out)) A C
         = marked (db w) A C
           || (negb dryRun && cached (db w) A && registered (db w) C))
  /\ (dryRun = false ->
      forall env' cfg ops A C,
        cached (db w) A = true -> registered (db w) C = true ->
        posts A C (snd (run env' cfg ops (snd out))) = posts A C (snd out)).
Proof.
  intros Hrel Hinit out.
  destruct (markAllPosted_marks env dryRun w Hrel Hinit) as (w' & Hrun & Hdb & Hs & Hm).
  subst out. rewrite Hrun. cbn [fst snd].
  split; [reflexivity|]. split; [exact Hdb|]. split; [exact Hm|].
  intros Hdry env' cfg ops A C HA HC.
  assert (Hmarked : marked (db w') A C = true)
    by (rewrite Hm, Hdry, HA, HC; apply orb_true_r).
  destruct (run_advances env' cfg ops w') as (_ & _ & new & Hsent & Hn).
  apply (posts_unchanged A C _ _ new Hsent).
  eapply Forall_impl; [|exact Hn].
  intros p [Hp _] [E1 E2]. subst. congruence.
Qed.

Lemma X11_witness :
  let out := main.markAllPosted quietEnv false twoChannelsWorld in
  fst out = Ok tt
  /\ onlyLedger (db twoChannelsWorld) (db (snd out))
  /\ (forall A C,
         marked (db (snd out)) A C
         = marked (db twoChannelsWorld) A C
           || (negb false && cached (db twoChannelsWorld) A
               && registered (db twoChannelsWorld) C))
  /\ (false = false ->
      forall env' cfg ops A C,
        cached (db twoChannelsWorld) A = true ->
        registered (db twoChannelsWorld) C = true ->
        posts A C (snd (run env' cfg ops (snd out))) = posts A C (snd out)).
Proof.
  apply (markAllPosted_silences_the_cache quietEnv false twoChannelsWorld).
  - intros n. reflexivity.
  - vm_compute. reflexivity.
Defined.

(** After the command the three articles of the upstream, which are in
    the cache, are not posted; without it they are. *)
Example nothing_to_post_after_markAllPosted :
  sent (snd (run smallFeedEnv sampleConfig [Tick 2000; CatchUp 3000 7]
                 (snd (main.markAllPosted quietEnv false twoChannelsWorld)))) = []
  /\ List.length
       (sent (snd (run smallFeedEnv sampleConfig [Tick 2000] twoChannelsWorld)))
     = 4%nat.
Proof. vm_compute. split; reflexivity. Qed.

(** ** The cache *)

Lemma Join_empty names :
  names <> [] -> names <> [""] -> strings.Join names "," <> "".
Proof.
  unfold strings.Join. destruct names as [|p [|q rest]]; intros H1 H2.
  - congruence.
  - simpl. intros E. subst p. congruence.
  - cbn [String.concat]. destruct p; discriminate.
Qed.

Lemma column_reads_back names :
  readsBack names ->
  (if String.eqb (strings.Join names ",") "" then []
   else strings.Split (strings.Join names ",") ",") = names.
Proof.
  intros [-> | [Hst Hne]]; [reflexivity|].
  destruct (String.eqb _ "") eqn:E.
  - apply String.eqb_eq in E. exfalso.
    apply (Join_empty names); [apply Hst | exact Hne | exact E].
  - apply Split_Join. exact Hst.
Qed.

Lemma parse_cached_row item fetched :
  readsBack (types.Tags item) -> readsBack (types.Platforms item) ->
  database.parseNewsRow (database.cacheRow item fetched) = stored item.
Proof.
  intros Ht Hp. unfold database.parseNewsRow, database.cacheRow, stored. simpl.
  rewrite (column_reads_back _ Ht), (column_reads_back _ Hp). reflexivity.
Qed.

Lemma onlyCache_refl s : onlyCache s s.
Proof. destruct s; reflexivity. Qed.

(** The single writes of the cache on a working store. *)
Lemma cacheSingle_writes env options newsItems :
  reliable env -> (0 <= types.RetryCount options)%Z ->
  forall w,
    exists w',
      database.cacheSingle env options newsItems w = (Ok tt, w')
      /\ db w' = sqlite.set_news_cache
                   (fun _ => writeAll newsItems (now w) (sqlite.news_cache (db w)))
                   (db w)
      /\ now w' = now w /\ sent w' = sent w.
Proof.
  intros Hrel Hretry. induction newsItems as [|item rest IH]; intros w;
    cbn [database.cacheSingle].
  - exists w. split; [reflexivity|]. unfold writeAll. simpl.
    split; [destruct (db w); reflexivity | split; reflexivity].
  - unfold bind at 1.
    destruct (Z.to_nat (types.RetryCount options + 1)) as [|k] eqn:Ek; [lia|].
    cbn [database.cacheAttempts]. unfold bind at 1.
    rewrite (Exec_reliable env _ w Hrel).
    unfold database.insertCache, sqlite.insert_or_replace_cache.
    unfold ret at 1.
    destruct (IH (with_db (sqlite.set_news_cache
                             (fun l => (sqlite.without_article
                                          (sqlite.c_id (database.cacheRow item (now w))) l
                                        ++ [database.cacheRow item (now w)])%list)
                             (db w)) (tick w)))
      as (w' & Hrun & Hdb & Hnow & Hsent).
    exists w'. split; [exact Hrun|]. split; [|split; assumption].
    rewrite Hdb. reflexivity.
Qed.

Lemma In_writeAll_old newsItems fetched :
  forall rows r,
    In r rows -> hasID (sqlite.c_id r) newsItems = false ->
    In r (writeAll newsItems fetched rows).
Proof.
  unfold writeAll. induction newsItems as [|item rest IH]; intros rows r Hr Hid;
    simpl; [exact Hr|].
  cbn [hasID existsb] in Hid. apply orb_false_iff in Hid as [Hne Hrest].
  apply IH; [|exact Hrest].
  apply in_or_app. left. unfold sqlite.without_article.
  apply filter_In. split; [exact Hr|].
  rewrite Z.eqb_sym, Hne. reflexivity.
Qed.

Lemma In_writeAll_new newsItems fetched :
  forall rows item,
    NoDup (map types.ID newsItems) -> In item newsItems ->
    In (database.cacheRow item fetched) (writeAll newsItems fetched rows).
Proof.
  induction newsItems as [|x rest IH]; intros rows item Hnd Hin; [destruct Hin|].
  inversion Hnd as [|? ? Hnotin Hnd']; subst.
  unfold writeAll. simpl. fold (writeAll rest fetched).
  destruct Hin as [-> | Hin].
  - apply In_writeAll_old; [apply in_or_app; right; left; reflexivity|].
    simpl. unfold hasID.
    destruct (existsb _ rest) eqn:E; [|reflexivity].
    apply existsb_exists in E as (y & Hy & Hid). apply Z.eqb_eq in Hid.
    exfalso. apply Hnotin. rewrite <- Hid. apply in_map. exact Hy.
  - apply IH; assumption.
Qed.

(** X14.  The cache, written by CacheNews and read by GetAllCachedNews, on
    a working store: the write succeeds; every article of the list (their
    ids being distinct) comes back with its id, title, summary, content,
    date and thumbnail, and with its tags and platforms when these are
    names without commas; the images are not kept.  The articles that were
    in the cache under other ids are still returned. *)
Theorem cache_round_trip env newsItems w :
  reliable env ->
  NoDup (map types.ID newsItems) ->
  let out := database.CacheNews env newsItems w in
  fst out = Ok tt
  /\ exists cachedItems,
       fst (database.GetAllCachedNews env (snd out)) = Ok cachedItems
       /\ (forall item, In item newsItems ->
                        readsBack (types.Tags item) ->
                        readsBack (types.Platforms item) ->
                        In (stored item) cachedItems)
       /\ (forall old, fst (database.GetAllCachedNews env w) = Ok old ->
                       forall item, In item old ->
                                    hasID (types.ID item) newsItems = false ->
                                    In item cachedItems).
Proof.
  intros Hrel Hnd out.
  assert (H : exists w',
             out = (Ok tt, w')
             /\ sqlite.news_cache (db w')
                = writeAll newsItems (now w) (sqlite.news_cache (db w))).
  { subst out. unfold database.CacheNews, database.CacheNewsWithOptions.
    destruct (Z.of_nat (List.length newsItems) =? 0)%Z eqn:E.
    - exists w. split; [reflexivity|].
      destruct newsItems; [reflexivity | simpl in E; discriminate].
    - cbn [types.UseBatch types.DefaultDatabaseOptions negb].
      destruct (cacheSingle_writes env types.DefaultDatabaseOptions newsItems Hrel
                  ltac:(simpl; lia) w) as (w' & Hrun & Hdb & _).
      exists w'. split; [exact Hrun|]. rewrite Hdb. reflexivity. }
  destruct H as (w' & -> & Hcache). cbn [fst snd].
  split; [reflexivity|].
  unfold database.GetAllCachedNews, bind.
  rewrite !(Query_ok env _ _ (Hrel _)).
  unfold sqlite.select_all_cache, database.parseNewsRows, ret.
  eexists. split; [reflexivity|]. split.
  - intros item Hin Ht Hp.
    rewrite <- (parse_cached_row item (now w) Ht Hp).
    apply in_map, In_order_by_id_desc. rewrite Hcache.
    apply In_writeAll_new; assumption.
  - intros old Hold item Hitem Hid. cbn [fst] in Hold. inversion Hold; subst old.
    apply in_map_iff in Hitem as (r & <- & Hr).
    apply in_map, In_order_by_id_desc. rewrite Hcache.
    apply In_writeAll_old; [apply In_order_by_id_desc; exact Hr | exact Hid].
Qed.

Lemma X14_witness :
  let out := database.CacheNews quietEnv fetchedArticles readyWorld in
  fst out = Ok tt
  /\ exists cachedItems,
       fst (database.GetAllCachedNews quietEnv (snd out)) = Ok cachedItems
       /\ (forall item, In item fetchedArticles ->
                        readsBack (types.Tags item) ->
                        readsBack (types.Platforms item) ->
                        In (stored item) cachedItems)
       /\ (forall old, fst (database.GetAllCachedNews quietEnv readyWorld) = Ok old ->
                       forall item, In item old ->
                                    hasID (types.ID item) fetchedArticles = false ->
                                    In item cachedItems).
Proof.
  apply (cache_round_trip quietEnv fetchedArticles readyWorld).
  - intros n. reflexivity.
  - vm_compute. repeat constructor; simpl; intuition discriminate.
Defined.

(** What does not come back: a list of one empty name is read as no
    name, and a name with a comma as two names. *)
Example names_that_do_not_read_back :
  types.Tags (database.parseNewsRow
                (database.cacheRow (news.withTags (cachedItem 1) [""]) 0)) = []
  /\ types.Tags (database.parseNewsRow
                   (database.cacheRow (news.withTags (cachedItem 1) ["a,b"]) 0))
     = ["a"; "b"].
Proof. vm_compute. split; reflexivity. Qed.

(** ** What FetchNews returns, and the window of the catch-up *)

Section Fetched.

Variable env : Env.
Variable tag : string.
Variable Q : types.NewsItem -> Prop.

(** Every page, as FetchNews processes it, satisfies [Q]. *)
Hypothesis pages :
  forall n req resp newsItems,
    http_Get env n req = Ok resp ->
    news.decodeResponse (lib env) resp = Ok newsItems ->
    Forall Q (news.cleanNewsItemContent (lib env)
                (news.processNewsItemTags newsItems tag)).

Lemma fetchPage_Forall count itemLimit allNews offset w :
  Forall Q allNews ->
  match fst (news.fetchPage env tag count itemLimit allNews offset w) with
  | news.Return (Ok l) => Forall Q l
  | news.Return (Err _) => True
  | news.Continue l _ => Forall Q l
  end.
Proof.
  intros Hall. unfold news.fetchPage.
  destruct (negb _); [exact Hall|].
  unfold bind, news.Get.
  destruct (http_Get env (http_calls w) _) as [resp|e] eqn:Eget; [|exact I].
  destruct (negb _); [exact I|].
  destruct (news.decodeResponse (lib env) resp) as [newsItems|e] eqn:Edec; [|exact I].
  pose proof (pages _ _ _ _ Eget Edec) as Hpage.
  destruct (_ =? 0)%Z; simpl; apply Forall_app; split; assumption.
Qed.

Lemma fetchPages_Forall count itemLimit allNews offset w :
  Forall Q allNews ->
  forall l, fst (news.fetchPages env tag count itemLimit allNews offset w) = Ok l ->
            Forall Q l.
Proof.
  funelim (news.fetchPages env tag count itemLimit allNews offset w);
    intros Hall l Hl.
  - pose proof (fetchPage_Forall count itemLimit allNews offset w Hall) as Hp.
    rewrite e in Hp. simpl in Hp, Hl. subst r. exact Hp.
  - pose proof (fetchPage_Forall count itemLimit allNews offset w Hall) as Hp.
    rewrite Heq in Hp. simpl in Hp. eapply H; [exact Hp | exact Hl].
Qed.

Lemma FetchNews_Forall count options w :
  forall l, fst (news.FetchNews env tag count options w) = Ok l -> Forall Q l.
Proof.
  intros l. unfold news.FetchNews.
  destruct (_ || _).
  - unfold bind, news.Get.
    destruct (http_Get env (http_calls w) _) as [resp|e] eqn:Eget; [|discriminate].
    destruct (negb _); [discriminate|].
    destruct (news.decodeResponse (lib env) resp) as [newsItems|e] eqn:Edec;
      [|discriminate].
    simpl. intros H. inversion H; subst l. exact (pages _ _ _ _ Eget Edec).
  - apply fetchPages_Forall. constructor.
Qed.

End Fetched.

Lemma processed_tags lib tag newsItems :
  tag <> "" ->
  Forall (fun item => In tag (types.Tags item))
         (news.cleanNewsItemContent lib (news.processNewsItemTags newsItems tag)).
Proof.
  intros Htag. unfold news.cleanNewsItemContent, news.processNewsItemTags.
  apply Forall_forall. intros item Hin.
  apply in_map_iff in Hin as (x & <- & Hx).
  apply in_map_iff in Hx as (y & <- & _).
  assert (Hy : In tag (types.Tags
                         (if negb (existsb (fun existingTag => String.eqb existingTag tag)
                                           (types.Tags y))
                             && negb (String.eqb tag "")
                          then news.withTags y (types.Tags y ++ [tag])%list else y))).
  { destruct (existsb _ (types.Tags y)) eqn:E; simpl.
    - apply existsb_exists in E as (t & Ht & Heq). apply String.eqb_eq in Heq.
      subst t. exact Ht.
    - apply String.eqb_neq in Htag. rewrite Htag. simpl.
      apply in_or_app. right. left. reflexivity. }
  destruct (negb (String.eqb (types.Content _) "")); exact Hy.
Qed.

(** X15.  Every article that FetchNews returns for a tag carries the
    tag, with or without pagination, whether or not the upstream listed it
    among the tags of the article. *)
Theorem fetched_articles_carry_the_tag env tag count options w newsItems :
  tag <> "" ->
  fst (news.FetchNews env tag count options w) = Ok newsItems ->
  Forall (fun item => In tag (types.Tags item)) newsItems.
Proof.
  intros Htag. apply FetchNews_Forall.
  intros n req resp items _ _. apply processed_tags. exact Htag.
Qed.

Lemma X15_witness :
  Forall (fun item => In "patch-notes" (types.Tags item))
         (news.cleanNewsItemContent sampleLib
            (news.processNewsItemTags fetchedArticles "patch-notes")).
Proof.
  apply (fetched_articles_carry_the_tag smallFeedEnv "patch-notes" 10 pagesOfTwo
           freshWorld).
  - discriminate.
  - vm_compute. reflexivity.
Defined.

(** *** The window of the catch-up *)

Lemma appends_refl P w : appends P w w.
Proof. exists []. split; [symmetry; apply app_nil_r | constructor]. Qed.

Lemma appends_trans P w1 w2 w3 : appends P w1 w2 -> appends P w2 w3 -> appends P w1 w3.
Proof.
  intros (n1 & H1 & F1) (n2 & H2 & F2). exists (n1 ++ n2)%list.
  split; [rewrite H2, H1, app_assoc; reflexivity | apply Forall_app; split; assumption].
Qed.

Lemma same_sent_appends P w w' : sent w' = sent w -> appends P w w'.
Proof.
  intros H. exists []. split; [rewrite H; symmetry; apply app_nil_r | constructor].
Qed.

Lemma processed_keeps lib tag (Q : types.NewsItem -> Prop) newsItems :
  (forall item tags, Q item -> Q (news.withTags item tags)) ->
  (forall item content, Q item -> Q (news.withContent item content)) ->
  Forall Q newsItems ->
  Forall Q (news.cleanNewsItemContent lib (news.processNewsItemTags newsItems tag)).
Proof.
  intros Ht Hc Hall. unfold news.cleanNewsItemContent, news.processNewsItemTags.
  rewrite Forall_forall in *. intros item Hin.
  apply in_map_iff in Hin as (x & <- & Hx).
  apply in_map_iff in Hx as (y & <- & Hy).
  specialize (Hall y Hy).
  assert (Q (if negb (existsb (fun existingTag => String.eqb existingTag tag)
                               (types.Tags y))
                && negb (String.eqb tag "")
             then news.withTags y (types.Tags y ++ [tag])%list else y))
    by (destruct (_ && _); [apply Ht|]; exact Hall).
  destruct (negb (String.eqb (types.Content _) "")); [apply Hc|]; assumption.
Qed.

Lemma filterNewsByPlatforms_Forall (Q : types.NewsItem -> Prop) lib newsItems platforms :
  Forall Q newsItems -> Forall Q (news.filterNewsByPlatforms lib newsItems platforms).
Proof.
  intros H. unfold news.filterNewsByPlatforms.
  destruct (_ =? 0)%Z; [exact H|].
  rewrite Forall_forall in *. intros item Hin. apply filter_In in Hin as [Hin _].
  apply H. exact Hin.
Qed.

Section Window.

Variable env : Env.
Variable cfg : types.Config.
Variable cutoff : Z.
Variable A : Z.

Lemma catchUpItems_window C newsItems :
  Forall (outdated cutoff A) newsItems ->
  forall w, appends (notOfArticle A) w
                    (snd (news.catchUpItems env cfg cutoff C newsItems w)).
Proof.
  induction newsItems as [|item rest IH]; intros Hall w;
    cbn [news.catchUpItems]; [apply appends_refl|].
  inversion Hall as [|? ? Hitem Hrest]; subst.
  destruct (types.Updated item <? cutoff)%Z eqn:Eold; [apply IH; exact Hrest|].
  assert (Hid : types.ID item <> A).
  { intros E. specialize (Hitem E). apply Z.ltb_ge in Eold. lia. }
  unfold bind at 1.
  destruct (IsNewsPosted_marked env (types.ID item) C w) as [-> | (err & ->)];
    [|eapply appends_trans; [|apply IH; exact Hrest];
      apply same_sent_appends; reflexivity].
  destruct (marked (db w) (types.ID item) C);
    [eapply appends_trans; [|apply IH; exact Hrest];
     apply same_sent_appends; reflexivity|].
  unfold bind at 1.
  pose proof (Quiet_IsDuplicate env cfg C item (tick w)) as (_ & _ & Hs0).
  destruct (news.IsDuplicateInRecentMessages env cfg C item (tick w)) as [dup w0].
  simpl in Hs0.
  assert (H0 : appends (notOfArticle A) w w0) by (apply same_sent_appends; exact Hs0).
  destruct dup; [eapply appends_trans; [exact H0 | apply IH; exact Hrest]|].
  unfold bind at 1. unfold news.PostNewsToChannel at 1.
  destruct (ChannelMessageSendEmbed env _ C _) as [err|].
  - eapply appends_trans; [exact H0|].
    eapply appends_trans; [|apply IH; exact Hrest].
    apply same_sent_appends. reflexivity.
  - unfold bind at 1.
    match goal with
    | |- context [database.MarkNewsAsPosted env ?A' ?C' ?w1] =>
        pose proof (MarkNewsAsPosted_marking env A' C' w1) as (_ & _ & Hs2);
        destruct (database.MarkNewsAsPosted env A' C' w1) as [r w2]
    end.
    simpl in Hs2.
    eapply appends_trans; [exact H0|].
    eapply appends_trans; [|apply IH; exact Hrest].
    exists [(C, types.ID item)]. split; [rewrite Hs2; reflexivity|].
    constructor; [exact Hid | constructor].
Qed.

Lemma catchUpChannels_window newsItems channels :
  Forall (outdated cutoff A) newsItems ->
  forall w, appends (notOfArticle A) w
                    (snd (news.catchUpChannels env cfg cutoff newsItems channels w)).
Proof.
  intros Hall. induction channels as [|C rest IH]; intros w;
    cbn [news.catchUpChannels]; [apply appends_refl|].
  unfold bind at 1.
  destruct (GetChannelPlatforms_cases env C w) as [-> | (err & ->)].
  - unfold bind at 1.
    match goal with
    | |- context [news.catchUpItems env cfg cutoff C ?l ?w1] =>
        pose proof (catchUpItems_window C l
                      (filterNewsByPlatforms_Forall _ _ _ _ Hall) w1) as H1;
        destruct (news.catchUpItems env cfg cutoff C l w1) as [u w2]
    end.
    simpl in H1.
    eapply appends_trans; [|apply IH].
    eapply appends_trans; [|exact H1]. apply same_sent_appends. reflexivity.
  - eapply appends_trans; [|apply IH]. apply same_sent_appends. reflexivity.
Qed.

Hypothesis upstream : serves env (outdated cutoff A).

Lemma catchUpTags_window channels tags :
  forall w, appends (notOfArticle A) w
                    (snd (news.catchUpTags env cfg cutoff channels tags w)).
Proof.
  induction tags as [|tag rest IH]; intros w;
    cbn [news.catchUpTags]; [apply appends_refl|].
  unfold bind at 1.
  pose proof (Quiet_FetchNews env tag (types.PollCount cfg * 10)%Z
                news.BulkFetchOptions w) as (_ & _ & Hs).
  pose proof (FetchNews_Forall env tag (outdated cutoff A)
                (fun n req resp items Hget Hdec =>
                   processed_keeps (lib env) tag (outdated cutoff A) items
                     (fun item tags H => H) (fun item content H => H)
                     (upstream n req resp items Hget Hdec))
                (types.PollCount cfg * 10)%Z news.BulkFetchOptions w) as Hq.
  destruct (news.FetchNews env tag (types.PollCount cfg * 10)%Z
              news.BulkFetchOptions w) as [[newsItems|err] w1]; simpl in Hs, Hq.
  - unfold bind at 1.
    pose proof (catchUpChannels_window newsItems channels (Hq _ eq_refl) w1) as H1.
    destruct (news.catchUpChannels env cfg cutoff newsItems channels w1) as [u w2].
    simpl in H1.
    eapply appends_trans; [|apply IH].
    eapply appends_trans; [|exact H1]. apply same_sent_appends. exact Hs.
  - eapply appends_trans; [|apply IH]. apply same_sent_appends. exact Hs.
Qed.

End Window.

(** X16.  The window of the catch-up: an article that the upstream only
    serves with a date before the cut-off (the start of the run minus the
    given number of days) is not posted by the catch-up, to any channel. *)
Theorem catch_up_window env cfg days w A C :
  serves env (outdated (now w - days * 24 * 3600) A) ->
  posts A C (snd (news.CatchUpUnpostedNews env cfg days w)) = posts A C w.
Proof.
  intros Hup.
  assert (H : appends (notOfArticle A) w
                      (snd (news.CatchUpUnpostedNews env cfg days w))).
  { unfold news.CatchUpUnpostedNews. unfold bind at 1.
    pose proof (Quiet_GetRegisteredChannels env w) as (_ & _ & Hs).
    assert (Hnow : now (snd (database.GetRegisteredChannels env w)) = now w).
    { unfold database.GetRegisteredChannels, bind.
      destruct (db_fault env (db_calls w)) eqn:F;
        [rewrite (Query_fault env _ w F) | rewrite (Query_ok env _ w F)];
        reflexivity. }
    destruct (database.GetRegisteredChannels env w) as [[channels|err] w1];
      simpl in Hs, Hnow; [|apply same_sent_appends; exact Hs].
    destruct (_ =? 0)%Z; [apply same_sent_appends; exact Hs|].
    eapply appends_trans; [apply same_sent_appends; exact Hs|].
    rewrite Hnow. apply catchUpTags_window. exact Hup. }
  destruct H as (new & Hs & Hn).
  apply (posts_unchanged A C _ _ new Hs).
  eapply Forall_impl; [|exact Hn].
  intros p Hp [_ E]. exact (Hp E).
Qed.

(** The catch-up starts eight days after the date of the article, with a
    window of seven days. *)
Lemma X16_witness :
  posts 103 "CH1"
        (snd (news.CatchUpUnpostedNews oneArticleEnv sampleConfig 7
                (with_now 63841564800 subscribedWorld)))
  = posts 103 "CH1" (with_now 63841564800 subscribedWorld).
Proof.
  apply (catch_up_window oneArticleEnv sampleConfig 7
           (with_now 63841564800 subscribedWorld) 103 "CH1").
  intros n req resp newsItems Hget Hdec.
  inversion Hget; subst resp. vm_compute in Hdec. inversion Hdec; subst newsItems.
  constructor; [|constructor]. intros _. vm_compute. reflexivity.
Defined.

(** Within the window the same article is posted. *)
Example catch_up_within_the_window :
  sent (snd (news.CatchUpUnpostedNews oneArticleEnv sampleConfig 7
               (with_now 63841300000 subscribedWorld)))
  = [("CH1", 103%Z)].
Proof. vm_compute. reflexivity. Qed.

(** ** Texts: limits, the duplicate check, substring search *)

Lemma Repeat_length n : String.length (strings.Repeat "." n) = n.
Proof. induction n as [|n IH]; simpl; [reflexivity | rewrite IH; reflexivity]. Qed.

Lemma TruncateText_length text maxLength :
  (0 <= maxLength)%Z -> (len (discord.TruncateText text maxLength) <= maxLength)%Z.
Proof.
  intros H. unfold discord.TruncateText.
  destruct (len text <=? maxLength)%Z eqn:E1; [apply Z.leb_le; exact E1|].
  apply Z.leb_gt in E1.
  destruct (maxLength <=? 3)%Z eqn:E2.
  - unfold len. rewrite Repeat_length. lia.
  - apply Z.leb_gt in E2. unfold len, slice_to in *.
    rewrite append_length, substring_length by lia. simpl. lia.
Qed.

(** X17.  TruncateText keeps a text within the limit it is given: the
    result is never longer than a limit that is not negative, it is the
    text itself when the text fits, and otherwise, for a limit above three,
    the first limit - 3 bytes of the text followed by three dots.  So the
    embed of the slash commands has a title of at most 256 and a
    description of at most 2048 bytes for every article. *)
Theorem truncated_text_fits text maxLength lib item :
  (0 <= maxLength)%Z ->
  (len (discord.TruncateText text maxLength) <= maxLength)%Z
  /\ ((len text <= maxLength)%Z -> discord.TruncateText text maxLength = text)
  /\ ((maxLength < len text)%Z -> (3 < maxLength)%Z ->
      discord.TruncateText text maxLength = slice_to text (maxLength - 3) ++ "...")
  /\ (len (discordgo.Title (discord.formatNewsEmbed lib item)) <= discord.MaxEmbedTitle)%Z
  /\ (len (discordgo.Description (discord.formatNewsEmbed lib item)) <= 2048)%Z.
Proof.
  intros H. split; [apply TruncateText_length; exact H|]. split; [|split; [|split]].
  - intros Hfit. unfold discord.TruncateText.
    apply Z.leb_le in Hfit. rewrite Hfit. reflexivity.
  - intros Hlong Hmax. unfold discord.TruncateText.
    apply Z.leb_gt in Hlong, Hmax. rewrite Hlong, Hmax. reflexivity.
  - apply TruncateText_length. unfold discord.MaxEmbedTitle. lia.
  - apply TruncateText_length. lia.
Qed.

Lemma X17_witness :
  (len (discord.TruncateText (strings.Repeat "a" 257) 256) <= 256)%Z
  /\ ((len (strings.Repeat "a" 257) <= 256)%Z ->
      discord.TruncateText (strings.Repeat "a" 257) 256 = strings.Repeat "a" 257)
  /\ ((256 < len (strings.Repeat "a" 257))%Z -> (3 < 256)%Z ->
      discord.TruncateText (strings.Repeat "a" 257) 256
      = slice_to (strings.Repeat "a" 257) (256 - 3) ++ "...")
  /\ (len (discordgo.Title (discord.formatNewsEmbed sampleLib longTitleItem))
      <= discord.MaxEmbedTitle)%Z
  /\ (len (discordgo.Description (discord.formatNewsEmbed sampleLib longTitleItem))
      <= 2048)%Z.
Proof.
  apply (truncated_text_fits (strings.Repeat "a" 257) 256 sampleLib longTitleItem).
  discriminate.
Defined.

(** *** The duplicate check lets through *)

Lemma countMatches_bound text words :
  forall acc,
    (news.countMatches text words acc
     <= acc + Z.of_nat (List.length (filter (fun word => (3 <? len word)%Z) words)))%Z.
Proof.
  induction words as [|word rest IH]; intros acc; simpl; [lia|].
  specialize (IH (if (3 <? len word)%Z && strings.Contains text word
                  then (acc + 1)%Z else acc)).
  destruct (3 <? len word)%Z; simpl in *;
    [destruct (strings.Contains text word)|]; simpl in *; lia.
Qed.

Lemma scanMessages_few_words lib selfID words messages :
  (List.length (filter (fun word => (3 <? len word)%Z) words) < 2)%nat ->
  news.scanMessages lib selfID words messages = false.
Proof.
  intros Hfew. induction messages as [|m rest IH]; simpl; [reflexivity|].
  destruct (negb _); [exact IH|].
  match goal with
  | |- context [news.countMatches ?text words 0] =>
      pose proof (countMatches_bound text words 0) as Hb
  end.
  replace (2 <=? news.countMatches _ words 0)%Z with false
    by (symmetry; apply Z.leb_gt; lia).
  rewrite andb_false_r. exact IH.
Qed.

Lemma scanMessages_no_own lib selfID words messages :
  Forall (fun m => discordgo.AuthorID m <> selfID) messages ->
  news.scanMessages lib selfID words messages = false.
Proof.
  induction 1 as [|m rest Hm _ IH]; simpl; [reflexivity|].
  apply String.eqb_neq in Hm. rewrite Hm. exact IH.
Qed.

(** X18.  When in doubt the duplicate check of the catch-up lets the
    article through: it answers false when the recent messages cannot be
    read, when none of them is a message of the bot itself, and whenever
    the lowered title has fewer than two words longer than three bytes,
    whatever the channel contains.  The words are the ones strings.Fields
    makes of what strings.ToLower returns. *)
Theorem duplicate_check_lets_through env cfg C item w :
  let dup := fst (news.IsDuplicateInRecentMessages env cfg C item w) in
  (forall e, ChannelMessages env (chat_calls w) C (types.MsgCount cfg) = Err e ->
             dup = false)
  /\ (forall messages,
         ChannelMessages env (chat_calls w) C (types.MsgCount cfg) = Ok messages ->
         Forall (fun m => discordgo.AuthorID m <> self_id env) messages ->
         dup = false)
  /\ ((List.length
         (filter (fun word => (3 <? len word)%Z)
                 (strings_Fields (lib env)
                    (strings_ToLower (lib env) (types.Title item)))) < 2)%nat ->
      dup = false).
Proof.
  intros dup. subst dup.
  unfold news.IsDuplicateInRecentMessages, news.recentMessages, bind, ret. simpl.
  split; [|split].
  - intros e ->. reflexivity.
  - intros messages -> Hown.
    destruct (_ =? 0)%Z; [reflexivity|]. simpl.
    apply scanMessages_no_own. exact Hown.
  - intros Hfew.
    destruct (ChannelMessages env (chat_calls w) C (types.MsgCount cfg)); [|reflexivity].
    destruct (_ =? 0)%Z; [reflexivity|]. simpl.
    apply scanMessages_few_words. exact Hfew.
Qed.

(** The bot has announced the Tholian Assembly in the channel; an article
    titled "Tholian Day" has one word longer than three bytes, and goes
    through although that word is in the announcement. *)
Lemma X18_witness :
  fst (news.IsDuplicateInRecentMessages tholianEnv sampleConfig "CH2"
         (titledItem "Tholian Day") subscribedWorld) = false.
Proof.
  apply (proj2 (proj2 (duplicate_check_lets_through tholianEnv sampleConfig "CH2"
                         (titledItem "Tholian Day") subscribedWorld))).
  vm_compute. apply le_n.
Defined.

Example announced_word_is_found :
  strings.Contains
    (spec.messageText sampleLib tholianMessage) "tholian" = true
  /\ fst (news.IsDuplicateInRecentMessages tholianEnv sampleConfig "CH2"
            (titledItem "Tholian Assembly Update") subscribedWorld) = true.
Proof. split; vm_compute; reflexivity. Qed.

(** *** The substring search of the retry loop *)

Lemma substring_short i n s :
  (String.length (substring i n s) <= String.length s - i)%nat.
Proof.
  revert i n. induction s as [|c r IH]; intros [|i] [|n]; simpl; try lia.
  - specialize (IH 0%nat n). lia.
  - apply IH.
  - apply IH.
Qed.

Lemma prefix_occurs t s : prefix t s = true -> occurs s t.
Proof.
  intros H. apply prefix_correct in H. exists 0%nat. split; [|exact H].
  pose proof (substring_short 0 (String.length t) s) as Hs.
  rewrite H in Hs. lia.
Qed.

Lemma Contains_occurs s t : strings.Contains s t = true <-> occurs s t.
Proof.
  induction s as [|c r IH].
  - cbn [strings.Contains]. rewrite orb_false_r. split; [apply prefix_occurs|].
    intros (i & Hi & H).
    destruct t; [reflexivity | simpl in Hi; lia].
  - cbn [strings.Contains]. rewrite orb_true_iff, IH. split.
    + intros [H | (i & Hi & H)]; [apply prefix_occurs; exact H|].
      exists (S i). split; [simpl; lia | exact H].
    + intros ([|i] & Hi & H).
      * left. apply prefix_correct. exact H.
      * right. exists i. split; [simpl in Hi; lia | exact H].
Qed.

Lemma slice_substring s i t :
  discord.slice s (Z.of_nat i) (Z.of_nat i + len t)
  = substring i (String.length t) s.
Proof.
  unfold discord.slice, len. f_equal; lia.
Qed.

Lemma findInString_occurs s t : discord.findInString s t = true <-> occurs s t.
Proof.
  unfold discord.findInString, occurs. rewrite existsb_exists. split.
  - intros (i & Hin & H). apply in_seq in Hin. rewrite slice_substring in H.
    apply String.eqb_eq in H. exists i. split; [unfold len in Hin; lia | exact H].
  - intros (i & Hi & H). exists i. split.
    + apply in_seq. unfold len. lia.
    + rewrite slice_substring, H. apply String.eqb_refl.
Qed.

Lemma occurs_length s t : occurs s t -> (String.length t <= String.length s)%nat.
Proof. intros (i & Hi & _). lia. Qed.

Lemma substring_all s : substring 0 (String.length s) s = s.
Proof. induction s as [|c r IH]; simpl; [reflexivity | rewrite IH; reflexivity]. Qed.

(** X19.  The substring test written for the retry loop is
    strings.Contains: for all texts both return the same answer.  So,
    whatever the comment on it says, it tells upper from lower case. *)
Theorem contains_is_Contains s substr :
  discord.contains s substr = strings.Contains s substr.
Proof.
  apply eq_true_iff_eq. rewrite Contains_occurs.
  unfold discord.contains.
  rewrite andb_true_iff, orb_true_iff, andb_true_iff, !orb_true_iff,
    findInString_occurs, Z.leb_le, Z.ltb_lt.
  split.
  - intros (Hle & [H | (Hlt & [[H | H] | H])]).
    + apply String.eqb_eq in H. subst substr.
      exists 0%nat. split; [lia | apply substring_all].
    + apply String.eqb_eq in H. exists 0%nat. split; [unfold len in Hle; lia|].
      unfold discord.slice in H. rewrite Z.sub_0_r in H. unfold len in H.
      rewrite Nat2Z.id in H. exact H.
    + apply String.eqb_eq in H. unfold len in *.
      exists (String.length s - String.length substr)%nat. split; [lia|].
      unfold discord.slice in H.
      replace (Z.to_nat (Z.of_nat (String.length s) - Z.of_nat (String.length substr)))
        with (String.length s - String.length substr)%nat in H by lia.
      replace (Z.to_nat (Z.of_nat (String.length s)
                         - (Z.of_nat (String.length s) - Z.of_nat (String.length substr))))
        with (String.length substr) in H by lia.
      exact H.
    + exact H.
  - intros H. pose proof (occurs_length _ _ H) as Hlen. unfold len.
    split; [lia|].
    destruct (Nat.eq_dec (String.length substr) (String.length s)) as [E | E].
    + left. destruct H as (i & Hi & H). assert (i = 0)%nat by lia. subst i.
      rewrite E, substring_all in H. subst. apply String.eqb_refl.
    + right. split; [lia|]. right. exact H.
Qed.

Example contains_tells_case :
  discord.contains "gateway Timeout" "timeout" = false
  /\ discord.isRetryableError (Some (discord.otherError "gateway Timeout")) = Some false
  /\ discord.isRetryableError (Some (discord.otherError "gateway timeout")) = Some true.
Proof. repeat split; vm_compute; reflexivity. Qed.

(** *** The retry loop *)

Lemma retryFrom_spec operation config remaining :
  forall attempt lastErr,
    (forall j, (j < attempt)%nat ->
       exists e, operation j = Some e /\ discord.isRetryableError (Some e) = Some true) ->
    (lastErr = match attempt with O => None | S k => operation k end) ->
    let out := discord.retryFrom operation config remaining attempt lastErr in
    (attempt <= snd out <= attempt + remaining)%nat
    /\ (forall j, (S j < snd out)%nat ->
          exists e, operation j = Some e
                    /\ discord.isRetryableError (Some e) = Some true)
    /\ match fst out with
       | discord.succeeded =>
           exists k, snd out = S k /\ operation k = None
       | discord.failed err =>
           exists k, snd out = S k /\ operation k = Some err
                     /\ discord.isRetryableError (Some err) = Some false
       | discord.gaveUp retries lastErr' =>
           retries = discord.MaxRetries config
           /\ snd out = (attempt + remaining)%nat
           /\ lastErr' = match snd out with O => None | S k => operation k end
           /\ (forall j, (j < snd out)%nat ->
                 exists e, operation j = Some e
                           /\ discord.isRetryableError (Some e) = Some true)
       | discord.panicked =>
           exists k err, snd out = S k /\ operation k = Some err
                         /\ discord.isRetryableError (Some err) = None
       end.
Proof.
  induction remaining as [|rest IH]; intros attempt lastErr Hprev Hlast; cbn zeta.
  - simpl. split; [lia|]. split; [intros j Hj; apply Hprev; lia|].
    rewrite Nat.add_0_r. auto.
  - cbn [discord.retryFrom].
    destruct (operation attempt) as [err|] eqn:Eop.
    + destruct (discord.isRetryableError (Some err)) as [[|]|] eqn:Er; cbn [negb].
      * specialize (IH (S attempt) (Some err)).
        assert (Hprev' : forall j, (j < S attempt)%nat ->
                   exists e, operation j = Some e
                             /\ discord.isRetryableError (Some e) = Some true).
        { intros j Hj. destruct (Nat.eq_dec j attempt) as [-> | Hne];
            [exists err; auto | apply Hprev; lia]. }
        specialize (IH Hprev' (eq_sym Eop)). cbn zeta in IH.
        destruct IH as (Hb & Hj & Hout). split; [lia|]. split; [exact Hj|].
        destruct (fst (discord.retryFrom operation config rest (S attempt) (Some err)));
          try exact Hout.
        destruct Hout as (H1 & H2 & H3 & H4). repeat split; auto. lia.
      * simpl. split; [lia|]. split; [intros j Hj; apply Hprev; lia|].
        exists attempt. auto.
      * simpl. split; [lia|]. split; [intros j Hj; apply Hprev; lia|].
        exists attempt, err. auto.
    + simpl. split; [lia|]. split; [intros j Hj; apply Hprev; lia|].
      exists attempt. auto.
Qed.

(** X20.  The retry loop calls the operation at most MaxRetries + 1 times
    (never, when MaxRetries is negative), and every call but the last one
    has failed with an error worth a retry.  It returns nil exactly when
    the last call succeeded, the error itself when the last call failed
    with an error not worth a retry, and the wrapped last error when all
    MaxRetries + 1 calls failed with errors worth one.  It panics only on
    a REST error without a response, or without a message when the status
    does not decide. *)
Theorem withRetry_attempts operation config :
  let out := discord.withRetry operation config in
  (Z.of_nat (snd out) <= Z.max 0 (discord.MaxRetries config + 1))%Z
  /\ (forall j, (S j < snd out)%nat ->
        exists e, operation j = Some e
                  /\ discord.isRetryableError (Some e) = Some true)
  /\ match fst out with
     | discord.succeeded =>
         exists k, snd out = S k /\ operation k = None
     | discord.failed err =>
         exists k, snd out = S k /\ operation k = Some err
                   /\ discord.isRetryableError (Some err) = Some false
     | discord.gaveUp retries lastErr =>
         retries = discord.MaxRetries config
         /\ Z.of_nat (snd out) = Z.max 0 (discord.MaxRetries config + 1)
         /\ lastErr = match snd out with O => None | S k => operation k end
         /\ (forall j, (j < snd out)%nat ->
               exists e, operation j = Some e
                         /\ discord.isRetryableError (Some e) = Some true)
     | discord.panicked =>
         exists k Response Message,
           snd out = S k
           /\ operation k = Some (discord.RESTError Response Message)
           /\ (Response = None
               \/ (Message = None
                   /\ forall StatusCode, Response = Some StatusCode ->
                        ~ In StatusCode [429; 500; 502; 503; 504]%Z))
     end.
Proof.
  intros out. subst out. unfold discord.withRetry.
  pose proof (retryFrom_spec operation config
                (Z.to_nat (discord.MaxRetries config + 1)) 0 None
                (fun j Hj => match Nat.nlt_0_r j Hj with end) eq_refl) as H.
  cbn zeta in H. destruct H as (Hb & Hj & Hout).
  split; [lia|]. split; [exact Hj|].
  destruct (fst (discord.retryFrom operation config _ 0 None)); try exact Hout.
  - destruct Hout as (H1 & H2 & H3 & H4). repeat split; auto. lia.
  - destruct Hout as (k & err & Hk & Hop & Hp).
    destruct err as [[StatusCode|] [Code|]|text]; cbn in Hp.
    + destruct (StatusCode =? 429)%Z; [discriminate|].
      destruct (_ || _); discriminate.
    + exists k, (Some StatusCode), None. split; [exact Hk|]. split; [exact Hop|].
      right. split; [reflexivity|]. intros z Hz. injection Hz as <-.
      destruct (StatusCode =? 429)%Z eqn:E1; [discriminate|].
      destruct (_ || _) eqn:E2; [discriminate|].
      rewrite !orb_false_iff in E2. destruct E2 as [[[E2 E3] E4] E5].
      apply Z.eqb_neq in E1, E2, E3, E4, E5. simpl. intuition lia.
    + exists k, None, (Some Code). auto.
    + exists k, None, None. auto.
    + discriminate.
Qed.

(** A rate limit twice, then success: three calls.  A missing permission:
    one call.  A server that keeps failing: four calls.  A refusal whose
    body is not a message of the API: the loop panics. *)
Example retries_of_the_default_config :
  discord.withRetry (fun k => if (k <? 2)%nat
                              then Some (discord.RESTError (Some 429%Z) (Some 0%Z))
                              else None)
    discord.DefaultRetryConfig = (discord.succeeded, 3%nat)
  /\ discord.withRetry (fun _ => Some (discord.RESTError (Some 403%Z) (Some 50013%Z)))
       discord.DefaultRetryConfig
     = (discord.failed (discord.RESTError (Some 403%Z) (Some 50013%Z)), 1%nat)
  /\ discord.withRetry (fun _ => Some (discord.RESTError (Some 503%Z) (Some 0%Z)))
       discord.DefaultRetryConfig
     = (discord.gaveUp 3%Z (Some (discord.RESTError (Some 503%Z) (Some 0%Z))), 4%nat)
  /\ discord.withRetry (fun _ => Some (discord.RESTError (Some 403%Z) None))
       discord.DefaultRetryConfig
     = (discord.panicked, 1%nat).
Proof. repeat split; vm_compute; reflexivity. Qed.

(** *** The platforms of a channel in the catch-up *)

Lemma filterNewsByPlatforms_In lib newsItems platforms item :
  platforms <> [] ->
  In item (news.filterNewsByPlatforms lib newsItems platforms)
  <-> In item newsItems
      /\ exists p q, In p (types.Platforms item) /\ In q platforms
                     /\ strings_ToLower lib p = strings_ToLower lib q.
Proof.
  intros Hne. unfold news.filterNewsByPlatforms.
  destruct platforms as [|q0 rest]; [contradiction|].
  cbn [List.length].
  replace (Z.of_nat (S (List.length rest)) =? 0)%Z with false
    by (symmetry; apply Z.eqb_neq; lia).
  rewrite filter_In. apply and_iff_compat_l.
  rewrite existsb_exists. split.
  - intros (p & Hp & H). apply existsb_exists in H as (q' & Hq & H).
    apply in_map_iff in Hq as (q & <- & Hq). apply String.eqb_eq in H.
    exists p, q. auto.
  - intros (p & q & Hp & Hq & H). exists p. split; [exact Hp|].
    apply existsb_exists. exists (strings_ToLower lib q). split.
    + apply in_map. exact Hq.
    + apply String.eqb_eq. exact H.
Qed.

(** X21.  For a registered channel the list of platforms read from the
    store is never empty, so the catch-up always filters for it: it keeps
    exactly the articles one of whose platforms is lowered by
    strings.ToLower to the same text as one of the channel's, and never an
    article that names no platform. *)
Theorem registered_channel_always_filters env C w platforms newsItems :
  sqlite.find_channel C (db w) <> None ->
  fst (database.GetChannelPlatforms env C w) = Ok platforms ->
  platforms <> []
  /\ (forall item,
        In item (news.filterNewsByPlatforms (lib env) newsItems platforms)
        <-> In item newsItems
            /\ exists p q, In p (types.Platforms item) /\ In q platforms
                           /\ strings_ToLower (lib env) p = strings_ToLower (lib env) q)
  /\ (forall item, types.Platforms item = [] ->
                   ~ In item (news.filterNewsByPlatforms (lib env) newsItems platforms)).
Proof.
  intros Hreg Hget.
  assert (Hne : platforms <> []).
  { destruct (GetChannelPlatforms_cases env C w) as [E | (e & E)];
      rewrite E in Hget; [|discriminate].
    destruct (sqlite.find_channel C (db w)); [|contradiction].
    injection Hget as <-. apply Split_not_empty. }
  split; [exact Hne|]. split.
  - intros item. apply filterNewsByPlatforms_In. exact Hne.
  - intros item Hnone Hin. apply (filterNewsByPlatforms_In _ _ _ _ Hne) in Hin.
    destruct Hin as (_ & p & _ & Hp & _). rewrite Hnone in Hp. exact Hp.
Qed.

(** CH1 is registered for pc; of the two articles the one for PC is kept,
    the one for xbox is not. *)
Lemma X21_witness :
  ["pc"] <> []
  /\ (forall item,
        In item (news.filterNewsByPlatforms (lib quietEnv)
                   [platformItem 101 "PC"; platformItem 102 "xbox"] ["pc"])
        <-> In item [platformItem 101 "PC"; platformItem 102 "xbox"]
            /\ exists p q, In p (types.Platforms item) /\ In q ["pc"]
                           /\ strings_ToLower (lib quietEnv) p
                              = strings_ToLower (lib quietEnv) q)
  /\ (forall item, types.Platforms item = [] ->
                   ~ In item (news.filterNewsByPlatforms (lib quietEnv)
                                [platformItem 101 "PC"; platformItem 102 "xbox"]
                                ["pc"])).
Proof.
  apply (registered_channel_always_filters quietEnv "CH1" twoChannelsWorld
           ["pc"] [platformItem 101 "PC"; platformItem 102 "xbox"]).
  - vm_compute. discriminate.
  - vm_compute. reflexivity.
Defined.

(** The article for PC is kept for the channel registered for pc.  After
    the platforms of a channel were set to the empty list the channel
    reads back one empty name, and the catch-up keeps nothing for it; a
    channel that is not registered reads back no name at all and nothing
    is filtered. *)
Example empty_platforms_filter_everything :
  news.filterNewsByPlatforms sampleLib
    [platformItem 101 "PC"; platformItem 102 "xbox"] ["pc"]
  = [platformItem 101 "PC"]
  /\ news.filterNewsByPlatforms sampleLib [cachedItem 101; cachedItem 102]
       (strings.Split "" ",") = []
  /\ fst (database.GetChannelPlatforms quietEnv "CH9" twoChannelsWorld) = Ok []
  /\ news.filterNewsByPlatforms sampleLib [cachedItem 101; cachedItem 102] []
     = [cachedItem 101; cachedItem 102].
Proof. repeat split; vm_compute; reflexivity. Qed.

(** ** The import of a channels file *)

Lemma Join_not_empty x rest sep : x <> "" -> strings.Join (x :: rest) sep <> "".
Proof.
  intros Hx. unfold strings.Join. cbn [String.concat].
  destruct rest; [exact Hx|].
  destruct x; [contradiction | discriminate].
Qed.

Lemma parseChannelEntry_entry lib text channelID platformsStr :
  database.parseChannelEntry lib text = Some (channelID, platformsStr) ->
  strconv.ParseUint channelID <> None /\ platformsStr <> "".
Proof.
  unfold database.parseChannelEntry.
  destruct (_ || _); [discriminate|].
  destruct (negb _); [discriminate|].
  destruct (strings.Split _ "|") as [|part0 [|part1 [|part2 parts]]]; try discriminate.
  destruct (strconv.ParseUint (strings_TrimSpace lib part0)) eqn:Eid; [|discriminate].
  intros H. injection H as <- <-. split; [rewrite Eid; discriminate|].
  set (valid := filter _ _).
  destruct (Z.of_nat (List.length valid) =? 0)%Z eqn:E0; [discriminate|].
  destruct valid as [|x rest] eqn:Ev; [discriminate|].
  apply Join_not_empty.
  assert (Hin : In x valid) by (rewrite Ev; left; reflexivity).
  apply filter_In in Hin as [_ Hx].
  apply negb_true_iff, String.eqb_neq in Hx. exact Hx.
Qed.

Lemma find_none_not_in id (l : list sqlite.ChannelRow) :
  find (fun r => String.eqb (sqlite.ch_id r) id) l = None ->
  ~ In id (map sqlite.ch_id l).
Proof.
  intros H Hin. apply in_map_iff in Hin as (r & Hr & Hin).
  apply (find_none _ _ H) in Hin. simpl in Hin.
  rewrite Hr, String.eqb_refl in Hin. discriminate.
Qed.

Lemma find_app_none {A} (f : A -> bool) l1 l2 :
  find f (l1 ++ l2) = None -> find f l1 = None /\ find f l2 = None.
Proof.
  induction l1 as [|x l1 IH]; simpl; [auto|].
  destruct (f x); [discriminate | exact IH].
Qed.

Lemma addsChannels_refl s : addsChannels s s.
Proof.
  exists []. split; [|split; constructor].
  destruct s; unfold sqlite.set_channels; simpl. rewrite app_nil_r. reflexivity.
Qed.

Lemma addsChannels_trans s1 s2 s3 :
  addsChannels s1 s2 -> addsChannels s2 s3 -> addsChannels s1 s3.
Proof.
  intros (a1 & E1 & N1 & F1) (a2 & E2 & N2 & F2).
  assert (Hold : forall r, In r a2 ->
            find (fun x => String.eqb (sqlite.ch_id x) (sqlite.ch_id r))
                 (sqlite.channels s1) = None
            /\ find (fun x => String.eqb (sqlite.ch_id x) (sqlite.ch_id r)) a1 = None).
  { intros r Hr. rewrite Forall_forall in F2. destruct (F2 r Hr) as (_ & _ & _ & Hf).
    rewrite E1 in Hf. unfold sqlite.find_channel in Hf.
    cbn [sqlite.channels sqlite.set_channels] in Hf.
    apply find_app_none. exact Hf. }
  exists (a1 ++ a2)%list. split; [|split].
  - rewrite E2, E1. destruct s1; unfold sqlite.set_channels; simpl.
    rewrite app_assoc. reflexivity.
  - rewrite map_app. apply NoDup_app; [exact N1 | exact N2 |].
    intros id Hin1 Hin2. apply in_map_iff in Hin2 as (r & <- & Hr).
    destruct (Hold r Hr) as [_ Hn]. exact (find_none_not_in _ _ Hn Hin1).
  - apply Forall_app. split; [exact F1|].
    rewrite Forall_forall in *. intros r Hr.
    destruct (F2 r Hr) as (H1 & H2 & H3 & _). repeat split; auto.
    apply (Hold r Hr).
Qed.

Lemma insert_channel_adds id platforms n s s' :
  strconv.ParseUint id <> None -> platforms <> "" ->
  sqlite.insert_channel id platforms n s = Ok s' -> addsChannels s s'.
Proof.
  intros Hid Hp. unfold sqlite.insert_channel.
  destruct (sqlite.find_channel id s) eqn:Ef; [discriminate|].
  intros H. injection H as <-. eexists. split; [reflexivity|]. split.
  - simpl. constructor; [intros [] | constructor].
  - constructor; [|constructor]. simpl. auto.
Qed.

Lemma importLine_adds env text : Respects addsChannels (database.importLine env text).
Proof.
  unfold database.importLine.
  destruct (database.parseChannelEntry (lib env) text) as [[channelID platformsStr]|] eqn:Ep;
    [|apply Respects_ret, addsChannels_refl].
  apply parseChannelEntry_entry in Ep as [Hid Hp].
  apply Respects_bind;
    [apply addsChannels_trans | apply Respects_Query, addsChannels_refl |].
  intros [u|e]; [apply Respects_ret, addsChannels_refl|].
  destruct e; try (apply Respects_ret, addsChannels_refl).
  apply Respects_bind; [apply addsChannels_trans | |].
  - apply Respects_Exec; [apply addsChannels_refl|].
    intros n s s'. apply insert_channel_adds; assumption.
  - intros [u|e]; apply Respects_ret, addsChannels_refl.
Qed.

Lemma importLines_adds env texts : Respects addsChannels (database.importLines env texts).
Proof.
  induction texts as [|text rest IH]; cbn [database.importLines];
    [apply Respects_ret, addsChannels_refl|].
  apply Respects_bind; [apply addsChannels_trans | apply importLine_adds |].
  intros [u|e]; [exact IH | apply Respects_ret, addsChannels_refl].
Qed.

Lemma Query_tx {A} env (q : sqlite.Store -> result A) w : tx (snd (Query env q w)) = tx w.
Proof.
  unfold Query, bind, driver_call, ret. destruct (db_fault env (db_calls w)); reflexivity.
Qed.

Lemma importLine_tx env text w : tx (snd (database.importLine env text w)) = tx w.
Proof.
  unfold database.importLine.
  destruct (database.parseChannelEntry (lib env) text) as [[channelID platformsStr]|];
    [|reflexivity].
  unfold bind at 1. pose proof (Query_tx env (sqlite.select_platforms channelID) w) as Hq.
  destruct (Query env _ w) as [[p|e] w1]; simpl in Hq; [exact Hq|].
  destruct e; try exact Hq.
  unfold bind. pose proof (Exec_tx env (sqlite.insert_channel channelID platformsStr) w1) as He.
  destruct (Exec env _ w1) as [[u|e] w2]; simpl in *; congruence.
Qed.

Lemma importLines_tx env texts :
  forall w, tx (snd (database.importLines env texts w)) = tx w.
Proof.
  induction texts as [|text rest IH]; intros w; cbn [database.importLines];
    [reflexivity|].
  unfold bind. pose proof (importLine_tx env text w) as H1.
  destruct (database.importLine env text w) as [[u|e] w1]; simpl in *;
    [rewrite IH; exact H1 | exact H1].
Qed.

(** X22.  Whatever the file holds and whichever driver calls fail, the
    import only adds channels: the store afterwards is the store before
    with new rows after the old ones of the channels table, every new row
    is in PROD with a numeric channel id that was not registered and a
    non-empty platform list, and no id is added twice; no subscription is
    changed and nothing is marked as posted.  When the import returns an
    error, the store is as it was. *)
Theorem import_only_adds env open filePath w :
  let out := database.ImportChannelsFromFile env open filePath w in
  addsChannels (db w) (db (snd out))
  /\ (forall e, fst out = Err e -> db (snd out) = db w).
Proof.
  intros out. subst out.
  assert (H : exists r w',
             database.ImportChannelsFromFile env open filePath w = (r, w')
             /\ addsChannels (db w) (db w')
             /\ (forall e, r = Err e -> db w' = db w)).
  { unfold database.ImportChannelsFromFile.
    destruct (open filePath) as [file|e0].
    2: { eexists _, _. split; [reflexivity|].
         split; [apply addsChannels_refl | reflexivity]. }
    unfold bind at 1. rewrite Begin_cases.
    destruct (db_fault env (db_calls w)).
    { eexists _, _. split; [reflexivity|].
      split; [apply addsChannels_refl | reflexivity]. }
    unfold deferRollback. unfold bind at 1. unfold bind at 1.
    set (w1 := with_tx (Some (db w)) _).
    pose proof (importLines_adds env (database.lines file) w1) as Hadds.
    pose proof (importLines_tx env (database.lines file) w1) as Htx.
    destruct (database.importLines env (database.lines file) w1) as [[u|e1] w2];
      simpl in Hadds, Htx.
    - destruct (database.scan_error file) as [e2|].
      + unfold ret at 1. unfold bind, Rollback, ret. rewrite Htx. simpl.
        eexists _, _. split; [reflexivity|].
        split; [apply addsChannels_refl | reflexivity].
      + unfold bind at 1. rewrite Commit_cases, Htx.
        destruct (db_fault env (db_calls w2)); unfold bind, Rollback, ret; simpl;
          eexists _, _; (split; [reflexivity|]).
        * split; [apply addsChannels_refl | reflexivity].
        * split; [exact Hadds | discriminate].
    - unfold ret at 1. unfold bind, Rollback, ret. rewrite Htx. simpl.
      eexists _, _. split; [reflexivity|].
      split; [apply addsChannels_refl | reflexivity]. }
  destruct H as (r & w' & -> & H1 & H2). exact (conj H1 H2).
Qed.





(** The channels of the sample file: the second entry of 987654321 and the
    lines that are no entries leave no trace, and a channel without
    platforms gets the default ones.  Unlike a registration, the import
    marks nothing: the articles of the cache are still to be posted to the
    new channels. *)
Example import_of_the_sample_file :
  let out := database.ImportChannelsFromFile quietEnv openChannelsFile "channels.txt"
               twoChannelsWorld in
  map (fun r => (sqlite.ch_id r, sqlite.ch_platforms r, sqlite.ch_environment r))
      (sqlite.channels (db (snd out)))
  = [ ("CH1", "pc", "PROD"); ("CH2", "xbox,ps", "DEV");
      ("123456789", "pc,xbox,ps", "PROD"); ("987654321", "PC,ps", "PROD");
      ("555", "pc,xbox,ps", "PROD") ]
  /\ sqlite.posted_news (db (snd out)) = sqlite.posted_news (db twoChannelsWorld)
  /\ fst (database.IsNewsPosted quietEnv 101 "123456789" (snd out)) = Ok false.
Proof. repeat split; vm_compute; reflexivity. Qed.
